(** * Turn orchestrator: a shallow embedding of the five revisions of the
      worker's [fetch] handler and of [getCorsHeaders].

    The repository holds five revisions of one Cloudflare-worker file:
    - [Part000]  (src/unnamed/part_000): static CORS, raw-text generation,
      a generation failure aborts the turn;
    - [Part001A] (src/unnamed/part_001, first file): as above with the
      dynamic CORS helper [getCorsHeaders];
    - [Part001B] (src/unnamed/part_001, second file): minimum audio size,
      silence short-circuit, generation failures degrade to a fallback;
    - [Part002]  (src/unnamed/part_002): as above without the size guard
      and with the conversation history passed to the generation service;
    - [Index]    (src/src/index.ts): structured-JSON generation contract,
      history with role mapping, compliance score header.

    What is modelled, and how:
    - strings are JavaScript strings, sequences of UTF-16 code units, with
      [trim], [split] and [length] as ECMAScript defines them;
    - JSON values are a tagged union with [undefined]; property reads,
      optional chaining, truthiness, ToString and spread follow the language
      on the values [JSON.parse] can return;
    - a handler runs in a monad that threads the state of the outside world,
      logs every outbound [fetch] with what it resolved to and carries thrown
      values, [try]/[catch] included; [console] output is left out, but not
      the string conversions its template literals perform, which can throw;
    - the runtime is a parameter ([Platform]): the JSON parser, the messages
      of runtime errors, whether header values are byte strings, and the
      network with its collaborators; a concrete parser and scripted
      collaborators ([Json], [Mock]) serve the closed examples;
    - numbers are doubles: a parsed number is the double nearest to the
      rational its literal denotes, and prints as Number::toString has it;
    - [Headers] and [Response] are the runtime's classes: a header value is
      stripped of the HTTP white space around it and refused with a TypeError
      when a line feed, carriage return or NUL is left in it, header names
      are compared without regard to case, and a response made of a string
      without a content type is typed [text/plain;charset=UTF-8];
    - a request body handed to [JSON.stringify] is recorded as the value
      itself. *)

From Stdlib Require Import List NArith ZArith QArith String Ascii Bool Lia.
Import ListNotations.

Set Implicit Arguments.
Set Warnings "-register-all".
Close Scope Q_scope.

(** ** JavaScript strings *)

Module JS.

(** A string is its sequence of UTF-16 code units. *)
Definition jsstring := list N.

(** An ASCII literal of the source. *)
Definition lit (s : string) : jsstring :=
  map N_of_ascii (list_ascii_of_string s).

(** The double quote, which the literals above cannot hold. *)
Definition dq : jsstring := [34%N].

Fixpoint str_eqb (a b : jsstring) : bool :=
  match a, b with
  | [], [] => true
  | x :: a', y :: b' => N.eqb x y && str_eqb a' b'
  | _, _ => false
  end.

(** ECMAScript WhiteSpace and LineTerminator code units, the ones
    [String.prototype.trim] strips. *)
Definition is_white_space (c : N) : bool :=
  (N.leb 9 c && N.leb c 13)            (* TAB LF VT FF CR *)
  || N.eqb c 32 || N.eqb c 160         (* SP NBSP *)
  || N.eqb c 5760                      (* U+1680 *)
  || (N.leb 8192 c && N.leb c 8202)    (* U+2000 .. U+200A *)
  || N.eqb c 8232 || N.eqb c 8233      (* LS PS *)
  || N.eqb c 8239 || N.eqb c 8287      (* U+202F U+205F *)
  || N.eqb c 12288 || N.eqb c 65279.   (* U+3000 U+FEFF *)

Fixpoint trimStart (s : jsstring) : jsstring :=
  match s with
  | c :: s' => if is_white_space c then trimStart s' else s
  | [] => []
  end.

Definition trimEnd (s : jsstring) : jsstring := rev (trimStart (rev s)).

(** [s.trim()] *)
Definition trim (s : jsstring) : jsstring := trimEnd (trimStart s).

(** [s.length] *)
Definition str_length (s : jsstring) : N := N.of_nat (List.length s).

(** [s.split(sep)] for a separator of one code unit: the pieces between the
    separators, [[""]] for the empty string. *)
Fixpoint split (sep : N) (s : jsstring) : list jsstring :=
  match s with
  | [] => [[]]
  | c :: s' =>
      if N.eqb c sep then [] :: split sep s'
      else match split sep s' with
           | piece :: rest => (c :: piece) :: rest
           | [] => [[c]]
           end
  end.

(** [l.includes(x)] on an array of strings. *)
Definition includes (l : list jsstring) (x : jsstring) : bool :=
  existsb (str_eqb x) l.

(** [s.startsWith(p)] *)
Fixpoint startsWith (p s : jsstring) : bool :=
  match p, s with
  | [], _ => true
  | x :: p', y :: s' => N.eqb x y && startsWith p' s'
  | _ :: _, [] => false
  end.

(** The string iterator, used by spread: one string per code point, a
    surrogate pair staying together. *)
Definition is_high_surrogate (c : N) : bool := N.leb 55296 c && N.leb c 56319.
Definition is_low_surrogate (c : N) : bool := N.leb 56320 c && N.leb c 57343.

Fixpoint code_points (s : jsstring) : list jsstring :=
  match s with
  | [] => []
  | c :: s' =>
      match s' with
      | d :: s'' =>
          if is_high_surrogate c && is_low_surrogate d
          then [c; d] :: code_points s''
          else [c] :: code_points s'
      | [] => [[c]]
      end
  end.

(** Decimal digits of a natural number. *)
Fixpoint digits_fuel (fuel : nat) (n : N) (acc : jsstring) : jsstring :=
  match fuel with
  | O => acc
  | S fuel' =>
      let acc' := (48 + N.modulo n 10)%N :: acc in
      if N.ltb n 10 then acc' else digits_fuel fuel' (N.div n 10) acc'
  end.

Definition digits (n : N) : jsstring :=
  digits_fuel (S (N.to_nat (N.log2 n))) n [].

(** *** Numbers

    A number of the handlers comes out of [JSON.parse]: it is the double
    nearest to the rational that its literal denotes. *)

(** The magnitude of a double: [m * 2^e] with [0 < m < 2^53] and
    [-1074 <= e <= 971], the mantissa of a normal number being at least
    [2^52]. *)
Inductive double :=
| DZero
| DFinite (m e : Z)
| DInfinity.

(** The fraction [(n / d) / b^e]. *)
Definition scaled (b n d e : Z) : Z * Z :=
  if (0 <=? e)%Z then (n, d * b ^ e)%Z else (n * b ^ (- e), d)%Z.

(** [floor (log2 (n / d))], for positive [n] and [d]. *)
Definition floor_log2 (n d : Z) : Z :=
  let l := (Z.log2 n - Z.log2 d)%Z in
  let (a, b) := scaled 2 n d l in
  if (a <? b)%Z then (l - 1)%Z else l.

(** The integer nearest to [a / b], the even one of two. *)
Definition round_half_even (a b : Z) : Z :=
  let q := (a / b)%Z in
  match (2 * (a mod b) ?= b)%Z with
  | Lt => q
  | Gt => (q + 1)%Z
  | Eq => if Z.even q then q else (q + 1)%Z
  end.

(** Round to nearest, ties to even, of the positive [n / d]: subnormal below
    [2^-1022], infinite from [2^1024 - 2^970] on. *)
Definition nearest_double (n d : Z) : double :=
  let e := Z.max (floor_log2 n d - 52) (-1074) in
  let (a, b) := scaled 2 n d e in
  let m := round_half_even a b in
  if (m =? 0)%Z then DZero
  else
    let (m, e) := if (m =? 2 ^ 53)%Z then (2 ^ 52, e + 1)%Z else (m, e) in
    if (971 <? e)%Z then DInfinity else DFinite m e.

Definition double_eqb (x y : double) : bool :=
  match x, y with
  | DZero, DZero | DInfinity, DInfinity => true
  | DFinite m e, DFinite m' e' => (m =? m')%Z && (e =? e')%Z
  | _, _ => false
  end.

(** The number that a JSON literal of value [q] parses to: its sign and its
    magnitude. *)
Definition to_double (q : Q) : bool * double :=
  match Qnum q with
  | Z0 => (false, DZero)
  | Zpos n => (false, nearest_double (Zpos n) (Zpos (Qden q)))
  | Zneg n => (true, nearest_double (Zpos n) (Zpos (Qden q)))
  end.

Section Shortest.
(** The double [x], of value [xn / xd]. *)
Variables (x : double) (xn xd : Z).

Definition below_pow10 (n : Z) : bool :=
  let (a, b) := scaled 10 xn xd n in (a <? b)%Z.

Fixpoint adjust (fuel : nat) (n : Z) : Z :=
  match fuel with
  | O => n
  | S fuel' =>
      if negb (below_pow10 n) then adjust fuel' (n + 1)%Z
      else if below_pow10 (n - 1) then adjust fuel' (n - 1)%Z
      else n
  end.

(** The least [n] with [x < 10^n], from an estimate that is off by one at
    most. *)
Definition decimal_exponent : Z :=
  adjust 8 ((Z.log2 xn - Z.log2 xd) * 30103 / 100000 + 1)%Z.

(** Does the decimal [s * 10^p] read back as [x]? *)
Definition reads_back (s p : Z) : bool :=
  let (a, b) := scaled 10 s 1 (- p) in double_eqb (nearest_double a b) x.

(** The decimal of the fewest digits [k] that reads back as [x], as its
    digits [s] and its exponent [n], for [s * 10^(n - k)]: the nearest to
    [x] when two decimals do, the even one at equal distance. *)
Fixpoint shortest (fuel : nat) (k n : Z) : Z * Z :=
  match fuel with
  | O => ((xn * 10 ^ 17 / xd)%Z, n)
  | S fuel' =>
      let (a, b) := scaled 10 xn xd (n - k) in
      let lo := (a / b)%Z in
      let hi := (lo + 1)%Z in
      let up := if (hi =? 10 ^ k)%Z then (1%Z, (n + 1)%Z) else (hi, n) in
      match reads_back lo (n - k), reads_back hi (n - k) with
      | true, true =>
          match (2 * (a mod b) ?= b)%Z with
          | Lt => (lo, n)
          | Gt => up
          | Eq => if Z.even lo then (lo, n) else up
          end
      | true, false => (lo, n)
      | false, true => up
      | false, false => shortest fuel' (k + 1)%Z n
      end
  end.

End Shortest.

Definition zeros (n : Z) : jsstring := repeat 48%N (Z.to_nat n).

(** Number::toString on the magnitude [m * 2^e]: the digits as they are up
    to 21 integer digits and down to six zeros after the point, the
    exponent form beyond. *)
Definition double_toString (m e : Z) : jsstring :=
  let (xn, xd) := scaled 2 m 1%Z (- e) in
  let (s, n) := shortest (DFinite m e) xn xd 17 1 (decimal_exponent xn xd) in
  let ds := digits (Z.to_N s) in
  let k := Z.of_nat (List.length ds) in
  if (k <=? n)%Z && (n <=? 21)%Z then ds ++ zeros (n - k)
  else if (0 <? n)%Z && (n <=? 21)%Z then
    firstn (Z.to_nat n) ds ++ lit "." ++ skipn (Z.to_nat n) ds
  else if (-6 <? n)%Z && (n <=? 0)%Z then lit "0." ++ zeros (- n) ++ ds
  else
    let exponent :=
      lit "e" ++ (if (n - 1 <? 0)%Z then lit "-" else lit "+")
      ++ digits (Z.abs_N (n - 1)) in
    match ds with
    | d :: (_ :: _) as more => d :: lit "." ++ more ++ exponent
    | _ => ds ++ exponent
    end.

(** [Number.prototype.toString] on the number of value [q]. *)
Definition number_toString (q : Q) : jsstring :=
  match to_double q with
  | (_, DZero) => lit "0"
  | (negative, DInfinity) => (if negative then lit "-" else []) ++ lit "Infinity"
  | (negative, DFinite m e) => (if negative then lit "-" else []) ++ double_toString m e
  end.

(** The only falsy numbers [JSON.parse] returns are the zeros. *)
Definition is_zero (q : Q) : bool :=
  match to_double q with
  | (_, DZero) => true
  | _ => false
  end.

End JS.

Import JS.

(** ** JSON values, exceptions and the conversions the handlers rely on *)

Module Value.

(** What [JSON.parse] and property reads produce. A number is kept as the
    rational that its literal denotes; what the handlers see of it, whether
    it is zero and how it prints, is seen of the double nearest to it. *)
Inductive jsval :=
| JUndefined
| JNull
| JBool (b : bool)
| JNum (n : Q)
| JStr (s : jsstring)
| JArr (items : list jsval)
| JObj (fields : list (jsstring * jsval)).

(** Errors raised by the runtime itself; their messages are the runtime's. *)
Inductive runtime_error :=
| TypeError
| SyntaxError (src : jsstring)
| NetworkError.

(** A thrown value: [new Error(message)] of the handler, or a runtime error. *)
Inductive exn :=
| Error (message : jsstring)
| Runtime (e : runtime_error).

Inductive outcome (A : Type) :=
| Val (a : A)
| Exn (e : exn).
Arguments Val {A} a.
Arguments Exn {A} e.

(** Own property of an object literal or of a parsed object. *)
Fixpoint lookup (k : jsstring) (fs : list (jsstring * jsval)) : jsval :=
  match fs with
  | [] => JUndefined
  | (k', v) :: fs' => if str_eqb k k' then v else lookup k fs'
  end.

Definition has_own (k : jsstring) (fs : list (jsstring * jsval)) : bool :=
  existsb (fun kv => str_eqb k (fst kv)) fs.

(** Truthiness, as [!x], [x || y] and [if (x)] test it. *)
Definition truthy (v : jsval) : bool :=
  match v with
  | JUndefined | JNull => false
  | JBool b => b
  | JNum n => negb (is_zero n)
  | JStr s => match s with [] => false | _ => true end
  | JArr _ | JObj _ => true
  end.

(** [x || y] *)
Definition or_else (x y : jsval) : jsval := if truthy x then x else y.

(** [v.name]: a TypeError on [null] and [undefined]. None of the names the
    handlers read (candidates, content, parts, text, role, compliance) is a
    property of a string, array, number or boolean. *)
Definition get_field (v : jsval) (name : jsstring) : outcome jsval :=
  match v with
  | JUndefined | JNull => Exn (Runtime TypeError)
  | JObj fs => Val (lookup name fs)
  | _ => Val JUndefined
  end.

(** [v[0]] on a value that is neither [null] nor [undefined]. *)
Definition index0 (v : jsval) : jsval :=
  match v with
  | JArr (x :: _) => x
  | JStr (c :: _) => JStr [c]
  | JObj fs => lookup (lit "0") fs
  | _ => JUndefined
  end.

(** [v?.name] and [v?.[0]] in a chain whose every later link is optional. *)
Definition opt_field (v : jsval) (name : jsstring) : jsval :=
  match v with
  | JUndefined | JNull => JUndefined
  | JObj fs => lookup name fs
  | _ => JUndefined
  end.

Definition opt_index0 (v : jsval) : jsval :=
  match v with
  | JUndefined | JNull => JUndefined
  | _ => index0 v
  end.

(** [Array.prototype.join] on the strings of the elements, the first of
    which takes no comma. *)
Fixpoint join_strings (l : list (outcome jsstring)) (first : bool) : outcome jsstring :=
  match l with
  | [] => Val []
  | o :: l' =>
      match o, join_strings l' false with
      | Val sx, Val rest => Val ((if first then [] else lit ",") ++ sx ++ rest)
      | Exn e, _ => Exn e
      | _, Exn e => Exn e
      end
  end.

(** ToString, as template literals, [Headers.set] and [JSON.parse] apply it.
    An array joins its elements, [null] and [undefined] counting as empty; a
    parsed object with an own [toString] entry has no callable conversion. *)
Fixpoint ToString (v : jsval) : outcome jsstring :=
  match v with
  | JUndefined => Val (lit "undefined")
  | JNull => Val (lit "null")
  | JBool true => Val (lit "true")
  | JBool false => Val (lit "false")
  | JNum n => Val (number_toString n)
  | JStr s => Val s
  | JArr items =>
      join_strings (map (fun x => match x with
                                  | JUndefined | JNull => Val []
                                  | _ => ToString x
                                  end) items) true
  | JObj fs =>
      if has_own (lit "toString") fs then Exn (Runtime TypeError)
      else Val (lit "[object Object]")
  end.

(** [v.toString()] *)
Definition call_toString (v : jsval) : outcome jsstring :=
  match v with
  | JUndefined | JNull => Exn (Runtime TypeError)
  | _ => ToString v
  end.

(** [v.trim()]: only strings have the method. *)
Definition call_trim (v : jsval) : outcome jsstring :=
  match v with
  | JStr s => Val (trim s)
  | _ => Exn (Runtime TypeError)
  end.

(** [[...v]]: arrays and strings are iterable, nothing else parsed is. *)
Definition spread (v : jsval) : outcome (list jsval) :=
  match v with
  | JArr items => Val items
  | JStr s => Val (map JStr (code_points s))
  | _ => Exn (Runtime TypeError)
  end.

End Value.

Import Value.

(** Induction on a JSON value, through the elements of its arrays. *)
Section jsval_induction.
Variable Q : jsval -> Prop.
Hypothesis HUndefined : Q JUndefined.
Hypothesis HNull : Q JNull.
Hypothesis HBool : forall b, Q (JBool b).
Hypothesis HNum : forall n, Q (JNum n).
Hypothesis HStr : forall s, Q (JStr s).
Hypothesis HArr : forall items, Forall Q items -> Q (JArr items).
Hypothesis HObj : forall fs, Q (JObj fs).

Fixpoint jsval_elements_ind (v : jsval) : Q v :=
  match v with
  | JUndefined => HUndefined
  | JNull => HNull
  | JBool b => HBool b
  | JNum n => HNum n
  | JStr s => HStr s
  | JArr items =>
      HArr ((fix all (l : list jsval) : Forall Q l :=
               match l with
               | [] => Forall_nil Q
               | x :: l' => Forall_cons x (jsval_elements_ind x) (all l')
               end) items)
  | JObj fs => HObj fs
  end.

End jsval_induction.

(** ** Requests, responses and the runtime the handlers run on *)

Module Runtime.

(** A [File] of a multipart form: [size] is the number of its bytes. *)
Record File := mkFile {
  file_name : jsstring;
  file_type : jsstring;
  file_bytes : list Byte.byte }.

Definition size (f : File) : N := N.of_nat (List.length (file_bytes f)).

Inductive FormDataEntryValue :=
| EString (s : jsstring)
| EFile (f : File).

(** A [FormData]: its entries in the order they were appended. *)
Definition FormData := list (jsstring * FormDataEntryValue).

(** [formData.get(name)]: the first entry of that name, [null] without one. *)
Fixpoint FormData_get (fd : FormData) (name : jsstring) : option FormDataEntryValue :=
  match fd with
  | [] => None
  | (k, v) :: fd' => if str_eqb name k then Some v else FormData_get fd' name
  end.

(** *** Header lists

    A list of headers, as a [Headers] object holds it and as an object
    literal gives it. Names are compared without regard to the case of their
    ASCII letters. *)
Definition Headers := list (jsstring * jsstring).

Definition lower (c : N) : N :=
  if N.leb 65 c && N.leb c 90 then (c + 32)%N else c.

Definition name_eqb (a b : jsstring) : bool := str_eqb (map lower a) (map lower b).

(** [headers.get(name)]: the values of that name, joined by a comma and a
    space; [null] without one. *)
Definition Headers_get (h : Headers) (name : jsstring) : option jsstring :=
  match filter (fun kv => name_eqb name (fst kv)) h with
  | [] => None
  | (_, v) :: more => Some (fold_left (fun acc kv => acc ++ lit ", " ++ snd kv) more v)
  end.

Definition Headers_delete (h : Headers) (name : jsstring) : Headers :=
  filter (fun kv => negb (name_eqb name (fst kv))) h.

(** The list after [set]: the first header of that name takes the value and
    the others go; without one, the header is added at the end. *)
Fixpoint Headers_put (h : Headers) (name value : jsstring) : Headers :=
  match h with
  | [] => [(name, value)]
  | (k, v) :: h' =>
      if name_eqb name k then (k, value) :: Headers_delete h' name
      else (k, v) :: Headers_put h' name value
  end.

(** HTTP white space, which the runtime strips from both ends of a header
    value, and the code units it refuses inside one. *)
Definition is_http_whitespace (c : N) : bool :=
  N.eqb c 9 || N.eqb c 10 || N.eqb c 13 || N.eqb c 32.

Fixpoint strip_start (s : jsstring) : jsstring :=
  match s with
  | c :: s' => if is_http_whitespace c then strip_start s' else s
  | [] => []
  end.

Definition header_normalize (v : jsstring) : jsstring :=
  rev (strip_start (rev (strip_start v))).

Definition forbidden_in_value (c : N) : bool :=
  N.eqb c 0 || N.eqb c 10 || N.eqb c 13.

Definition beyond_latin1 (c : N) : bool := N.ltb 255 c.

(** The inbound request: its method, its [Origin] header and what
    [request.formData()] resolves to ([None] when it rejects). *)
Record Request := mkRequest {
  method : jsstring;
  origin : option jsstring;
  formData : option FormData }.

(** The worker's bindings. *)
Record Env := mkEnv {
  ELEVENLABS_API_KEY : jsstring;
  GEMINI_API_KEY : jsstring;
  VOICE_ID : jsstring;
  ALLOWED_ORIGINS : option jsstring }.

(** An outbound [fetch(url, init)], as the handler hands it over; a JSON
    body is recorded as the value handed to [JSON.stringify]. *)
Inductive OutBody :=
| FormBody (fd : FormData)
| JsonBody (v : jsval).

Record OutRequest := mkOut {
  out_url : jsstring;
  out_method : jsstring;
  out_headers : Headers;
  out_body : OutBody }.

(** What an outbound fetch resolves to: [text] is what [.text()] gives and
    what [.json()] parses, [stream] is the [.body] stream. *)
Record HttpResponse := mkHttp {
  ok : bool;
  statusText : jsstring;
  text : jsstring;
  stream : list Byte.byte }.

(** An outbound request with what it resolved to, [None] for a rejection. *)
Definition Exchange := (OutRequest * option HttpResponse)%type.

(** The handler's answer. *)
Inductive ResponseBody :=
| NoBody
| TextBody (s : jsstring)
| JsonText (v : jsval)          (* JSON.stringify(v) *)
| StreamBody (bytes : list Byte.byte).

Record Response := mkResponse {
  status : N;
  headers : Headers;
  body : ResponseBody }.

(** The content type that a body brings along: a string is plain text, a
    stream and [null] have none. *)
Definition body_type (b : ResponseBody) : option jsstring :=
  match b with
  | TextBody _ | JsonText _ => Some (lit "text/plain;charset=UTF-8")
  | NoBody | StreamBody _ => None
  end.

(** [new Response(body, { status, headers })] once the headers are a
    [Headers] list: the type of the body is added when they name none. *)
Definition Response_of (body : ResponseBody) (status : N) (h : Headers) : Response :=
  mkResponse status
    (match body_type body, Headers_get h (lit "Content-Type") with
     | Some type, None => h ++ [(lit "content-type", type)]
     | _, _ => h
     end)
    body.

(** The [headers] of a [Response] or [Headers] constructor: an object
    literal, or a [Headers] object. *)
Inductive HeadersInit :=
| FromRecord (r : list (jsstring * jsstring))
| FromHeaders (h : Headers).

(** The runtime and the outside world: the JSON parser ([None] for a
    SyntaxError), the messages of runtime errors, whether a header value has
    to be a byte string, with no code unit above 0xFF (so the Fetch
    standard; a runtime may take any string), and the network, whose
    answer to a request may depend on its state and change it ([None] when
    the fetch rejects). *)
Class Platform := {
  World : Type;
  JSON_parse : jsstring -> option jsval;
  message_of : runtime_error -> jsstring;
  latin1_headers : bool;
  network : OutRequest -> World -> option HttpResponse * World }.

Section Monad.
Context {P : Platform}.

(** What the runtime makes of a header value: the value stripped of the
    white space around it, or a TypeError. *)
Definition header_value (v : jsstring) : outcome jsstring :=
  let stripped := header_normalize v in
  if existsb forbidden_in_value stripped || (existsb beyond_latin1 v && latin1_headers)
  then Exn (Runtime TypeError)
  else Val stripped.

(** [headers.set(name, value)] *)
Definition Headers_set (h : Headers) (name value : jsstring) : outcome Headers :=
  match header_value value with
  | Val stripped => Val (Headers_put h name stripped)
  | Exn e => Exn e
  end.

(** The entries of an object literal, appended one by one. *)
Fixpoint Headers_fill (h : Headers) (r : list (jsstring * jsstring)) : outcome Headers :=
  match r with
  | [] => Val h
  | (name, value) :: r' =>
      match header_value value with
      | Val stripped => Headers_fill (h ++ [(name, stripped)]) r'
      | Exn e => Exn e
      end
  end.

(** [new Headers(init)]; a [Headers] object is copied. *)
Definition Headers_new (init : HeadersInit) : outcome Headers :=
  match init with
  | FromRecord r => Headers_fill [] r
  | FromHeaders h => Val h
  end.

(** [new Response(body, { status, headers })] *)
Definition Response_new (body : ResponseBody) (status : N) (init : HeadersInit)
  : outcome Response :=
  match Headers_new init with
  | Val h => Val (Response_of body status h)
  | Exn e => Exn e
  end.

(** The state a handler threads: the world and the outbound requests made so
    far with their answers, oldest first. *)
Definition State := (World * list Exchange)%type.

Definition M (A : Type) := State -> outcome A * State.

Definition ret {A} (a : A) : M A := fun s => (Val a, s).

Definition bind {A B} (m : M A) (k : A -> M B) : M B :=
  fun s => match m s with
           | (Val a, s') => k a s'
           | (Exn e, s') => (Exn e, s')
           end.

Definition throw {A} (e : exn) : M A := fun s => (Exn e, s).

(** [try { body } catch (err) { handler }] *)
Definition try_catch {A} (body : M A) (handler : exn -> M A) : M A :=
  fun s => match body s with
           | (Val a, s') => (Val a, s')
           | (Exn e, s') => handler e s'
           end.

(** A pure step that may throw. *)
Definition lift {A} (o : outcome A) : M A := fun s => (o, s).

(** [await fetch(url, init)] *)
Definition fetch_ (r : OutRequest) : M HttpResponse :=
  fun s => match network r (fst s) with
           | (Some resp, w') => (Val resp, (w', snd s ++ [(r, Some resp)]))
           | (None, w') => (Exn (Runtime NetworkError), (w', snd s ++ [(r, None)]))
           end.

(** [JSON.parse(s)] *)
Definition parse (s : jsstring) : outcome jsval :=
  match JSON_parse s with
  | Some v => Val v
  | None => Exn (Runtime (SyntaxError s))
  end.

(** [await response.json()] *)
Definition json (r : HttpResponse) : M jsval := lift (parse (text r)).

(** [await request.formData()] *)
Definition request_formData (req : Request) : M FormData :=
  match formData req with
  | Some fd => ret fd
  | None => throw (Runtime TypeError)
  end.

(** [err.message] *)
Definition message (e : exn) : jsstring :=
  match e with
  | Error m => m
  | Runtime r => message_of r
  end.

(** The exchanges of a handler run from a world state, in order. *)
Definition trace {A} (m : M A) (w : World) : list Exchange := snd (snd (m (w, []))).

(** Running a handler from a world state: its outcome, the final world and
    the outbound requests it made, in order. *)
Definition run {A} (m : M A) (w : World) : outcome A * (World * list OutRequest) :=
  let '(o, (w', exchanges)) := m (w, []) in (o, (w', map fst exchanges)).

Definition result {A} (m : M A) (w : World) : outcome A := fst (run m w).

Definition calls {A} (m : M A) (w : World) : list OutRequest := snd (snd (run m w)).

End Monad.

Declare Scope js_scope.
Delimit Scope js_scope with js.
Notation "x <- m ;; k" := (bind m (fun x => k))
  (at level 61, m at next level, right associativity) : js_scope.
Notation "m ;; k" := (bind m (fun _ => k))
  (at level 61, right associativity) : js_scope.
Notation "'throw_if' c 'then' e ;; k" := (if c then throw e else k)
  (at level 61, c at next level, e at next level, right associativity) : js_scope.

End Runtime.

Import Runtime.
Open Scope js_scope.

(** ** What the five revisions share word for word *)

Section Shared.
Context {P : Platform}.

(** [`https://api.elevenlabs.io/v1/text-to-speech/${env.VOICE_ID}/stream`]
    with the fixed voice model and prosody, on the reply text. *)
Definition tts_request (env : Env) (aiText : jsval) : OutRequest :=
  mkOut (lit "https://api.elevenlabs.io/v1/text-to-speech/" ++ VOICE_ID env ++ lit "/stream")
        (lit "POST")
        [(lit "xi-api-key", ELEVENLABS_API_KEY env);
         (lit "Content-Type", lit "application/json")]
        (JsonBody (JObj [(lit "text", aiText);
                         (lit "model_id", JStr (lit "eleven_turbo_v2"));
                         (lit "voice_settings",
                          JObj [(lit "stability", JNum (5 # 10)%Q);
                                (lit "similarity_boost", JNum (7 # 10)%Q)])])).

(** [json.candidates?.[0]?.content?.parts?.[0]?.text] *)
Definition first_candidate_text (geminiJson : jsval) : outcome jsval :=
  match get_field geminiJson (lit "candidates") with
  | Val candidates =>
      Val (opt_field (opt_index0 (opt_field (opt_field (opt_index0 candidates)
             (lit "content")) (lit "parts"))) (lit "text"))
  | Exn e => Exn e
  end.

End Shared.

(** The persona of the raw-text revisions. *)
Definition SYSTEM_PROMPT : jsstring := lit "
You are Marcus Chen, an inmate in a medium-security correctional facility.
Context: You are sitting in the dayroom. A correctional officer (the user) is approaching you.
Current State: Anxious, guarded, but willing to talk if treated with respect.
Goal: You want to know if your commissary account has been unfrozen so you can call your sister.
Rules:
1. Keep responses SHORT (under 2 sentences). This is a spoken conversation.
2. Do not sound like an AI. Hesitate, use slang, be natural.
3. If the officer is aggressive, shut down. If they are helpful, open up.
".

Definition stt_url : jsstring := lit "https://api.elevenlabs.io/v1/speech-to-text".

(** ** src/unnamed/part_000 *)

Module Part000.
Section Handler.
Context {P : Platform}.

Definition corsHeaders : list (jsstring * jsstring) :=
  [(lit "Access-Control-Allow-Origin", lit "*");
   (lit "Access-Control-Allow-Methods", lit "POST, OPTIONS");
   (lit "Access-Control-Allow-Headers", lit "Content-Type")].

(** The transcription request: the model selector, then the audio bytes
    wrapped again as [audio.webm]. *)
Definition stt_request (env : Env) (arrayBuffer : list Byte.byte) : OutRequest :=
  let sttFormData :=
    [(lit "model_id", EString (lit "scribe_v1"));
     (lit "file", EFile (mkFile (lit "audio.webm") (lit "audio/webm") arrayBuffer))] in
  mkOut stt_url (lit "POST")
        [(lit "xi-api-key", ELEVENLABS_API_KEY env)]
        (FormBody sttFormData).

(** The generation request: the persona and [`User said: "${userText}"`] as
    the two parts of one content. *)
Definition gemini_request (env : Env) (said : jsstring) : OutRequest :=
  let geminiUrl :=
    lit "https://generativelanguage.googleapis.com/v1beta/models/gemini-1.5-flash:generateContent?key="
    ++ GEMINI_API_KEY env in
  let geminiPayload :=
    JObj [(lit "contents",
           JArr [JObj [(lit "parts",
                        JArr [JObj [(lit "text", JStr SYSTEM_PROMPT)];
                              JObj [(lit "text",
                                     JStr (lit "User said: " ++ dq ++ said ++ dq))]])]])] in
  mkOut geminiUrl (lit "POST")
        [(lit "Content-Type", lit "application/json")]
        (JsonBody geminiPayload).

Definition fetch (req : Request) (env : Env) : M Response :=
  if str_eqb (method req) (lit "OPTIONS") then
    lift (Response_new NoBody 200 (FromRecord corsHeaders))
  else if negb (str_eqb (method req) (lit "POST")) then
    lift (Response_new (TextBody (lit "Method not allowed")) 405 (FromRecord corsHeaders))
  else
    try_catch
      (formData <- request_formData req ;;
       match FormData_get formData (lit "audio") with
       | Some (EFile audioFile) =>
           let arrayBuffer := file_bytes audioFile in
           (* STEP B: speech to text *)
           sttResponse <- fetch_ (stt_request env arrayBuffer) ;;
           throw_if negb (ok sttResponse)
             then Error (lit "ElevenLabs STT Failed: " ++ text sttResponse) ;;
           sttJson <- json sttResponse ;;
           userText <- lift (get_field sttJson (lit "text")) ;;
           (* STEP C: generation *)
           said <- lift (ToString userText) ;;
           geminiResponse <- fetch_ (gemini_request env said) ;;
           throw_if negb (ok geminiResponse)
             then Error (lit "Gemini API Failed: " ++ text geminiResponse) ;;
           geminiJson <- json geminiResponse ;;
           found <- lift (first_candidate_text geminiJson) ;;
           let aiText := or_else found (JStr (lit "...")) in
           (* STEP D: text to speech *)
           ttsResponse <- fetch_ (tts_request env aiText) ;;
           throw_if negb (ok ttsResponse)
             then Error (lit "ElevenLabs TTS Failed: " ++ text ttsResponse) ;;
           (* STEP E: the package *)
           newHeaders <- lift (Headers_new (FromRecord corsHeaders)) ;;
           newHeaders <- lift (Headers_set newHeaders (lit "Content-Type") (lit "audio/mpeg")) ;;
           aiHeader <- lift (ToString aiText) ;;
           newHeaders <- lift (Headers_set newHeaders (lit "X-Ai-Text") aiHeader) ;;
           userHeader <- lift (ToString userText) ;;
           newHeaders <- lift (Headers_set newHeaders (lit "X-User-Text") userHeader) ;;
           newHeaders <- lift (Headers_set newHeaders (lit "Access-Control-Expose-Headers")
                                           (lit "X-Ai-Text, X-User-Text")) ;;
           lift (Response_new (StreamBody (stream ttsResponse)) 200 (FromHeaders newHeaders))
       | _ => throw (Error (lit "No audio file provided"))
       end)
      (fun err =>
         lift (Response_new (JsonText (JObj [(lit "error", JStr (message err))])) 500
                            (FromRecord corsHeaders))).

End Handler.
End Part000.

(** ** src/unnamed/part_001, first file: dynamic CORS *)

(** [x || d] on a string that may be absent. *)
Definition str_or (x : option jsstring) (d : jsstring) : jsstring :=
  match x with
  | Some (c :: s) => c :: s
  | _ => d
  end.

Module Part001A.
Section Handler.
Context {P : Platform}.

Definition getCorsHeaders (request : Request) (env : Env) : list (jsstring * jsstring) :=
  let origin := origin request in
  let allowedOrigins := split 44 (str_or (ALLOWED_ORIGINS env) (lit "")) in
  (* Default fallback (safe/strict) *)
  let fallback :=
    [(lit "Access-Control-Allow-Origin",
      str_or (nth_error allowedOrigins 0) (lit "http://localhost:5173"));
     (lit "Access-Control-Allow-Methods", lit "POST, OPTIONS");
     (lit "Access-Control-Allow-Headers", lit "Content-Type");
     (lit "Access-Control-Max-Age", lit "86400")] in
  (* Check if the requester is on the VIP list: [origin &&
     allowedOrigins.includes(origin)], an absent or empty origin being falsy *)
  match origin with
  | Some (c :: o) =>
      if includes allowedOrigins (c :: o) then
        [(lit "Access-Control-Allow-Origin", c :: o);
         (lit "Access-Control-Allow-Methods", lit "GET, POST, OPTIONS");
         (lit "Access-Control-Allow-Headers", lit "Content-Type, x-api-key");
         (lit "Access-Control-Max-Age", lit "86400")]
      else fallback
  | _ => fallback
  end.

(** The transcription request: the model selector, then the audio bytes
    wrapped again as [audio.webm]. *)
Definition stt_request (env : Env) (arrayBuffer : list Byte.byte) : OutRequest :=
  let sttFormData :=
    [(lit "model_id", EString (lit "scribe_v1"));
     (lit "file", EFile (mkFile (lit "audio.webm") (lit "audio/webm") arrayBuffer))] in
  mkOut stt_url (lit "POST")
        [(lit "xi-api-key", ELEVENLABS_API_KEY env)]
        (FormBody sttFormData).

(** The generation request: the persona and [`User said: "${userText}"`] as
    the two parts of one content. *)
Definition gemini_request (env : Env) (said : jsstring) : OutRequest :=
  let geminiUrl :=
    lit "https://generativelanguage.googleapis.com/v1beta/models/gemini-1.5-flash:generateContent?key="
    ++ GEMINI_API_KEY env in
  let geminiPayload :=
    JObj [(lit "contents",
           JArr [JObj [(lit "parts",
                        JArr [JObj [(lit "text", JStr SYSTEM_PROMPT)];
                              JObj [(lit "text",
                                     JStr (lit "User said: " ++ dq ++ said ++ dq))]])]])] in
  mkOut geminiUrl (lit "POST")
        [(lit "Content-Type", lit "application/json")]
        (JsonBody geminiPayload).

Definition fetch (request : Request) (env : Env) : M Response :=
  if str_eqb (method request) (lit "OPTIONS") then
    let headers := getCorsHeaders request env in
    lift (Response_new NoBody 200 (FromRecord headers))
  else if negb (str_eqb (method request) (lit "POST")) then
    let headers := getCorsHeaders request env in
    lift (Response_new (TextBody (lit "Method not allowed")) 405 (FromRecord headers))
  else
    try_catch
      (formData <- request_formData request ;;
       match FormData_get formData (lit "audio") with
       | Some (EFile audioFile) =>
           let arrayBuffer := file_bytes audioFile in
           (* STEP C: speech to text *)
           sttResponse <- fetch_ (stt_request env arrayBuffer) ;;
           throw_if negb (ok sttResponse)
             then Error (lit "ElevenLabs STT Failed: " ++ text sttResponse) ;;
           sttJson <- json sttResponse ;;
           userText <- lift (get_field sttJson (lit "text")) ;;
           (* STEP D: generation *)
           said <- lift (ToString userText) ;;
           geminiResponse <- fetch_ (gemini_request env said) ;;
           throw_if negb (ok geminiResponse)
             then Error (lit "Gemini API Failed: " ++ text geminiResponse) ;;
           geminiJson <- json geminiResponse ;;
           found <- lift (first_candidate_text geminiJson) ;;
           let aiText := or_else found (JStr (lit "...")) in
           (* STEP E: text to speech *)
           ttsResponse <- fetch_ (tts_request env aiText) ;;
           throw_if negb (ok ttsResponse)
             then Error (lit "ElevenLabs TTS Failed: " ++ text ttsResponse) ;;
           (* STEP F: the package, with the dynamic headers *)
           let dynamicHeaders := getCorsHeaders request env in
           newHeaders <- lift (Headers_new (FromRecord dynamicHeaders)) ;;
           newHeaders <- lift (Headers_set newHeaders (lit "Content-Type") (lit "audio/mpeg")) ;;
           aiHeader <- lift (ToString aiText) ;;
           newHeaders <- lift (Headers_set newHeaders (lit "X-Ai-Text") aiHeader) ;;
           userHeader <- lift (ToString userText) ;;
           newHeaders <- lift (Headers_set newHeaders (lit "X-User-Text") userHeader) ;;
           newHeaders <- lift (Headers_set newHeaders (lit "Access-Control-Expose-Headers")
                                           (lit "X-Ai-Text, X-User-Text")) ;;
           lift (Response_new (StreamBody (stream ttsResponse)) 200 (FromHeaders newHeaders))
       | _ => throw (Error (lit "No audio file provided"))
       end)
      (fun err =>
         let errorHeaders := getCorsHeaders request env in
         lift (Response_new (JsonText (JObj [(lit "error", JStr (message err))])) 500
                            (FromRecord errorHeaders))).

End Handler.
End Part001A.

(** ** src/unnamed/part_001, second file: size guard and silence short-circuit *)

Module Part001B.
Section Handler.
Context {P : Platform}.

Definition getCorsHeaders : list (jsstring * jsstring) :=
  [(lit "Access-Control-Allow-Origin", lit "*");
   (lit "Access-Control-Allow-Methods", lit "GET, POST, OPTIONS");
   (lit "Access-Control-Allow-Headers", lit "Content-Type, x-api-key");
   (lit "Access-Control-Max-Age", lit "86400")].

(** The transcription request: the model selector, then the uploaded file. *)
Definition stt_request (env : Env) (audioFile : File) : OutRequest :=
  let sttFormData :=
    [(lit "model_id", EString (lit "scribe_v1"));
     (lit "file", EFile audioFile)] in
  mkOut stt_url (lit "POST")
        [(lit "xi-api-key", ELEVENLABS_API_KEY env)]
        (FormBody sttFormData).

(** The generation request: the persona and [`User said: "${userText}"`] as
    the two parts of one content. *)
Definition gemini_request (env : Env) (said : jsstring) : OutRequest :=
  let geminiUrl :=
    lit "https://generativelanguage.googleapis.com/v1beta/models/gemini-2.5-flash:generateContent?key="
    ++ GEMINI_API_KEY env in
  mkOut geminiUrl (lit "POST")
        [(lit "Content-Type", lit "application/json")]
        (JsonBody
           (JObj [(lit "contents",
                   JArr [JObj [(lit "parts",
                                JArr [JObj [(lit "text", JStr SYSTEM_PROMPT)];
                                      JObj [(lit "text",
                                             JStr (lit "User said: " ++ dq ++ said ++ dq))]])]])])).

Definition fetch (request : Request) (env : Env) : M Response :=
  if str_eqb (method request) (lit "OPTIONS") then
    lift (Response_new NoBody 200 (FromRecord getCorsHeaders))
  else if negb (str_eqb (method request) (lit "POST")) then
    lift (Response_new (TextBody (lit "Method not allowed")) 405 (FromRecord getCorsHeaders))
  else
    try_catch
      (formData <- request_formData request ;;
       match FormData_get formData (lit "audio") with
       | Some (EFile audioFile) =>
           throw_if N.ltb (size audioFile) 100 then Error (lit "Audio file too short.") ;;
           (* STEP 1: LISTEN *)
           sttResponse <- fetch_ (stt_request env audioFile) ;;
           throw_if negb (ok sttResponse)
             then Error (lit "ElevenLabs STT Failed: " ++ text sttResponse) ;;
           sttJson <- json sttResponse ;;
           heard <- lift (get_field sttJson (lit "text")) ;;
           let userText := or_else heard (JStr (lit "")) in
           said <- lift (ToString userText) ;;
           (* STEP 2: THINK *)
           let aiText := JStr (lit "I couldn't hear you, Officer. Say again?") in
           trimmed <- lift (call_trim userText) ;;
           aiText <-
             (if N.ltb 1 (str_length trimmed) then
                geminiResponse <- fetch_ (gemini_request env said) ;;
                if negb (ok geminiResponse) then
                  ret (JStr (lit "My head hurts... (AI Error)"))
                else
                  geminiJson <- json geminiResponse ;;
                  found <- lift (first_candidate_text geminiJson) ;;
                  ret (or_else found aiText)
              else ret aiText) ;;
           lift (ToString aiText) ;;
           (* STEP 3: SPEAK *)
           ttsResponse <- fetch_ (tts_request env aiText) ;;
           throw_if negb (ok ttsResponse) then Error (lit "ElevenLabs TTS Failed") ;;
           (* STEP 4: RETURN *)
           newHeaders <- lift (Headers_new (FromRecord getCorsHeaders)) ;;
           newHeaders <- lift (Headers_set newHeaders (lit "Content-Type") (lit "audio/mpeg")) ;;
           aiHeader <- lift (ToString aiText) ;;
           newHeaders <- lift (Headers_set newHeaders (lit "X-Ai-Text") aiHeader) ;;
           userHeader <- lift (ToString userText) ;;
           newHeaders <- lift (Headers_set newHeaders (lit "X-User-Text") userHeader) ;;
           newHeaders <- lift (Headers_set newHeaders (lit "Access-Control-Expose-Headers")
                                           (lit "X-Ai-Text, X-User-Text")) ;;
           lift (Response_new (StreamBody (stream ttsResponse)) 200 (FromHeaders newHeaders))
       | _ => throw (Error (lit "No audio file provided"))
       end)
      (fun err =>
         lift (Response_new (JsonText (JObj [(lit "error", JStr (message err))])) 500
                            (FromRecord getCorsHeaders))).

End Handler.
End Part001B.

(** ** src/unnamed/part_002: conversation history *)

Module Part002.
Section Handler.
Context {P : Platform}.

Definition getCorsHeaders : list (jsstring * jsstring) :=
  [(lit "Access-Control-Allow-Origin", lit "*");
   (lit "Access-Control-Allow-Methods", lit "GET, POST, OPTIONS");
   (lit "Access-Control-Allow-Headers", lit "Content-Type, x-api-key");
   (lit "Access-Control-Max-Age", lit "86400")].

(** The transcription request: the model selector, then the uploaded file. *)
Definition stt_request (env : Env) (audioFile : File) : OutRequest :=
  let sttFormData :=
    [(lit "model_id", EString (lit "scribe_v1"));
     (lit "file", EFile audioFile)] in
  mkOut stt_url (lit "POST")
        [(lit "xi-api-key", ELEVENLABS_API_KEY env)]
        (FormBody sttFormData).

(** [let previousContext = []; try { if (typeof historyRaw === 'string')
    previousContext = JSON.parse(historyRaw); } catch (e) { warn }]: the
    parsed history, the empty array when there is none or it does not parse. *)
Definition previousContext (historyRaw : option FormDataEntryValue) : jsval :=
  match historyRaw with
  | Some (EString s) =>
      match parse s with
      | Val parsed => parsed
      | Exn e => JArr []
      end
  | _ => JArr []
  end.

(** The body sent to the generation service. *)
Definition payload (previousContext : list jsval) (userText : jsval) : jsval :=
  JObj [(lit "system_instruction",
         JObj [(lit "parts", JArr [JObj [(lit "text", JStr SYSTEM_PROMPT)]])]);
        (lit "contents",
         JArr (previousContext
               ++ [JObj [(lit "role", JStr (lit "user"));
                         (lit "parts", JArr [JObj [(lit "text", userText)]])]]))].

Definition gemini_request (env : Env) (previousContext : list jsval) (userText : jsval)
  : OutRequest :=
  let geminiUrl :=
    lit "https://generativelanguage.googleapis.com/v1beta/models/gemini-2.5-flash:generateContent?key="
    ++ GEMINI_API_KEY env in
  mkOut geminiUrl (lit "POST")
        [(lit "Content-Type", lit "application/json")]
        (JsonBody (payload previousContext userText)).

Definition fetch (request : Request) (env : Env) : M Response :=
  if str_eqb (method request) (lit "OPTIONS") then
    lift (Response_new NoBody 200 (FromRecord getCorsHeaders))
  else if negb (str_eqb (method request) (lit "POST")) then
    lift (Response_new (TextBody (lit "Method not allowed")) 405 (FromRecord getCorsHeaders))
  else
    try_catch
      (formData <- request_formData request ;;
       let audioFile := FormData_get formData (lit "audio") in
       let historyRaw := FormData_get formData (lit "history") in
       match audioFile with
       | Some (EFile audioFile) =>
           (* STEP 1: LISTEN *)
           sttResponse <- fetch_ (stt_request env audioFile) ;;
           throw_if negb (ok sttResponse) then Error (lit "ElevenLabs STT Failed") ;;
           sttJson <- json sttResponse ;;
           heard <- lift (get_field sttJson (lit "text")) ;;
           let userText := or_else heard (JStr (lit "")) in
           lift (ToString userText) ;;
           (* STEP 2: THINK *)
           let aiText := JStr (lit "I couldn't hear you, Officer. Say again?") in
           trimmed <- lift (call_trim userText) ;;
           aiText <-
             (if N.ltb 1 (str_length trimmed) then
                entries <- lift (spread (previousContext historyRaw)) ;;
                geminiResponse <- fetch_ (gemini_request env entries userText) ;;
                if negb (ok geminiResponse) then
                  ret (JStr (lit "My head hurts... (AI Error)"))
                else
                  geminiJson <- json geminiResponse ;;
                  found <- lift (first_candidate_text geminiJson) ;;
                  ret (or_else found aiText)
              else ret aiText) ;;
           lift (ToString aiText) ;;
           (* STEP 3: SPEAK *)
           ttsResponse <- fetch_ (tts_request env aiText) ;;
           throw_if negb (ok ttsResponse) then Error (lit "ElevenLabs TTS Failed") ;;
           (* STEP 4: RETURN *)
           newHeaders <- lift (Headers_new (FromRecord getCorsHeaders)) ;;
           newHeaders <- lift (Headers_set newHeaders (lit "Content-Type") (lit "audio/mpeg")) ;;
           aiHeader <- lift (ToString aiText) ;;
           newHeaders <- lift (Headers_set newHeaders (lit "X-Ai-Text") aiHeader) ;;
           userHeader <- lift (ToString userText) ;;
           newHeaders <- lift (Headers_set newHeaders (lit "X-User-Text") userHeader) ;;
           newHeaders <- lift (Headers_set newHeaders (lit "Access-Control-Expose-Headers")
                                           (lit "X-Ai-Text, X-User-Text")) ;;
           lift (Response_new (StreamBody (stream ttsResponse)) 200 (FromHeaders newHeaders))
       | _ => throw (Error (lit "No audio file provided"))
       end)
      (fun err =>
         lift (Response_new (JsonText (JObj [(lit "error", JStr (message err))])) 500
                            (FromRecord getCorsHeaders))).

End Handler.
End Part002.

(** ** src/src/index.ts: structured generation output *)

Module Index.
Section Handler.
Context {P : Platform}.

Definition getCorsHeaders : list (jsstring * jsstring) :=
  [(lit "Access-Control-Allow-Origin", lit "*");
   (lit "Access-Control-Allow-Methods", lit "POST, OPTIONS");
   (lit "Access-Control-Allow-Headers", lit "Content-Type, X-Ai-Text, X-User-Text, X-Compliance-Score");
   (lit "Access-Control-Expose-Headers", lit "X-Ai-Text, X-User-Text, X-Compliance-Score")].

Definition systemPrompt : jsstring :=
  lit "
        You are Marcus Chen, an inmate in a medium-security correctional facility.
        
        **YOUR SITUATION:**
        * Stressed. Sister arrested 3 days ago. Commissary frozen. Can't call home.
        * Sitting in Day Room. NOT violent, but frustrated and skeptical.
        
        **YOUR OBJECTIVE:**
        1. Respond naturally (keep it spoken, casual, under 2 sentences).
        2. Assign a " ++ dq ++ lit "Compliance Score" ++ dq ++ lit " (0-100) to the user (Correctional Officer).
           - 0-30: Hostile/Dismissive.
           - 31-70: Neutral/By the book.
           - 71-100: Empathetic/Validating.

        **OUTPUT FORMAT:**
        Return pure JSON:
        {
          " ++ dq ++ lit "text" ++ dq ++ lit ": " ++ dq ++ lit "Your spoken response." ++ dq ++ lit ",
          " ++ dq ++ lit "compliance" ++ dq ++ lit ": 50,
          " ++ dq ++ lit "reasoning" ++ dq ++ lit ": " ++ dq ++ lit "Why you gave this score." ++ dq ++ lit "
        }
      ".

(** [let history = []; try { if (historyRaw) history = JSON.parse(historyRaw); }
    catch (e) { warn }]: a non-empty string is parsed, a [File] is parsed
    through its string conversion. *)
Definition history (historyRaw : option FormDataEntryValue) : jsval :=
  match historyRaw with
  | Some (EString (c :: s)) =>
      match parse (c :: s) with
      | Val parsed => parsed
      | Exn e => JArr []
      end
  | Some (EFile _) =>
      match parse (lit "[object File]") with
      | Val parsed => parsed
      | Exn e => JArr []
      end
  | _ => JArr []
  end.

(** The callback of [history.map]: the role vocabulary of the generation
    service, and the content as the one part. *)
Definition map_msg (msg : jsval) : outcome jsval :=
  match get_field msg (lit "role"), get_field msg (lit "content") with
  | Val role, Val content =>
      Val (JObj [(lit "role",
                  JStr (if match role with
                           | JStr r => str_eqb r (lit "assistant")
                           | _ => false
                           end
                        then lit "model" else lit "user"));
                 (lit "parts", JArr [JObj [(lit "text", content)]])])
  | Exn e, _ => Exn e
  | _, Exn e => Exn e
  end.

Fixpoint map_all (l : list jsval) : outcome (list jsval) :=
  match l with
  | [] => Val []
  | msg :: l' =>
      match map_msg msg, map_all l' with
      | Val m, Val ms => Val (m :: ms)
      | Exn e, _ => Exn e
      | _, Exn e => Exn e
      end
  end.

(** [history.map(...)]: only an array has the method. *)
Definition history_map (history : jsval) : outcome (list jsval) :=
  match history with
  | JArr items => map_all items
  | _ => Exn (Runtime TypeError)
  end.

Definition geminiPayload (mapped : list jsval) (userText : jsval) : jsval :=
  JObj [(lit "contents",
         JArr ([JObj [(lit "role", JStr (lit "user"));
                      (lit "parts", JArr [JObj [(lit "text", JStr systemPrompt)]])]]
               ++ mapped
               ++ [JObj [(lit "role", JStr (lit "user"));
                         (lit "parts", JArr [JObj [(lit "text", userText)]])]]));
        (lit "generationConfig",
         JObj [(lit "response_mime_type", JStr (lit "application/json"))])].

(** The transcription request: the uploaded file, then the model selector. *)
Definition stt_request (env : Env) (audioFile : File) : OutRequest :=
  let scribeFormData :=
    [(lit "file", EFile audioFile);
     (lit "model_id", EString (lit "scribble_google_v1"))] in
  mkOut stt_url (lit "POST")
        [(lit "xi-api-key", ELEVENLABS_API_KEY env)]
        (FormBody scribeFormData).

Definition gemini_request (env : Env) (mapped : list jsval) (userText : jsval) : OutRequest :=
  mkOut (lit "https://generativelanguage.googleapis.com/v1beta/models/gemini-2.0-flash-exp:generateContent?key="
         ++ GEMINI_API_KEY env)
        (lit "POST")
        [(lit "Content-Type", lit "application/json")]
        (JsonBody (geminiPayload mapped userText)).

Definition fetch (request : Request) (env : Env) : M Response :=
  if str_eqb (method request) (lit "OPTIONS") then
    lift (Response_new NoBody 200 (FromRecord getCorsHeaders))
  else if negb (str_eqb (method request) (lit "POST")) then
    lift (Response_new (TextBody (lit "Method not allowed")) 405 (FromRecord getCorsHeaders))
  else
    try_catch
      (formData <- request_formData request ;;
       let audioFile := FormData_get formData (lit "audio") in
       let historyRaw := FormData_get formData (lit "history") in
       match audioFile with
       | Some (EFile audioFile) =>
           (* STEP 1: HEAR *)
           sttResponse <- fetch_ (stt_request env audioFile) ;;
           throw_if negb (ok sttResponse)
             then Error (lit "ElevenLabs STT Failed: " ++ statusText sttResponse) ;;
           sttData <- json sttResponse ;;
           userText <- lift (get_field sttData (lit "text")) ;;
           lift (ToString userText) ;;
           (* STEP 2: THINK *)
           mapped <- lift (history_map (history historyRaw)) ;;
           geminiResponse <- fetch_ (gemini_request env mapped userText) ;;
           geminiData <- json geminiResponse ;;
           rawJSON <- lift (first_candidate_text geminiData) ;;
           throw_if negb (truthy rawJSON) then Error (lit "Gemini returned empty response") ;;
           (* Parse Gemini's JSON *)
           rawText <- lift (ToString rawJSON) ;;
           brainData <- lift (parse rawText) ;;
           (* STEP 3: SPEAK *)
           brainText <- lift (get_field brainData (lit "text")) ;;
           ttsResponse <- fetch_ (tts_request env brainText) ;;
           throw_if negb (ok ttsResponse) then Error (lit "ElevenLabs TTS Failed") ;;
           (* STEP 4: RETURN RESPONSE *)
           responseHeaders <- lift (Headers_new (FromRecord getCorsHeaders)) ;;
           responseHeaders <- lift (Headers_set responseHeaders (lit "Content-Type")
                                                (lit "audio/mpeg")) ;;
           aiHeader <- lift (ToString brainText) ;;
           responseHeaders <- lift (Headers_set responseHeaders (lit "X-Ai-Text") aiHeader) ;;
           userHeader <- lift (ToString userText) ;;
           responseHeaders <- lift (Headers_set responseHeaders (lit "X-User-Text") userHeader) ;;
           compliance <- lift (get_field brainData (lit "compliance")) ;;
           score <- lift (call_toString compliance) ;;
           responseHeaders <- lift (Headers_set responseHeaders (lit "X-Compliance-Score") score) ;;
           lift (Response_new (StreamBody (stream ttsResponse)) 200 (FromHeaders responseHeaders))
       | _ => throw (Error (lit "No audio file provided"))
       end)
      (fun err =>
         lift (Response_new (JsonText (JObj [(lit "error", JStr (message err))])) 500
                 (FromRecord (getCorsHeaders
                              ++ [(lit "Content-Type", lit "application/json")])))).

End Handler.
End Index.

(** ** A JSON parser and scripted collaborators, for the concrete runs *)

Module Json.

Definition is_ws (c : N) : bool :=
  N.eqb c 32 || N.eqb c 9 || N.eqb c 10 || N.eqb c 13.

Fixpoint skip_ws (s : jsstring) : jsstring :=
  match s with
  | c :: s' => if is_ws c then skip_ws s' else s
  | [] => []
  end.

Definition is_digit (c : N) : bool := N.leb 48 c && N.leb c 57.

Fixpoint take_digits (s : jsstring) : jsstring * jsstring :=
  match s with
  | c :: s' =>
      if is_digit c then let (ds, r) := take_digits s' in (c :: ds, r) else ([], s)
  | [] => ([], [])
  end.

Definition digits_value (ds : jsstring) : N :=
  fold_left (fun acc d => (acc * 10 + (d - 48))%N) ds 0%N.

Definition hex_value (c : N) : option N :=
  if is_digit c then Some (c - 48)%N
  else if N.leb 97 c && N.leb c 102 then Some (c - 87)%N
  else if N.leb 65 c && N.leb c 70 then Some (c - 55)%N
  else None.

(** [-? int frac? exp?] *)
Definition parse_number (s : jsstring) : option (Q * jsstring) :=
  let (negative, s1) := match s with
                        | c :: r => if N.eqb c 45 then (true, r) else (false, s)
                        | [] => (false, s)
                        end in
  let (int_ds, s2) := take_digits s1 in
  match int_ds with
  | [] => None
  | d :: more =>
      if N.eqb d 48 && negb (Nat.eqb (List.length more) 0) then None
      else
        let frac := match s2 with
                    | c :: r => if N.eqb c 46 then Some (take_digits r) else None
                    | [] => None
                    end in
        match frac with
        | Some ([], _) => None
        | _ =>
            let (frac_ds, s3) := match frac with
                                 | Some (f, r) => (f, r)
                                 | None => ([], s2)
                                 end in
            let mantissa := Z.of_N (digits_value (int_ds ++ frac_ds)) in
            let scale := Z.of_nat (List.length frac_ds) in
            let finish (e : Z) (rest : jsstring) :=
              let m := if negative then Z.opp mantissa else mantissa in
              let p := (e - scale)%Z in
              Some (Qred (if Z.leb 0 p then inject_Z (m * 10 ^ p)
                          else Qmake m (Z.to_pos (10 ^ (- p)))), rest) in
            match s3 with
            | c :: r =>
                if N.eqb c 101 || N.eqb c 69 then
                  let (esign, r1) := match r with
                                     | c' :: r' =>
                                         if N.eqb c' 45 then (true, r')
                                         else if N.eqb c' 43 then (false, r')
                                         else (false, r)
                                     | [] => (false, r)
                                     end in
                  let (exp_ds, r2) := take_digits r1 in
                  match exp_ds with
                  | [] => None
                  | _ => let e := Z.of_N (digits_value exp_ds) in
                         finish (if esign then Z.opp e else e) r2
                  end
                else finish 0%Z s3
            | [] => finish 0%Z s3
            end
        end
  end.

(** The characters of a string literal after its opening quote. *)
Fixpoint parse_chars (s : jsstring) (acc : jsstring) : option (jsstring * jsstring) :=
  match s with
  | [] => None
  | c :: r =>
      if N.eqb c 34 then Some (rev acc, r)
      else if N.eqb c 92 then
        match r with
        | e :: r' =>
            if N.eqb e 34 || N.eqb e 92 || N.eqb e 47 then parse_chars r' (e :: acc)
            else if N.eqb e 98 then parse_chars r' (8%N :: acc)
            else if N.eqb e 102 then parse_chars r' (12%N :: acc)
            else if N.eqb e 110 then parse_chars r' (10%N :: acc)
            else if N.eqb e 114 then parse_chars r' (13%N :: acc)
            else if N.eqb e 116 then parse_chars r' (9%N :: acc)
            else if N.eqb e 117 then
              match r' with
              | h1 :: h2 :: h3 :: h4 :: r'' =>
                  match hex_value h1, hex_value h2, hex_value h3, hex_value h4 with
                  | Some a, Some b, Some c', Some d =>
                      parse_chars r'' ((((a * 16 + b) * 16 + c') * 16 + d)%N :: acc)
                  | _, _, _, _ => None
                  end
              | _ => None
              end
            else None
        | [] => None
        end
      else if N.ltb c 32 then None
      else parse_chars r (c :: acc)
  end.

(** A later member of the same name replaces the earlier one. *)
Fixpoint put (fs : list (jsstring * jsval)) (k : jsstring) (v : jsval) :=
  match fs with
  | [] => [(k, v)]
  | (k', v') :: fs' => if str_eqb k k' then (k', v) :: fs' else (k', v') :: put fs' k v
  end.

Fixpoint parse_value (fuel : nat) (s : jsstring) : option (jsval * jsstring) :=
  match fuel with
  | O => None
  | S fuel' =>
      let s := skip_ws s in
      if startsWith (lit "null") s then Some (JNull, skipn 4 s)
      else if startsWith (lit "true") s then Some (JBool true, skipn 4 s)
      else if startsWith (lit "false") s then Some (JBool false, skipn 5 s)
      else
        match s with
        | [] => None
        | c :: r =>
            if N.eqb c 34 then
              match parse_chars r [] with
              | Some (str, r') => Some (JStr str, r')
              | None => None
              end
            else if N.eqb c 91 then
              match skip_ws r with
              | c' :: r' =>
                  if N.eqb c' 93 then Some (JArr [], r')
                  else parse_elements fuel' r []
              | [] => None
              end
            else if N.eqb c 123 then
              match skip_ws r with
              | c' :: r' =>
                  if N.eqb c' 125 then Some (JObj [], r')
                  else parse_members fuel' r []
              | [] => None
              end
            else
              match parse_number s with
              | Some (q, r') => Some (JNum q, r')
              | None => None
              end
        end
  end
with parse_elements (fuel : nat) (s : jsstring) (acc : list jsval)
  : option (jsval * jsstring) :=
  match fuel with
  | O => None
  | S fuel' =>
      match parse_value fuel' s with
      | Some (v, r) =>
          match skip_ws r with
          | c :: r' =>
              if N.eqb c 44 then parse_elements fuel' r' (acc ++ [v])
              else if N.eqb c 93 then Some (JArr (acc ++ [v]), r')
              else None
          | [] => None
          end
      | None => None
      end
  end
with parse_members (fuel : nat) (s : jsstring) (acc : list (jsstring * jsval))
  : option (jsval * jsstring) :=
  match fuel with
  | O => None
  | S fuel' =>
      match skip_ws s with
      | q :: r0 =>
          if N.eqb q 34 then
            match parse_chars r0 [] with
            | Some (k, r1) =>
                match skip_ws r1 with
                | c :: r2 =>
                    if N.eqb c 58 then
                      match parse_value fuel' r2 with
                      | Some (v, r3) =>
                          match skip_ws r3 with
                          | c' :: r4 =>
                              if N.eqb c' 44 then parse_members fuel' r4 (put acc k v)
                              else if N.eqb c' 125 then Some (JObj (put acc k v), r4)
                              else None
                          | [] => None
                          end
                      | None => None
                      end
                    else None
                | [] => None
                end
            | None => None
            end
          else None
      | [] => None
      end
  end.

(** [JSON.parse]: one value, white space around it, nothing else. *)
Definition parse_json (s : jsstring) : option jsval :=
  match parse_value (2 * List.length s + 2) s with
  | Some (v, r) => match skip_ws r with [] => Some v | _ => None end
  | None => None
  end.

End Json.

Module Mock.

(** What each collaborator answers, whatever it is sent ([None]: the fetch
    rejects). *)
Record Script := mkScript {
  on_stt : option HttpResponse;
  on_gemini : option HttpResponse;
  on_tts : option HttpResponse }.

Definition answer (sc : Script) (r : OutRequest) : option HttpResponse :=
  if str_eqb (out_url r) stt_url then on_stt sc
  else if startsWith (lit "https://generativelanguage.googleapis.com/") (out_url r)
       then on_gemini sc
       else on_tts sc.

(** The world counts the requests it has served. *)
Definition platform (sc : Script) : Platform :=
  {| World := nat;
     JSON_parse := Json.parse_json;
     message_of := fun e => match e with
                            | TypeError => lit "TypeError"
                            | SyntaxError _ => lit "Unexpected token"
                            | NetworkError => lit "Network connection lost."
                            end;
     latin1_headers := true;
     network := fun r w => (answer sc r, S w) |}.

Definition quote (s : jsstring) : jsstring := dq ++ s ++ dq.

(** [{"text": "<s>"}], a transcription answer. *)
Definition stt_ok (s : jsstring) : HttpResponse :=
  mkHttp true (lit "OK") (lit "{" ++ quote (lit "text") ++ lit ":" ++ quote s ++ lit "}") [].

(** [{"candidates":[{"content":{"parts":[{"text": <t>}]}}]}], a generation
    answer whose text is the JSON text [t]. *)
Definition gemini_ok (t : jsstring) : HttpResponse :=
  mkHttp true (lit "OK")
    (lit "{" ++ quote (lit "candidates") ++ lit ":[{" ++ quote (lit "content") ++ lit ":{"
     ++ quote (lit "parts") ++ lit ":[{" ++ quote (lit "text") ++ lit ":" ++ t ++ lit "}]}}]}")
    [].

Definition tts_ok (bytes : list Byte.byte) : HttpResponse :=
  mkHttp true (lit "OK") (lit "") bytes.

(** [s] inside a JSON string literal: quotes and backslashes escaped. *)
Fixpoint escaped (s : jsstring) : jsstring :=
  match s with
  | [] => []
  | c :: s' => if N.eqb c 34 || N.eqb c 92 then 92%N :: c :: escaped s' else c :: escaped s'
  end.

(** [{"role": "<role>", "content": "<content>"}] *)
Definition turn_json (role content : jsstring) : jsstring :=
  lit "{" ++ quote (lit "role") ++ lit ":" ++ quote role ++ lit ","
  ++ quote (lit "content") ++ lit ":" ++ quote content ++ lit "}".

Definition failed (statusText body : jsstring) : HttpResponse :=
  mkHttp false statusText body [].

Definition env : Env :=
  mkEnv (lit "xi-key") (lit "g-key") (lit "voice-1") (Some (lit "https://app.example.com,https://admin.example.com")).

(** A recording of [n] zero bytes. *)
Definition recording (n : nat) : File :=
  mkFile (lit "clip.webm") (lit "audio/webm") (repeat Byte.x00 n).

Definition post (fd : FormData) : Request :=
  mkRequest (lit "POST") (Some (lit "https://app.example.com")) (Some fd).

End Mock.

(** ** The vocabulary of the properties *)

(** Which collaborator an outbound request goes to, by its URL. *)
Definition is_generation (r : OutRequest) : bool :=
  startsWith (lit "https://generativelanguage.googleapis.com/") (out_url r).

Definition is_synthesis (r : OutRequest) : bool :=
  startsWith (lit "https://api.elevenlabs.io/v1/text-to-speech/") (out_url r).

(** [{ "error": message }] *)
Definition error_body (m : jsstring) : ResponseBody :=
  JsonText (JObj [(lit "error", JStr m)]).

(** The input failures: a 500 whose body names the missing or too short
    audio. *)
Definition InvalidInput (r : Response) : Prop :=
  status r = 500%N /\
  (body r = error_body (lit "No audio file provided")
   \/ body r = error_body (lit "Audio file too short.")).

(** A successful turn: a 200 carrying the synthesized audio. *)
Definition successful (r : Response) : Prop :=
  status r = 200%N /\ exists bytes, body r = StreamBody bytes.

(** No audio part in the form: nothing of that name, or a string. *)
Definition audio_missing (fd : FormData) : Prop :=
  forall f, FormData_get fd (lit "audio") <> Some (EFile f).

Definition audio_below (fd : FormData) (threshold : N) : Prop :=
  exists f, FormData_get fd (lit "audio") = Some (EFile f) /\ (size f < threshold)%N.

Section Outcomes.
Context {P : Platform}.

(** The handler answered [r] from the world [w]. *)
Definition answers (m : M Response) (w : World) (r : Response) : Prop :=
  result m w = Val r.

(** The handler turned the request down without any outbound request. *)
Definition rejected (m : M Response) (w : World) : Prop :=
  (exists r, answers m w r /\ InvalidInput r) /\ calls m w = [].

End Outcomes.

Definition allow_list (env : Env) : list jsstring :=
  split 44 (str_or (ALLOWED_ORIGINS env) (lit "")).

Definition allow_origin (r : Response) : option jsstring :=
  Headers_get (headers r) (lit "Access-Control-Allow-Origin").

Definition allow_methods (r : Response) : option jsstring :=
  Headers_get (headers r) (lit "Access-Control-Allow-Methods").

Definition allow_headers (r : Response) : option jsstring :=
  Headers_get (headers r) (lit "Access-Control-Allow-Headers").

(** What the default branch answers as the allowed origin. *)
Definition default_origin (env : Env) : jsstring :=
  str_or (nth_error (allow_list env) 0) (lit "http://localhost:5173").

(** The request names an origin, not the empty one, that is on the list. *)
Definition listed (req : Request) (env : Env) : Prop :=
  exists o, origin req = Some o /\ o <> [] /\ In o (allow_list env).

Section Policy.
Context {P : Platform}.

(** The runtime takes the headers of the policy of part_001 (first file):
    the origin to allow is a header value. *)
Definition policy_accepted (req : Request) (env : Env) : Prop :=
  exists h, Headers_new (FromRecord (Part001A.getCorsHeaders req env)) = Val h.

End Policy.

Definition reply_text (r : Response) : option jsstring :=
  Headers_get (headers r) (lit "X-Ai-Text").

Definition recognized_text (r : Response) : option jsstring :=
  Headers_get (headers r) (lit "X-User-Text").

Definition compliance_score (r : Response) : option jsstring :=
  Headers_get (headers r) (lit "X-Compliance-Score").

(** The reply of the short-circuit revisions to silence, and their reply to
    a failing generation service. *)
Definition silence_reply : jsstring := lit "I couldn't hear you, Officer. Say again?".
Definition apology_reply : jsstring := lit "My head hurts... (AI Error)".

(** No usable speech: at most one code unit once trimmed. *)
Definition silent (t : jsstring) : Prop := (str_length (trim t) <= 1)%N.

Section Transcript.
Context {P : Platform}.

(** The transcription service answered with success and the transcript [t]
    (the [text] of its JSON answer, the empty string when it has none). *)
Definition transcribed (stt : HttpResponse) (t : jsstring) : Prop :=
  ok stt = true /\
  exists sttJson heard,
    JSON_parse (text stt) = Some sttJson
    /\ get_field sttJson (lit "text") = Val heard
    /\ or_else heard (JStr (lit "")) = JStr t.

End Transcript.

(** The answer of a turn whose reply is the apology, with the recognized
    text [u] and on the synthesis answer [tts]. *)
Definition apology_answer (cors : Headers) (u : jsstring) (tts : HttpResponse) : Response :=
  Response_of (StreamBody (stream tts)) 200
    (Headers_put
       (Headers_put
          (Headers_put (Headers_put cors (lit "Content-Type") (lit "audio/mpeg"))
             (lit "X-Ai-Text") apology_reply)
          (lit "X-User-Text") u)
       (lit "Access-Control-Expose-Headers") (lit "X-Ai-Text, X-User-Text")).

(** A prior turn as the caller sends it, [{ role, content }]. *)
Definition prior_turn (rc : jsstring * jsstring) : jsval :=
  JObj [(lit "role", JStr (fst rc)); (lit "content", JStr (snd rc))].

(** The same turn in the vocabulary of the generation service. *)
Definition model_turn (rc : jsstring * jsstring) : jsval :=
  JObj [(lit "role",
         JStr (if str_eqb (fst rc) (lit "assistant") then lit "model" else lit "user"));
        (lit "parts", JArr [JObj [(lit "text", JStr (snd rc))]])].

(** The current transcript as the newest user turn. *)
Definition user_turn (userText : jsval) : jsval :=
  JObj [(lit "role", JStr (lit "user"));
        (lit "parts", JArr [JObj [(lit "text", userText)]])].

(** The persona as index.ts sends it: a first user turn. *)
Definition persona_turn : jsval :=
  JObj [(lit "role", JStr (lit "user"));
        (lit "parts", JArr [JObj [(lit "text", JStr Index.systemPrompt)]])].

(** The [contents] of a generation request. *)
Definition contents_of (r : OutRequest) : option (list jsval) :=
  match out_body r with
  | JsonBody (JObj fs) =>
      match lookup (lit "contents") fs with
      | JArr l => Some l
      | _ => None
      end
  | _ => None
  end.

(** The requests index.ts has made once the generation service answered. *)
Definition asked (env : Env) (f : File) (userText : jsval) (mapped : list jsval)
  : list OutRequest :=
  [Index.stt_request env f; Index.gemini_request env mapped userText].

(** The failure answer of index.ts. *)
Definition Index_failure (m : jsstring) : Response :=
  Response_of (error_body m) 500
    (Index.getCorsHeaders ++ [(lit "Content-Type", lit "application/json")]).

(** The form and the request without any history field. *)
Definition without_history (fd : FormData) : FormData :=
  filter (fun kv => negb (str_eqb (lit "history") (fst kv))) fd.

Definition drop_history (req : Request) : Request :=
  mkRequest (method req) (origin req) (option_map without_history (formData req)).

Section Repeatability.
Context {P : Platform}.

(** The collaborators answer by the request alone: the state of the world
    has no say in what a fetch resolves to. *)
Definition stateless : Prop :=
  forall (r : OutRequest) (w w' : World), fst (network r w) = fst (network r w').

(** The outcome of a computation and the requests it makes do not depend on
    the world it starts from. *)
Definition world_blind {A} (m : M A) : Prop :=
  forall (w1 w2 : World) (cs : list Exchange),
    fst (m (w1, cs)) = fst (m (w2, cs))
    /\ snd (snd (m (w1, cs))) = snd (snd (m (w2, cs))).

(** Two runs of a handler, from the worlds [w1] and [w2], answer with the
    same recognized text, reply text and payload. *)
Definition same_metadata (m : M Response) (w1 w2 : World) : Prop :=
  exists r1 r2,
    answers m w1 r1 /\ answers m w2 r2
    /\ recognized_text r1 = recognized_text r2
    /\ reply_text r1 = reply_text r2
    /\ body r1 = body r2.

End Repeatability.

Section Produced.
Context {P : Platform}.

(** The header that the runtime makes of the value [v]: its string, taken
    as a header value. *)
Definition header_of (v : jsval) (a : jsstring) : Prop :=
  exists s, ToString v = Val s /\ header_value s = Val a.

(** In the run of [m] from [w], the transcription service answered with
    success a JSON body whose [text] is [heard]. *)
Definition transcript (m : M Response) (w : World) (heard : jsval) : Prop :=
  exists c a sttJson,
    In (c, Some a) (trace m w) /\ out_url c = stt_url /\ ok a = true
    /\ JSON_parse (text a) = Some sttJson
    /\ get_field sttJson (lit "text") = Val heard.

(** In the run of [m] from [w], the generation service answered with
    success a JSON body whose first candidate holds the text [found]. *)
Definition generated (m : M Response) (w : World) (found : jsval) : Prop :=
  exists c a geminiJson,
    In (c, Some a) (trace m w) /\ is_generation c = true /\ ok a = true
    /\ JSON_parse (text a) = Some geminiJson
    /\ first_candidate_text geminiJson = Val found.

(** In the run of [m] from [w], the generation service answered, with
    whatever status, a JSON body whose first candidate holds a truthy text
    that parses to [brainData]. *)
Definition structured (m : M Response) (w : World) (brainData : jsval) : Prop :=
  exists c a geminiData rawJSON raw,
    In (c, Some a) (trace m w) /\ is_generation c = true
    /\ JSON_parse (text a) = Some geminiData
    /\ first_candidate_text geminiData = Val rawJSON /\ truthy rawJSON = true
    /\ ToString rawJSON = Val raw /\ JSON_parse raw = Some brainData.

(** The recognized-text header of [r] is the header of what the
    transcription service heard, of the empty string in its place when
    [or_empty] is set and what it heard is falsy. *)
Definition recognized_from (or_empty : bool) (m : M Response) (w : World) (r : Response)
  : Prop :=
  exists heard u,
    transcript m w heard
    /\ header_of (if or_empty then or_else heard (JStr (lit "")) else heard) u
    /\ recognized_text r = Some u.

(** The reply header of [r] is the header of the text that the generation
    service produced in the run when that text is truthy; it is one of the
    fixed sentences when the service produced no truthy text. *)
Definition reply_from (fallbacks : list jsstring) (m : M Response) (w : World)
    (r : Response) : Prop :=
  exists a,
    reply_text r = Some a
    /\ ((exists found, generated m w found /\ truthy found = true /\ header_of found a)
        \/ (In a fallbacks /\ forall found, generated m w found -> truthy found = false)).

(** The reply header of [r] is the header of the [text] of the structured
    output, whatever that is, and its score header the header of the string
    of the [compliance] of that output. *)
Definition structured_reply (m : M Response) (w : World) (r : Response) : Prop :=
  exists brainData brainText compliance score a s,
    structured m w brainData
    /\ get_field brainData (lit "text") = Val brainText
    /\ header_of brainText a /\ reply_text r = Some a
    /\ get_field brainData (lit "compliance") = Val compliance
    /\ call_toString compliance = Val score
    /\ header_value score = Val s /\ compliance_score r = Some s.

(** The answer [r] is the audio: a 200 whose payload is the stream that the
    synthesis service returned, with success, in the run. *)
Definition audio_answer (m : M Response) (w : World) (r : Response) : Prop :=
  status r = 200%N
  /\ exists c tts,
       In (c, Some tts) (trace m w) /\ is_synthesis c = true /\ ok tts = true
       /\ body r = StreamBody (stream tts).

End Produced.

(** The answer to the preflight. *)
Definition preflight_answer (r : Response) : Prop :=
  status r = 200%N /\ body r = NoBody.

(** The answer to a method that is neither POST nor OPTIONS. *)
Definition method_not_allowed (r : Response) : Prop :=
  status r = 405%N /\ body r = TextBody (lit "Method not allowed").

(** A 500 whose body is [{ "error": m }]. *)
Definition fails_with (r : Response) (m : jsstring) : Prop :=
  status r = 500%N /\ body r = error_body m.

Section Upstream.
Context {P : Platform}.

(** The transcription service of part_001 (second file) answered
    [upstream], without success. *)
Definition transcription_failed (env : Env) (w : World) (upstream : HttpResponse) : Prop :=
  exists f w', network (Part001B.stt_request env f) w = (Some upstream, w')
               /\ ok upstream = false.

End Upstream.

Section Kinds.
Context {P : Platform}.

(** The four kinds of answer: to the preflight, to a method that is neither
    OPTIONS nor POST, and to a POST either the audio or a failure, a 500
    whose body is [{ "error": msg }] with a message that [failure] admits. *)
Definition answer_kinds (req : Request) (m : M Response) (w : World) (r : Response)
    (failure : jsstring -> Prop) : Prop :=
  (method req = lit "OPTIONS" /\ preflight_answer r)
  \/ (method req <> lit "OPTIONS" /\ method req <> lit "POST" /\ method_not_allowed r)
  \/ (method req = lit "POST" /\ audio_answer m w r)
  \/ (method req = lit "POST" /\ exists msg, fails_with r msg /\ failure msg).

End Kinds.

(** ** Concrete collaborators, forms and conversations *)

Module Scenario.

(** The collaborators of the concrete runs below. *)
Definition audio : File := Mock.recording 120.
Definition form : FormData := [(lit "audio", EFile audio)].
Definition voice : list Byte.byte := [Byte.x01; Byte.x02; Byte.x03].

(** The transcription hears only white space. *)
Definition hush : Mock.Script :=
  Mock.mkScript (Some (Mock.stt_ok (lit "  "))) None (Some (Mock.tts_ok voice)).

End Scenario.

Module Outage.

(** The generation service is down; transcription and synthesis work. *)
Definition heard : jsstring := lit "is my account unfrozen".

Definition script : Mock.Script :=
  Mock.mkScript (Some (Mock.stt_ok heard))
                (Some (Mock.failed (lit "Service Unavailable") (lit "quota exceeded")))
                (Some (Mock.tts_ok Scenario.voice)).

End Outage.

Module Dialogue.

(** Two prior turns, oldest first. *)
Definition turns : list (jsstring * jsstring) :=
  [(lit "assistant", lit "Nah man, still locked."); (lit "user", lit "I will check")].

Definition history_json : jsstring :=
  lit "[" ++ Mock.turn_json (lit "assistant") (lit "Nah man, still locked.")
  ++ lit ", " ++ Mock.turn_json (lit "user") (lit "I will check") ++ lit "]".

Definition form : FormData :=
  [(lit "audio", EFile Scenario.audio); (lit "history", EString history_json)].

(** Transcription works; the other two services are unreachable. *)
Definition script : Mock.Script :=
  Mock.mkScript (Some (Mock.stt_ok Outage.heard)) None None.

End Dialogue.

Module Chat.

(** The generation service answers plain words, not the JSON it was asked
    for. *)
Definition plain : Mock.Script :=
  Mock.mkScript (Some (Mock.stt_ok Outage.heard))
                (Some (Mock.gemini_ok (Mock.quote (lit "Nah man, still locked."))))
                (Some (Mock.tts_ok Scenario.voice)).

(** [{"compliance":50}]: a JSON output without [text]. *)
Definition score_only : jsstring := lit "{" ++ Mock.quote (lit "compliance") ++ lit ":50}".

Definition textless : Mock.Script :=
  Mock.mkScript (Some (Mock.stt_ok Outage.heard))
                (Some (Mock.gemini_ok (Mock.quote (Mock.escaped score_only))))
                (Some (Mock.tts_ok Scenario.voice)).

(** The answer of the generation service as parsed, for the text [t]. *)
Definition parsed (t : jsstring) : jsval :=
  JObj [(lit "candidates",
         JArr [JObj [(lit "content",
                      JObj [(lit "parts", JArr [JObj [(lit "text", JStr t)]])])]])].

End Chat.

Module Garbled.

(** The history field holds words, not JSON; every collaborator works. *)
Definition form : FormData :=
  [(lit "history", EString (lit "not json")); (lit "audio", EFile Scenario.audio)].

Definition script : Mock.Script :=
  Mock.mkScript (Some (Mock.stt_ok Outage.heard))
                (Some (Mock.gemini_ok (Mock.quote (lit "Nah man, still locked."))))
                (Some (Mock.tts_ok Scenario.voice)).

End Garbled.

Module Talk.

(** All three collaborators work; the generation service answers the JSON
    output [output] as its text. *)
Definition structured (output : jsstring) : Mock.Script :=
  Mock.mkScript (Some (Mock.stt_ok Outage.heard))
                (Some (Mock.gemini_ok (Mock.quote (Mock.escaped output))))
                (Some (Mock.tts_ok Scenario.voice)).

(** [{"text":"Nah man, still locked.","compliance":40}] *)
Definition scored : jsstring :=
  lit "{" ++ Mock.quote (lit "text") ++ lit ":" ++ Mock.quote (lit "Nah man, still locked.")
  ++ lit "," ++ Mock.quote (lit "compliance") ++ lit ":40}".

(** [{"text":"","compliance":40}]: an output whose text is empty. *)
Definition wordless : jsstring :=
  lit "{" ++ Mock.quote (lit "text") ++ lit ":" ++ Mock.quote (lit "")
  ++ lit "," ++ Mock.quote (lit "compliance") ++ lit ":40}".

End Talk.

Module Leak.

(** The transcription service refuses, and says why. *)
Definition refusal : jsstring := lit "quota exceeded for key sk-live-123".

Definition script : Mock.Script :=
  Mock.mkScript (Some (Mock.failed (lit "Too Many Requests") refusal)) None None.

End Leak.

(** ** Further vocabulary: the pipeline and its answers *)

(** The three collaborators. *)
Inductive service := Transcription | Generation | Synthesis.

(** The collaborator an outbound request goes to, by its URL. *)
Definition service_of (r : OutRequest) : option service :=
  if str_eqb (out_url r) stt_url then Some Transcription
  else if is_generation r then Some Generation
  else if is_synthesis r then Some Synthesis
  else None.

Section Answered.
Context {P : Platform}.

(** The handler answers the request, with a 200, a 405 or a 500; the 405 is
    for the methods other than OPTIONS and POST, and only a POST makes it
    call a collaborator. *)
Definition answered_in_kind (req : Request) (m : M Response) (w : World) : Prop :=
  exists r,
    answers m w r
    /\ In (status r) [200; 405; 500]%N
    /\ (status r = 405%N <-> method req <> lit "OPTIONS" /\ method req <> lit "POST")
    /\ (method req <> lit "POST" -> calls m w = [] /\ fst (snd (run m w)) = w).

End Answered.

(** The sequences of collaborators a turn can go through; the short-circuit
    revisions can also go from transcription to synthesis. *)
Definition pipelines (short_circuit : bool) : list (list (option service)) :=
  [[]; [Some Transcription]; [Some Transcription; Some Generation];
   [Some Transcription; Some Generation; Some Synthesis]]
  ++ (if short_circuit then [[Some Transcription; Some Synthesis]] else []).

Definition pipeline (short_circuit : bool) (cs : list OutRequest) : Prop :=
  In (map service_of cs) (pipelines short_circuit).

(** An outbound request is a POST; one to the generation service carries no
    ElevenLabs key, any other goes to the ElevenLabs API with the key of the
    environment. *)
Definition keyed (env : Env) (c : OutRequest) : Prop :=
  out_method c = lit "POST" /\
  if is_generation c
  then Headers_get (out_headers c) (lit "xi-api-key") = None
  else startsWith (lit "https://api.elevenlabs.io/v1/") (out_url c) = true
       /\ Headers_get (out_headers c) (lit "xi-api-key") = Some (ELEVENLABS_API_KEY env).

(** A synthesis request is the shared one, on a truthy text. *)
Definition voices_text (env : Env) (c : OutRequest) : Prop :=
  is_synthesis c = true ->
  exists aiText, c = tts_request env aiText /\ truthy aiText = true.
Definition content_type (r : Response) : option jsstring :=
  Headers_get (headers r) (lit "Content-Type").

Definition exposed_headers (r : Response) : option jsstring :=
  Headers_get (headers r) (lit "Access-Control-Expose-Headers").

Section Voiced.
Context {P : Platform}.

(** The answer [r] carries the audio that the synthesis service returned to
    the last outbound request, and its reply header is the header that the
    runtime makes of the text which this request asked to voice. *)
Definition voiced (env : Env) (m : M Response) (w : World) (r : Response) : Prop :=
  exists before aiText a tts,
    trace m w = before ++ [(tts_request env aiText, Some tts)]
    /\ ok tts = true
    /\ body r = StreamBody (stream tts)
    /\ header_of aiText a
    /\ reply_text r = Some a.

End Voiced.

Section Unavailable.
Context {P : Platform}.

(** The message of the failure when the transcription service is not
    available: the runtime's own when the fetch rejects, the handler's, made
    of [prefix] and of what it quotes of the answer, otherwise. *)
Definition unavailable_message (o : option HttpResponse) (prefix : jsstring)
    (quoted : HttpResponse -> jsstring) : jsstring :=
  match o with
  | Some stt => prefix ++ quoted stt
  | None => message_of NetworkError
  end.

End Unavailable.

(** The values that spread accepts, and the ones that have [map]. *)
Definition iterable (v : jsval) : bool :=
  match v with
  | JArr _ | JStr _ => true
  | _ => false
  end.

Definition is_array (v : jsval) : bool :=
  match v with
  | JArr _ => true
  | _ => false
  end.

(** The successful answer of index.ts, on the synthesis answer [tts]. *)
Definition Index_answer (reply recognized score : jsstring) (tts : HttpResponse)
  : Response :=
  Response_of (StreamBody (stream tts)) 200
    (Headers_put
       (Headers_put
          (Headers_put
             (Headers_put Index.getCorsHeaders (lit "Content-Type") (lit "audio/mpeg"))
             (lit "X-Ai-Text") reply)
          (lit "X-User-Text") recognized)
       (lit "X-Compliance-Score") score).

Module Blocked.

(** The generation service answers with success, and no candidate. *)
Definition script : Mock.Script :=
  Mock.mkScript (Some (Mock.stt_ok Outage.heard))
                (Some (mkHttp true (lit "OK")
                         (lit "{" ++ Mock.quote (lit "candidates") ++ lit ":[]}") []))
                (Some (Mock.tts_ok Scenario.voice)).

End Blocked.

Module Rude.

(** The generation service says 429, with a body that holds a candidate all
    the same. *)
Definition gemini : HttpResponse :=
  mkHttp false (lit "Too Many Requests")
         (text (Mock.gemini_ok (Mock.quote (Mock.escaped Talk.scored)))) [].

Definition script : Mock.Script :=
  Mock.mkScript (Some (Mock.stt_ok Outage.heard)) (Some gemini)
                (Some (Mock.tts_ok Scenario.voice)).

End Rude.

Module Unscored.

(** [{"text":"Nah man, still locked."}]: an output without a score. *)
Definition output : jsstring :=
  lit "{" ++ Mock.quote (lit "text") ++ lit ":" ++ Mock.quote (lit "Nah man, still locked.")
  ++ lit "}".

Definition script : Mock.Script := Talk.structured output.

End Unscored.

Module Quota.

(** [{"error":"quota exceeded"}], the generation service's refusal. *)
Definition gemini : HttpResponse :=
  Mock.failed (lit "Too Many Requests")
    (lit "{" ++ Mock.quote (lit "error") ++ lit ":" ++ Mock.quote (lit "quota exceeded")
     ++ lit "}").

Definition script : Mock.Script :=
  Mock.mkScript (Some (Mock.stt_ok Outage.heard)) (Some gemini)
                (Some (Mock.tts_ok Scenario.voice)).

End Quota.

Module Shapeless.

(** The history field holds a JSON object, not a list. *)
Definition form : FormData :=
  [(lit "audio", EFile Scenario.audio); (lit "history", EString (lit "{}"))].

End Shapeless.

Module Counted.

(** The transcription service answers [{"text":5}]. *)
Definition stt : HttpResponse :=
  mkHttp true (lit "OK") (lit "{" ++ Mock.quote (lit "text") ++ lit ":5}") [].

Definition script : Mock.Script :=
  Mock.mkScript (Some stt) None None.

End Counted.
(** An entry of the history that [msg.role] can be read from. *)
Definition readable (msg : jsval) : bool :=
  match msg with
  | JUndefined | JNull => false
  | _ => true
  end.

(** What index.ts makes of a history entry: "model" for the role
    "assistant" and "user" for anything else, the content as the one part. *)
Definition mapped_entry (msg out : jsval) : Prop :=
  exists role content,
    get_field msg (lit "role") = Val role
    /\ get_field msg (lit "content") = Val content
    /\ out = JObj [(lit "role",
                    JStr (if match role with
                             | JStr r => str_eqb r (lit "assistant")
                             | _ => false
                             end
                          then lit "model" else lit "user"));
                   (lit "parts", JArr [JObj [(lit "text", content)]])].

Module Lines.

(** The allow-list written one origin a line, not with commas: the one
    entry that [split] makes of it has a line feed inside. *)
Definition env : Env :=
  mkEnv (lit "xi-key") (lit "g-key") (lit "voice-1")
        (Some (lit "https://app.example.com" ++ [10%N] ++ lit "https://admin.example.com")).

End Lines.

Module Trailing.

(** The generation service ends its text with a line feed. *)
Definition reply : jsstring := lit "Nah man, still locked." ++ [10%N].

Definition script : Mock.Script :=
  Mock.mkScript (Some (Mock.stt_ok Outage.heard))
                (Some (Mock.gemini_ok
                         (Mock.quote (lit "Nah man, still locked." ++ [92; 110]%N))))
                (Some (Mock.tts_ok Scenario.voice)).

End Trailing.

Module Broken.

(** [{"text":"Nah man,\nstill locked.","compliance":40}]: an output whose
    text has a line feed inside. *)
Definition reply : jsstring := lit "Nah man," ++ [10%N] ++ lit "still locked.".

Definition output : jsstring :=
  lit "{" ++ Mock.quote (lit "text") ++ lit ":"
  ++ Mock.quote (lit "Nah man," ++ [92; 110]%N ++ lit "still locked.")
  ++ lit "," ++ Mock.quote (lit "compliance") ++ lit ":40}".

Definition script : Mock.Script := Talk.structured output.

(** The same text from a generation service of the raw-text revisions. *)
Definition raw_script : Mock.Script :=
  Mock.mkScript (Some (Mock.stt_ok Outage.heard))
                (Some (Mock.gemini_ok
                         (Mock.quote (lit "Nah man," ++ [92; 110]%N ++ lit "still locked."))))
                (Some (Mock.tts_ok Scenario.voice)).

End Broken.

Module Spelled.

(** The history field holds a JSON string, not a list. *)
Definition form : FormData :=
  [(lit "audio", EFile Scenario.audio); (lit "history", EString (Mock.quote (lit "hi")))].

End Spelled.

Arguments lit : simpl never.

(** * Properties *)

(** ** The JSON parser on a few texts *)

Example parse_json_ex1 :
  Json.parse_json (lit "{" ++ dq ++ lit "text" ++ dq ++ lit ": " ++ dq ++ lit "hi" ++ dq
                   ++ lit ", " ++ dq ++ lit "n" ++ dq ++ lit ": [1, -2.5, 3e2, null, true]}")
  = Some (JObj [(lit "text", JStr (lit "hi"));
                (lit "n", JArr [JNum 1%Q; JNum (-5 # 2)%Q; JNum 300%Q; JNull; JBool true])]).
Proof. vm_compute. reflexivity. Qed.

Example parse_json_ex2 : Json.parse_json (lit "not json") = None /\ Json.parse_json (lit "") = None
   /\ Json.parse_json (lit "[1,]") = None /\ Json.parse_json (lit "01") = None
   /\ Json.parse_json (lit " [ ] ") = Some (JArr []).
Proof. vm_compute. repeat split; reflexivity. Qed.

(** ** The string primitives on a few inputs *)

Example trim_ex : trim (lit "  hi " ++ [160%N]) = lit "hi" /\ trim (lit " a b ") = lit "a b".
Proof. split; reflexivity. Qed.

Example split_ex :
  split 44 (lit "a,,bc") = [lit "a"; lit ""; lit "bc"] /\ split 44 (lit "") = [lit ""].
Proof. split; reflexivity. Qed.

Example code_points_ex :
  code_points [97; 55357; 56832; 98]%N = [[97]; [55357; 56832]; [98]]%N.
Proof. reflexivity. Qed.

(** ** Numbers as doubles *)

Example number_toString_ex :
  number_toString 1050 = lit "1050" /\ number_toString (-7) = lit "-7"
  /\ number_toString 0 = lit "0" /\ number_toString (5 # 10) = lit "0.5"
  /\ number_toString (1 # 10) = lit "0.1" /\ number_toString (1 # 3) = lit "0.3333333333333333"
  /\ number_toString (1 # 10000000) = lit "1e-7"
  /\ number_toString (123 # 100000000) = lit "0.00000123".
Proof. vm_compute. repeat split; reflexivity. Qed.

(** From 10^21 on a number prints in exponent form, and an integer beyond
    2^53 prints as the double it was rounded to. *)
Example number_toString_large :
  number_toString (inject_Z (10 ^ 21)) = lit "1e+21"
  /\ number_toString (inject_Z (10 ^ 21 - 1)) = lit "1e+21"
  /\ number_toString (inject_Z (10 ^ 20)) = lit "100000000000000000000"
  /\ number_toString 9007199254740993 = lit "9007199254740992"
  /\ number_toString 123456789012345678901234 = lit "1.2345678901234569e+23"
  /\ number_toString (inject_Z (10 ^ 400)) = lit "Infinity"
  /\ number_toString (inject_Z (- 10 ^ 400)) = lit "-Infinity".
Proof. vm_compute. repeat split; reflexivity. Qed.

(** The least double is 2^-1074; half of it and anything below is zero, and
    falsy. *)
Example number_underflow :
  number_toString (Qmake 1 (2 ^ 1074)) = lit "5e-324"
  /\ number_toString (Qmake 1 (2 ^ 1075)) = lit "0"
  /\ truthy (JNum (Qmake 1 (2 ^ 1075))) = false
  /\ truthy (JNum (Qmake 1 (2 ^ 1074))) = true
  /\ truthy (JNum 0) = false.
Proof. vm_compute. repeat split; reflexivity. Qed.

Example ToString_ex :
  ToString (JArr [JNum 1; JNull; JStr (lit "a"); JArr [JBool true; JUndefined]])
  = Val (lit "1,,a,true,")
  /\ ToString (JObj [(lit "text", JStr (lit "a"))]) = Val (lit "[object Object]")
  /\ ToString (JObj [(lit "toString", JNum 1)]) = Exn (Runtime TypeError).
Proof. vm_compute. repeat split; reflexivity. Qed.

Example first_candidate_text_ex :
  first_candidate_text (Chat.parsed (lit "hi")) = Val (JStr (lit "hi"))
  /\ first_candidate_text (JObj [(lit "error", JStr (lit "quota"))]) = Val JUndefined
  /\ first_candidate_text JNull = Exn (Runtime TypeError).
Proof. repeat split; reflexivity. Qed.

(** ** Header values and header lists *)

(** White space goes from both ends of a value; a line feed left inside is
    refused, and so is, by a runtime of byte strings, a code unit beyond
    0xFF. *)
Example header_value_ex :
  let P := Mock.platform (Mock.mkScript None None None) in
  header_value (lit "  still locked. " ++ [10%N]) = Val (lit "still locked.")
  /\ header_value (lit "still" ++ [10%N] ++ lit "locked") = Exn (Runtime TypeError)
  /\ header_value (lit "still" ++ [0%N]) = Exn (Runtime TypeError)
  /\ header_value (lit "still" ++ [9%N] ++ lit "locked") = Val (lit "still" ++ [9%N] ++ lit "locked")
  /\ header_value (lit "caf" ++ [233%N]) = Val (lit "caf" ++ [233%N])
  /\ header_value (lit "still" ++ [8230%N]) = Exn (Runtime TypeError)
  /\ header_value (lit "") = Val (lit "").
Proof. vm_compute. repeat split; reflexivity. Qed.

Example Headers_ex :
  let h := [(lit "Content-Type", lit "a"); (lit "X", lit "b"); (lit "content-type", lit "c")] in
  Headers_get h (lit "content-type") = Some (lit "a, c")
  /\ Headers_put h (lit "CONTENT-TYPE") (lit "d") = [(lit "Content-Type", lit "d"); (lit "X", lit "b")]
  /\ Headers_get h (lit "Y") = None
  /\ Headers_put h (lit "Y") (lit "e") = h ++ [(lit "Y", lit "e")].
Proof. vm_compute. repeat split; reflexivity. Qed.

(** A response made of a string is typed as plain text unless its headers
    say otherwise; a stream and no body bring no type. *)
Example Response_of_ex :
  content_type (Response_of (TextBody (lit "Method not allowed")) 405 Part002.getCorsHeaders)
  = Some (lit "text/plain;charset=UTF-8")
  /\ content_type (Response_of (error_body (lit "x")) 500
                     [(lit "content-type", lit "application/json")])
     = Some (lit "application/json")
  /\ content_type (Response_of NoBody 200 Part002.getCorsHeaders) = None
  /\ content_type (Response_of (StreamBody []) 200 Part002.getCorsHeaders) = None.
Proof. vm_compute. repeat split; reflexivity. Qed.

(** ** The end-to-end scenario *)

(** The audio transcribes to "is my account unfrozen", the generation
    service answers "Nah man, still locked.", the synthesis returns the bytes
    01 02 03: part_002 answers 200 with the audio and both texts. *)
Example end_to_end :
  let P := Mock.platform Garbled.script in
  result (Part002.fetch (Mock.post Scenario.form) Mock.env) 0%nat
  = Val (mkResponse 200
           [(lit "Access-Control-Allow-Origin", lit "*");
            (lit "Access-Control-Allow-Methods", lit "GET, POST, OPTIONS");
            (lit "Access-Control-Allow-Headers", lit "Content-Type, x-api-key");
            (lit "Access-Control-Max-Age", lit "86400");
            (lit "Content-Type", lit "audio/mpeg");
            (lit "X-Ai-Text", lit "Nah man, still locked.");
            (lit "X-User-Text", lit "is my account unfrozen");
            (lit "Access-Control-Expose-Headers", lit "X-Ai-Text, X-User-Text")]
           (StreamBody [Byte.x01; Byte.x02; Byte.x03])).
Proof. vm_compute. reflexivity. Qed.

(** ** Strings and form lookups *)

Lemma str_eqb_refl (a : jsstring) : str_eqb a a = true.
Proof.
  induction a as [|x a IH]; simpl; [reflexivity|].
  now rewrite N.eqb_refl, IH.
Qed.

Lemma str_eqb_eq (a b : jsstring) : str_eqb a b = true <-> a = b.
Proof.
  split.
  - revert b. induction a as [|x a IH]; intros [|y b] H; simpl in H;
      try discriminate; [reflexivity|].
    apply andb_true_iff in H. destruct H as [Hx Hab].
    apply N.eqb_eq in Hx. now rewrite Hx, (IH b Hab).
  - intros ->. apply str_eqb_refl.
Qed.

Lemma includes_In (l : list jsstring) (x : jsstring) : includes l x = true <-> In x l.
Proof.
  unfold includes. rewrite existsb_exists. split.
  - intros [y [Hy E]]. apply str_eqb_eq in E. now subst.
  - intros H. exists x. split; [assumption | apply str_eqb_refl].
Qed.

(** ** Header lists *)

Lemma name_eqb_refl (a : jsstring) : name_eqb a a = true.
Proof. apply str_eqb_refl. Qed.

(** Two names that are the same header are the same to any third name. *)
Lemma name_eqb_trans (a b c : jsstring) :
  name_eqb a b = true -> name_eqb c b = name_eqb c a.
Proof. unfold name_eqb. intros H. apply str_eqb_eq in H. now rewrite H. Qed.

Lemma filter_delete_same (h : Headers) (k : jsstring) :
  filter (fun kv => name_eqb k (fst kv)) (Headers_delete h k) = [].
Proof.
  unfold Headers_delete. induction h as [|[k0 v0] h IH]; [reflexivity|].
  cbn [filter fst]. destruct (name_eqb k k0) eqn:E; cbn [negb]; [exact IH|].
  cbn [filter fst]. rewrite E. exact IH.
Qed.

Lemma filter_delete_other (h : Headers) (k k' : jsstring) :
  name_eqb k' k = false ->
  filter (fun kv => name_eqb k' (fst kv)) (Headers_delete h k)
  = filter (fun kv => name_eqb k' (fst kv)) h.
Proof.
  intros Hne. unfold Headers_delete. induction h as [|[k0 v0] h IH]; [reflexivity|].
  cbn [filter fst]. destruct (name_eqb k k0) eqn:E; cbn [negb].
  - rewrite (name_eqb_trans _ _ k' E), Hne. exact IH.
  - cbn [filter fst]. now rewrite IH.
Qed.

Lemma filter_put_other (h : Headers) (k k' v : jsstring) :
  name_eqb k' k = false ->
  filter (fun kv => name_eqb k' (fst kv)) (Headers_put h k v)
  = filter (fun kv => name_eqb k' (fst kv)) h.
Proof.
  intros Hne. induction h as [|[k0 v0] h IH]; cbn [Headers_put filter fst].
  - now rewrite Hne.
  - destruct (name_eqb k k0) eqn:E; cbn [filter fst].
    + rewrite (name_eqb_trans _ _ k' E), Hne. now apply filter_delete_other.
    + now rewrite IH.
Qed.

Lemma Headers_get_put_other (h : Headers) (k k' v : jsstring) :
  name_eqb k' k = false ->
  Headers_get (Headers_put h k v) k' = Headers_get h k'.
Proof. intros Hne. unfold Headers_get. now rewrite filter_put_other. Qed.

Lemma Headers_get_put_same (h : Headers) (k v : jsstring) :
  Headers_get (Headers_put h k v) k = Some v.
Proof.
  unfold Headers_get. induction h as [|[k0 v0] h IH]; cbn [Headers_put filter fst].
  - now rewrite name_eqb_refl.
  - destruct (name_eqb k k0) eqn:E; cbn [filter fst]; rewrite E; [|exact IH].
    now rewrite filter_delete_same.
Qed.

(** A header that a list does not hold is not in the list with one more
    header of another name. *)
Lemma Headers_get_app_other (h : Headers) (k k' v : jsstring) :
  name_eqb k' k = false ->
  Headers_get (h ++ [(k, v)]) k' = Headers_get h k'.
Proof.
  intros Hne. unfold Headers_get. rewrite filter_app. cbn [filter fst]. rewrite Hne.
  now rewrite app_nil_r.
Qed.

(** ** Running the handlers *)

(** One step of a handler: the monad's operations unfolded, the literals
    left as they are. *)
Ltac unfold_monad :=
  cbv beta iota zeta delta [result calls run trace answers bind ret throw try_catch lift
                            fetch_ json request_formData Headers_set Headers_new
                            Response_new];
  cbn [fst snd app].

Ltac post_method Hm :=
  rewrite Hm;
  change (str_eqb (lit "POST") (lit "OPTIONS")) with false;
  change (str_eqb (lit "POST") (lit "POST")) with true;
  cbv beta iota delta [negb].

(** Case analysis on the next thing a handler waits for or tests: the
    innermost scrutinee that is not yet a constructor. *)
Ltac next_case :=
  match goal with
  | |- context [match ?x with _ => _ end] =>
      lazymatch x with
      | context [match _ with _ => _ end] => fail
      | _ => destruct x eqn:?
      end
  end;
  cbv beta iota; cbn [fst snd app].

(** Conversions and [trim] applied to a value known to be a string; the
    header values and the header tables that are written in the source. *)
Ltac on_strings :=
  repeat match goal with
         | |- context [ToString (JStr ?x)] =>
             change (ToString (JStr x)) with (@Val jsstring x)
         | |- context [call_trim (JStr ?x)] =>
             change (call_trim (JStr x)) with (Val (trim x))
         | |- context [header_value (lit ?s)] =>
             change (header_value (lit s)) with (@Val jsstring (lit s))
         | |- context [Headers_fill [] Part000.corsHeaders] =>
             change (Headers_fill [] Part000.corsHeaders) with (@Val Headers Part000.corsHeaders)
         | |- context [Headers_fill [] Part001B.getCorsHeaders] =>
             change (Headers_fill [] Part001B.getCorsHeaders)
               with (@Val Headers Part001B.getCorsHeaders)
         | |- context [Headers_fill [] Part002.getCorsHeaders] =>
             change (Headers_fill [] Part002.getCorsHeaders)
               with (@Val Headers Part002.getCorsHeaders)
         | |- context [Headers_fill [] Index.getCorsHeaders] =>
             change (Headers_fill [] Index.getCorsHeaders)
               with (@Val Headers Index.getCorsHeaders)
         | |- context [Headers_fill [] (Index.getCorsHeaders ++ ?x)] =>
             change (Headers_fill [] (Index.getCorsHeaders ++ x))
               with (@Val Headers (Index.getCorsHeaders ++ x))
         end;
  unfold_monad.

Ltac all_paths := repeat (on_strings; next_case); on_strings.

Ltac step H := rewrite H; unfold_monad.

(** ** Input validation *)

(** Settles a goal [rejected _ _] once the handler has stopped. *)
Ltac stopped_with_invalid_input :=
  split;
  [ eexists; split;
    [ reflexivity | split; [reflexivity | first [left; reflexivity | right; reflexivity]] ]
  | reflexivity ].

Section Validation.
Context {P : Platform}.
Variables (env : Env) (req : Request) (w : World).
Hypothesis Hmethod : method req = lit "POST".

Section Form.
Variable fd : FormData.
Hypothesis Hform : formData req = Some fd.

Ltac without_audio Hno :=
  post_method Hmethod; unfold_monad; rewrite Hform;
  destruct (FormData_get fd (lit "audio")) as [[s|f]|] eqn:E;
  try (exfalso; apply (Hno f); exact E);
  on_strings; stopped_with_invalid_input.

Lemma Part000_missing : audio_missing fd -> rejected (Part000.fetch req env) w.
Proof. intros Hno. unfold rejected, Part000.fetch. without_audio Hno. Qed.

Lemma Part001B_missing : audio_missing fd -> rejected (Part001B.fetch req env) w.
Proof. intros Hno. unfold rejected, Part001B.fetch. without_audio Hno. Qed.

Lemma Part002_missing : audio_missing fd -> rejected (Part002.fetch req env) w.
Proof. intros Hno. unfold rejected, Part002.fetch. without_audio Hno. Qed.

Lemma Index_missing : audio_missing fd -> rejected (Index.fetch req env) w.
Proof. intros Hno. unfold rejected, Index.fetch. without_audio Hno. Qed.

Lemma Part001B_too_short : audio_below fd 100 -> rejected (Part001B.fetch req env) w.
Proof.
  intros [f [E Hsize]]. unfold rejected, Part001B.fetch.
  post_method Hmethod. unfold_monad. rewrite Hform, E.
  apply N.ltb_lt in Hsize. rewrite Hsize. on_strings.
  stopped_with_invalid_input.
Qed.

(** The first outbound request of a POST that carries an audio file. *)
Variable f : File.
Hypothesis Haudio : FormData_get fd (lit "audio") = Some (EFile f).

Ltac first_call :=
  post_method Hmethod; unfold_monad; step Hform; step Haudio;
  try match goal with
      | H : (size f <? 100)%N = false |- _ => step H
      end;
  all_paths; eexists; reflexivity.

Lemma Part000_first_call :
  exists rest, calls (Part000.fetch req env) w = Part000.stt_request env (file_bytes f) :: rest.
Proof. unfold Part000.fetch. first_call. Qed.

Lemma Part001A_first_call :
  exists rest,
    calls (Part001A.fetch req env) w = Part001A.stt_request env (file_bytes f) :: rest.
Proof. unfold Part001A.fetch. first_call. Qed.

Lemma Part001B_first_call :
  (100 <= size f)%N ->
  exists rest, calls (Part001B.fetch req env) w = Part001B.stt_request env f :: rest.
Proof. intros Hsize. apply N.ltb_ge in Hsize. unfold Part001B.fetch. first_call. Qed.

Lemma Part002_first_call :
  exists rest, calls (Part002.fetch req env) w = Part002.stt_request env f :: rest.
Proof. unfold Part002.fetch. first_call. Qed.

Lemma Index_first_call :
  exists rest, calls (Index.fetch req env) w = Index.stt_request env f :: rest.
Proof. unfold Index.fetch. first_call. Qed.

End Form.

(** C4, amended. A POST without an audio file in its form is turned down by
    part_000, part_001 (second file), part_002 and index.ts, and so is, by
    the one revision that has a size guard (part_001, second file), a POST
    whose audio file is below 100 bytes: the answer is the 500 naming the
    input failure, and no outbound request has been made. part_002 and
    index.ts have no threshold: an audio file of any size goes to the
    transcription service. A POST whose body is no form at all is answered
    with the 500 of the runtime's message, without any outbound request. *)
Theorem invalid_input_makes_no_call :
  (forall fd, formData req = Some fd -> audio_missing fd ->
     rejected (Part001B.fetch req env) w
     /\ rejected (Part002.fetch req env) w
     /\ rejected (Part000.fetch req env) w
     /\ rejected (Index.fetch req env) w)
  /\ (forall fd, formData req = Some fd -> audio_below fd 100 ->
        rejected (Part001B.fetch req env) w)
  /\ (forall fd f,
        formData req = Some fd -> FormData_get fd (lit "audio") = Some (EFile f) ->
        (exists rest, calls (Part002.fetch req env) w = Part002.stt_request env f :: rest)
        /\ (exists rest, calls (Index.fetch req env) w = Index.stt_request env f :: rest))
  /\ (formData req = None ->
        run (Part001B.fetch req env) w
        = (Val (Response_of (error_body (message_of TypeError)) 500 Part001B.getCorsHeaders),
           (w, []))
        /\ run (Part002.fetch req env) w
           = (Val (Response_of (error_body (message_of TypeError)) 500 Part002.getCorsHeaders),
              (w, []))
        /\ run (Part000.fetch req env) w
           = (Val (Response_of (error_body (message_of TypeError)) 500 Part000.corsHeaders),
              (w, []))
        /\ run (Index.fetch req env) w = (Val (Index_failure (message_of TypeError)), (w, []))).
Proof.
  split; [|split; [|split]].
  - intros fd Hform Hno. repeat split;
      first [ eapply Part001B_missing | eapply Part002_missing
            | eapply Part000_missing | eapply Index_missing ]; eassumption.
  - intros fd Hform Hshort. eapply Part001B_too_short; eassumption.
  - intros fd f Hform Haudio. split;
      [eapply Part002_first_call | eapply Index_first_call]; eassumption.
  - intros Hnone.
    unfold Part001B.fetch, Part002.fetch, Part000.fetch, Index.fetch.
    post_method Hmethod. unfold_monad. rewrite Hnone. on_strings.
    repeat split; reflexivity.
Qed.

End Validation.

(** A 99-byte recording is turned down by the guarded revision. *)
Lemma invalid_input_makes_no_call_witness :
  let fd := [(lit "audio", EFile (Mock.recording 99))] in
  let P := Mock.platform (Mock.mkScript None None None) in
  method (Mock.post fd) = lit "POST"
  /\ formData (Mock.post fd) = Some fd
  /\ audio_below fd 100
  /\ rejected (Part001B.fetch (Mock.post fd) Mock.env) 0%nat.
Proof.
  intros fd P.
  assert (Hb : audio_below fd 100).
  { exists (Mock.recording 99). split; [reflexivity | vm_compute; reflexivity]. }
  split; [reflexivity|]. split; [reflexivity|]. split; [exact Hb|].
  exact (proj1 (proj2 (@invalid_input_makes_no_call P Mock.env (Mock.post fd) 0%nat eq_refl))
           fd eq_refl Hb).
Defined.

(** C4 as stated fails on part_002: a recording of ten bytes, below any
    viable size and below the threshold of the guarded revision, is not
    turned down there; it goes through the three services and the turn
    answers 200. *)
Lemma short_audio_is_transcribed_in_part_002 :
  let P := Mock.platform Garbled.script in
  let fd := [(lit "audio", EFile (Mock.recording 10))] in
  let m := Part002.fetch (Mock.post fd) Mock.env in
  audio_below fd 100
  /\ calls m 0%nat
     = [Part002.stt_request Mock.env (Mock.recording 10);
        Part002.gemini_request Mock.env [] (JStr Outage.heard);
        tts_request Mock.env (JStr (lit "Nah man, still locked."))]
  /\ (exists r, answers m 0%nat r /\ successful r)
  /\ ~ rejected m 0%nat.
Proof.
  intros P fd m.
  assert (Hc : calls m 0%nat
     = [Part002.stt_request Mock.env (Mock.recording 10);
        Part002.gemini_request Mock.env [] (JStr Outage.heard);
        tts_request Mock.env (JStr (lit "Nah man, still locked."))])
    by (vm_compute; reflexivity).
  split; [exists (Mock.recording 10); split; [reflexivity | vm_compute; reflexivity]|].
  split; [exact Hc|]. split.
  - eexists. split; [vm_compute; reflexivity|].
    split; [reflexivity | eexists; reflexivity].
  - intros [_ Hnone]. rewrite Hc in Hnone. discriminate.
Qed.

(** ** Cross-origin policy of part_001, first file *)

Lemma header_value_normalize {P : Platform} (v stripped : jsstring) :
  header_value v = Val stripped -> stripped = header_normalize v.
Proof.
  unfold header_value.
  destruct (existsb forbidden_in_value (header_normalize v)
            || existsb beyond_latin1 v && latin1_headers); congruence.
Qed.

(** The headers of an answer, but for the content type. *)
Lemma Response_of_get (b : ResponseBody) (s : N) (h : Headers) (k : jsstring) :
  name_eqb k (lit "content-type") = false ->
  Headers_get (headers (Response_of b s h)) k = Headers_get h k.
Proof.
  intros Hk. unfold Response_of. cbn [headers].
  destruct (body_type b); [|reflexivity].
  destruct (Headers_get h (lit "Content-Type")); [reflexivity|].
  now apply Headers_get_app_other.
Qed.

Section Cors.
Context {P : Platform}.
Variables (env : Env) (req : Request).

Lemma cors_listed (o : jsstring) :
  origin req = Some o -> o <> [] -> In o (allow_list env) ->
  Part001A.getCorsHeaders req env =
    [(lit "Access-Control-Allow-Origin", o);
     (lit "Access-Control-Allow-Methods", lit "GET, POST, OPTIONS");
     (lit "Access-Control-Allow-Headers", lit "Content-Type, x-api-key");
     (lit "Access-Control-Max-Age", lit "86400")].
Proof.
  intros Ho Hne Hin. unfold Part001A.getCorsHeaders. rewrite Ho.
  destruct o as [|c o]; [congruence|].
  apply includes_In in Hin. unfold allow_list in Hin. cbv zeta. rewrite Hin. reflexivity.
Qed.

Lemma cors_unlisted :
  ~ listed req env ->
  Part001A.getCorsHeaders req env =
    [(lit "Access-Control-Allow-Origin", default_origin env);
     (lit "Access-Control-Allow-Methods", lit "POST, OPTIONS");
     (lit "Access-Control-Allow-Headers", lit "Content-Type");
     (lit "Access-Control-Max-Age", lit "86400")].
Proof.
  intros Hout. unfold Part001A.getCorsHeaders. cbv zeta.
  destruct (origin req) as [[|c o]|] eqn:Ho; try reflexivity.
  destruct (includes (split 44 (str_or (ALLOWED_ORIGINS env) (lit ""))) (c :: o)) eqn:Hin;
    [|reflexivity].
  apply includes_In in Hin. exfalso. apply Hout. exists (c :: o).
  split; [exact Ho|]. split; [discriminate | exact Hin].
Qed.

(** The policy of an answer is the one that [getCorsHeaders] wrote, its
    values as the runtime stores them. *)
Lemma Part001A_policy (v methods allowed : jsstring) (w : World) (r : Response) :
  Part001A.getCorsHeaders req env =
    [(lit "Access-Control-Allow-Origin", v);
     (lit "Access-Control-Allow-Methods", methods);
     (lit "Access-Control-Allow-Headers", allowed);
     (lit "Access-Control-Max-Age", lit "86400")] ->
  header_value methods = Val methods ->
  header_value allowed = Val allowed ->
  answers (Part001A.fetch req env) w r ->
  header_value v = Val (header_normalize v)
  /\ allow_origin r = Some (header_normalize v)
  /\ allow_methods r = Some methods
  /\ allow_headers r = Some allowed.
Proof.
  intros Hcors Hm Hh. unfold Part001A.fetch. rewrite Hcors.
  unfold allow_origin, allow_methods, allow_headers.
  destruct (header_value v) as [stripped|e] eqn:Hv.
  - pose proof (header_value_normalize _ Hv) as Hs. subst stripped.
    unfold_monad. cbn [Headers_fill]. rewrite Hv, Hm, Hh. on_strings.
    all_paths; intros H; inversion H; subst; clear H;
      (split; [reflexivity|]);
      rewrite !Response_of_get by reflexivity;
      rewrite ?Headers_get_put_other by reflexivity;
      repeat split; reflexivity.
  - unfold_monad. cbn [Headers_fill]. rewrite Hv.
    all_paths; discriminate.
Qed.

(** C6, amended. An answer to a request whose origin is on the allow-list
    allows that origin, with the extended method and header allowances. An
    answer to any other request, one without origin, with an empty one or
    with one that is not on the list, carries the default policy, whose
    allowed origin is the first configured entry (or [http://localhost:5173]
    when that entry is empty), whoever the caller is: it is the value of a
    listed origin whenever the list starts with one. The values are as the
    runtime stores them, without white space around them. *)
Theorem cors_policy (w : World) (r : Response) :
  answers (Part001A.fetch req env) w r ->
  (forall o, origin req = Some o -> o <> [] -> In o (allow_list env) ->
     allow_origin r = Some (header_normalize o)
     /\ allow_methods r = Some (lit "GET, POST, OPTIONS")
     /\ allow_headers r = Some (lit "Content-Type, x-api-key"))
  /\ (~ listed req env ->
      allow_origin r = Some (header_normalize (default_origin env))
      /\ allow_methods r = Some (lit "POST, OPTIONS")
      /\ allow_headers r = Some (lit "Content-Type")).
Proof.
  intros Hr. split.
  - intros o Horigin Hne Hin.
    exact (proj2 (Part001A_policy (cors_listed Horigin Hne Hin) eq_refl eq_refl Hr)).
  - intros Hout.
    exact (proj2 (Part001A_policy (cors_unlisted Hout) eq_refl eq_refl Hr)).
Qed.

End Cors.

(** The preflight of a listed origin is answered with that origin. *)
Lemma cors_policy_witness :
  let P := Mock.platform (Mock.mkScript None None None) in
  let req := mkRequest (lit "OPTIONS") (Some (lit "https://admin.example.com")) None in
  exists r,
    answers (Part001A.fetch req Mock.env) 0%nat r
    /\ In (lit "https://admin.example.com") (allow_list Mock.env)
    /\ header_normalize (lit "https://admin.example.com") = lit "https://admin.example.com"
    /\ allow_origin r = Some (header_normalize (lit "https://admin.example.com")).
Proof.
  intros P req. eexists.
  match goal with
  | |- ?A /\ _ => assert (Ha : A) by (vm_compute; reflexivity)
  end.
  assert (Hin : In (lit "https://admin.example.com") (allow_list Mock.env)).
  { right. left. reflexivity. }
  split; [exact Ha|]. split; [exact Hin|]. split; [reflexivity|].
  apply (proj1 (@cors_policy P Mock.env req 0%nat _ Ha) (lit "https://admin.example.com"));
    [reflexivity | discriminate | exact Hin].
Defined.

(** C6 as stated fails: an origin that is not on the list is answered with
    the value of a listed origin, the first one. *)
Lemma cors_unlisted_gets_listed_origin :
  let P := Mock.platform (Mock.mkScript None None None) in
  let req := mkRequest (lit "OPTIONS") (Some (lit "https://evil.example.com")) None in
  exists r,
    answers (Part001A.fetch req Mock.env) 0%nat r
    /\ ~ In (lit "https://evil.example.com") (allow_list Mock.env)
    /\ In (lit "https://app.example.com") (allow_list Mock.env)
    /\ allow_origin r = Some (lit "https://app.example.com").
Proof.
  intros P req. eexists. split; [vm_compute; reflexivity|]. split; [|split].
  - vm_compute. intros [H | [H | []]]; discriminate.
  - left. reflexivity.
  - reflexivity.
Qed.

(** Without a configured list, the default is [http://localhost:5173]: a
    caller from there, though on no list, reads its own origin in the
    answer. *)
Example cors_default_meets_the_caller :
  let P := Mock.platform (Mock.mkScript None None None) in
  let env := mkEnv (lit "xi-key") (lit "g-key") (lit "voice-1") None in
  let req := mkRequest (lit "OPTIONS") (Some (lit "http://localhost:5173")) None in
  ~ listed req env
  /\ exists r, answers (Part001A.fetch req env) 0%nat r
               /\ allow_origin r = origin req.
Proof.
  intros P env req. split.
  - intros [o [Ho [_ Hin]]]. inversion Ho. subst o.
    vm_compute in Hin. destruct Hin as [H | []]. discriminate.
  - eexists. split; vm_compute; reflexivity.
Qed.

(** ** The turn: transcript, reply and the requests made *)

(** The test [userText.trim().length > 1] on a silent and on a spoken
    transcript. *)
Lemma quiet (t : jsstring) : silent t -> (1 <? str_length (trim t))%N = false.
Proof. intros H. apply N.ltb_ge. exact H. Qed.

Lemma spoken (t : jsstring) : ~ silent t -> (1 <? str_length (trim t))%N = true.
Proof. intros H. apply N.ltb_lt. unfold silent in H. lia. Qed.

Ltac use_transcript Ht :=
  let Hok := fresh "Hok" in
  let sttJson := fresh "sttJson" in
  let heard := fresh "heard" in
  let Hparse := fresh "Hparse" in
  let Hget := fresh "Hget" in
  let Hor := fresh "Hor" in
  destruct Ht as [Hok [sttJson [heard [Hparse [Hget Hor]]]]];
  step Hok; unfold parse; step Hparse; step Hget; rewrite Hor;
  on_strings.

(** At a leaf of a handler: the answer is known, and it is a success only
    on the path that reached the end. *)
Ltac leaf :=
  let H := fresh "H" in
  let Hs := fresh "Hs" in
  let Hb := fresh "Hb" in
  let bytes := fresh "bytes" in
  intros H [Hs [bytes Hb]]; inversion H; subst; clear H;
  unfold Response_of in Hs, Hb; cbn [status body] in Hs, Hb;
  try discriminate.

Section Silence.
Context {P : Platform}.
Variables (env : Env) (req : Request) (fd : FormData) (f : File).
Variables (w w1 : World) (stt : HttpResponse) (t : jsstring).
Hypothesis Hmethod : method req = lit "POST".
Hypothesis Hform : formData req = Some fd.
Hypothesis Haudio : FormData_get fd (lit "audio") = Some (EFile f).
Hypothesis Hsilent : silent t.

Lemma Part001B_silence :
  (100 <= size f)%N ->
  network (Part001B.stt_request env f) w = (Some stt, w1) ->
  transcribed stt t ->
  calls (Part001B.fetch req env) w
    = [Part001B.stt_request env f; tts_request env (JStr silence_reply)]
  /\ forall r, answers (Part001B.fetch req env) w r -> successful r ->
       reply_text r = Some silence_reply.
Proof.
  intros Hsize Hstt Ht. apply N.ltb_ge in Hsize.
  unfold answers, Part001B.fetch. post_method Hmethod. unfold_monad.
  step Hform. step Haudio. step Hsize. step Hstt. use_transcript Ht.
  step (quiet Hsilent). on_strings.
  all_paths; (split; [reflexivity|]); intros r; leaf; reflexivity.
Qed.

Lemma Part002_silence :
  network (Part002.stt_request env f) w = (Some stt, w1) ->
  transcribed stt t ->
  calls (Part002.fetch req env) w
    = [Part002.stt_request env f; tts_request env (JStr silence_reply)]
  /\ forall r, answers (Part002.fetch req env) w r -> successful r ->
       reply_text r = Some silence_reply.
Proof.
  intros Hstt Ht.
  unfold answers, Part002.fetch. post_method Hmethod. unfold_monad.
  step Hform. step Haudio. step Hstt. use_transcript Ht.
  step (quiet Hsilent). on_strings.
  all_paths; (split; [reflexivity|]); intros r; leaf; reflexivity.
Qed.

(** C1, amended. In the two revisions with the short-circuit, a transcript
    that is empty, white space or a single code unit once trimmed never
    reaches the generation service: the requests made are the transcription
    and the synthesis of the fixed reply, and a successful answer carries
    that reply, "I couldn't hear you, Officer. Say again?". *)
Theorem silence_skips_generation :
  transcribed stt t ->
  ((100 <= size f)%N ->
   network (Part001B.stt_request env f) w = (Some stt, w1) ->
   existsb is_generation (calls (Part001B.fetch req env) w) = false
   /\ calls (Part001B.fetch req env) w
        = [Part001B.stt_request env f; tts_request env (JStr silence_reply)]
   /\ forall r, answers (Part001B.fetch req env) w r -> successful r ->
        reply_text r = Some silence_reply)
  /\ (network (Part002.stt_request env f) w = (Some stt, w1) ->
      existsb is_generation (calls (Part002.fetch req env) w) = false
      /\ calls (Part002.fetch req env) w
           = [Part002.stt_request env f; tts_request env (JStr silence_reply)]
      /\ forall r, answers (Part002.fetch req env) w r -> successful r ->
           reply_text r = Some silence_reply).
Proof.
  intros Ht. split.
  - intros Hsize Hstt. destruct (Part001B_silence Hsize Hstt Ht) as [Hc Hr].
    rewrite Hc. split; [reflexivity | split; [reflexivity|]]. exact Hr.
  - intros Hstt. destruct (Part002_silence Hstt Ht) as [Hc Hr].
    rewrite Hc. split; [reflexivity | split; [reflexivity|]]. exact Hr.
Qed.

End Silence.

Lemma transcribed_mock (sc : Mock.Script) (s : jsstring) :
  @JSON_parse (Mock.platform sc) (text (Mock.stt_ok s)) = Some (JObj [(lit "text", JStr s)]) ->
  @transcribed (Mock.platform sc) (Mock.stt_ok s) s.
Proof.
  intros Hp. split; [reflexivity|].
  exists (JObj [(lit "text", JStr s)]), (JStr s). split; [exact Hp|].
  split; [reflexivity|]. destruct s; reflexivity.
Qed.

(** White space only: the generation service is not called. *)
Lemma silence_skips_generation_witness :
  let P := Mock.platform Scenario.hush in
  transcribed (Mock.stt_ok (lit "  ")) (lit "  ")
  /\ silent (lit "  ")
  /\ existsb is_generation (calls (Part002.fetch (Mock.post Scenario.form) Mock.env) 0%nat)
     = false.
Proof.
  intros P.
  assert (Ht : transcribed (Mock.stt_ok (lit "  ")) (lit "  ")).
  { apply transcribed_mock. vm_compute. reflexivity. }
  assert (Hs : silent (lit "  ")) by (vm_compute; discriminate).
  split; [exact Ht|]. split; [exact Hs|].
  apply (proj2 (@silence_skips_generation P Mock.env (Mock.post Scenario.form) Scenario.form
                  Scenario.audio 0%nat 1%nat (Mock.stt_ok (lit "  ")) (lit "  ")
                  eq_refl eq_refl eq_refl Hs Ht)).
  reflexivity.
Defined.

(** C1 as stated fails on the sentence: the fixed reply is not
    "I couldn't hear you, say again?". *)
Lemma silence_reply_differs_from_stated :
  let P := Mock.platform Scenario.hush in
  exists r,
    answers (Part002.fetch (Mock.post Scenario.form) Mock.env) 0%nat r
    /\ successful r
    /\ existsb is_generation (calls (Part002.fetch (Mock.post Scenario.form) Mock.env) 0%nat)
       = false
    /\ reply_text r = Some (lit "I couldn't hear you, Officer. Say again?")
    /\ reply_text r <> Some (lit "I couldn't hear you, say again?").
Proof.
  intros P. eexists. split; [vm_compute; reflexivity|].
  split; [split; [reflexivity | eexists; reflexivity]|].
  split; [vm_compute; reflexivity|].
  split; [vm_compute; reflexivity|]. vm_compute. discriminate.
Qed.

(** ** A failing generation service *)

Section Degrade.
Context {P : Platform}.
Variables (env : Env) (req : Request) (fd : FormData) (f : File).
Variables (w w1 w2 : World) (stt gemini : HttpResponse).
Hypothesis Hmethod : method req = lit "POST".
Hypothesis Hform : formData req = Some fd.
Hypothesis Haudio : FormData_get fd (lit "audio") = Some (EFile f).
Hypothesis Hdown : ok gemini = false.

Section Apology.
Variables (w3 : World) (tts : HttpResponse) (t u : jsstring).
Hypothesis Hspoken : ~ silent t.
Hypothesis Hheader : header_value t = Val u.
Hypothesis Htts : network (tts_request env (JStr apology_reply)) w2 = (Some tts, w3).
Hypothesis Hsynth : ok tts = true.

Lemma Part001B_degrades :
  (100 <= size f)%N ->
  network (Part001B.stt_request env f) w = (Some stt, w1) ->
  transcribed stt t ->
  network (Part001B.gemini_request env t) w1 = (Some gemini, w2) ->
  run (Part001B.fetch req env) w
  = (Val (apology_answer Part001B.getCorsHeaders u tts),
     (w3, [Part001B.stt_request env f; Part001B.gemini_request env t;
           tts_request env (JStr apology_reply)])).
Proof.
  intros Hsize Hstt Ht Hgem. apply N.ltb_ge in Hsize.
  unfold Part001B.fetch. post_method Hmethod. unfold_monad.
  step Hform. step Haudio. step Hsize. step Hstt. use_transcript Ht.
  step (spoken Hspoken). step Hgem. step Hdown.
  on_strings. fold apology_reply. step Htts. step Hsynth. step Hheader.
  on_strings. reflexivity.
Qed.

Lemma Part002_degrades (entries : list jsval) :
  network (Part002.stt_request env f) w = (Some stt, w1) ->
  transcribed stt t ->
  spread (Part002.previousContext (FormData_get fd (lit "history"))) = Val entries ->
  network (Part002.gemini_request env entries (JStr t)) w1 = (Some gemini, w2) ->
  run (Part002.fetch req env) w
  = (Val (apology_answer Part002.getCorsHeaders u tts),
     (w3, [Part002.stt_request env f; Part002.gemini_request env entries (JStr t);
           tts_request env (JStr apology_reply)])).
Proof.
  intros Hstt Ht Hctx Hgem.
  unfold Part002.fetch. post_method Hmethod. unfold_monad.
  step Hform. step Haudio. step Hstt. use_transcript Ht.
  step (spoken Hspoken). step Hctx. step Hgem. step Hdown.
  on_strings. fold apology_reply. step Htts. step Hsynth. step Hheader.
  on_strings. reflexivity.
Qed.

Lemma apology_answer_ok (cors : Headers) :
  successful (apology_answer cors u tts)
  /\ body (apology_answer cors u tts) = StreamBody (stream tts)
  /\ reply_text (apology_answer cors u tts) = Some apology_reply
  /\ recognized_text (apology_answer cors u tts) = Some u.
Proof.
  split; [split; [reflexivity | eexists; reflexivity]|]. split; [reflexivity|].
  unfold reply_text, recognized_text, apology_answer.
  rewrite !Response_of_get by reflexivity.
  split; rewrite ?Headers_get_put_other by reflexivity; apply Headers_get_put_same.
Qed.

End Apology.

Lemma Part000_aborts (sttJson userText : jsval) (said : jsstring) :
  network (Part000.stt_request env (file_bytes f)) w = (Some stt, w1) ->
  ok stt = true ->
  JSON_parse (text stt) = Some sttJson ->
  get_field sttJson (lit "text") = Val userText ->
  ToString userText = Val said ->
  network (Part000.gemini_request env said) w1 = (Some gemini, w2) ->
  run (Part000.fetch req env) w
  = (Val (Response_of (error_body (lit "Gemini API Failed: " ++ text gemini)) 500
            Part000.corsHeaders),
     (w2, [Part000.stt_request env (file_bytes f); Part000.gemini_request env said])).
Proof.
  intros Hstt Hok Hparse Hget Hsaid Hgem.
  unfold Part000.fetch. post_method Hmethod. unfold_monad.
  step Hform. step Haudio. step Hstt. step Hok. unfold parse. step Hparse. step Hget.
  step Hsaid. step Hgem. step Hdown. on_strings. reflexivity.
Qed.

(** C2, amended. In the two revisions that degrade (part_001 second file,
    part_002), when the transcript holds more than one code unit once
    trimmed and the generation service answers without success, the reply
    becomes "My head hurts... (AI Error)", synthesis is requested on that
    very text, and, the synthesis service answering with success and the
    transcript being a header value for the runtime, the turn answers 200
    with the synthesized audio, the apology as reply text and the transcript
    as recognized text. In part_000 a generation service that answers
    without success aborts the turn: the answer is the 500 of "Gemini API
    Failed: " and the upstream body, and nothing is synthesized. *)
Theorem generation_failure_degrades :
  (forall t u entries w3 tts,
     transcribed stt t -> ~ silent t -> header_value t = Val u ->
     network (tts_request env (JStr apology_reply)) w2 = (Some tts, w3) ->
     ok tts = true ->
     ((100 <= size f)%N ->
      network (Part001B.stt_request env f) w = (Some stt, w1) ->
      network (Part001B.gemini_request env t) w1 = (Some gemini, w2) ->
      exists r,
        answers (Part001B.fetch req env) w r
        /\ successful r /\ body r = StreamBody (stream tts)
        /\ reply_text r = Some apology_reply
        /\ recognized_text r = Some u
        /\ calls (Part001B.fetch req env) w
           = [Part001B.stt_request env f; Part001B.gemini_request env t;
              tts_request env (JStr apology_reply)])
     /\ (network (Part002.stt_request env f) w = (Some stt, w1) ->
         spread (Part002.previousContext (FormData_get fd (lit "history"))) = Val entries ->
         network (Part002.gemini_request env entries (JStr t)) w1 = (Some gemini, w2) ->
         exists r,
           answers (Part002.fetch req env) w r
           /\ successful r /\ body r = StreamBody (stream tts)
           /\ reply_text r = Some apology_reply
           /\ recognized_text r = Some u
           /\ calls (Part002.fetch req env) w
              = [Part002.stt_request env f; Part002.gemini_request env entries (JStr t);
                 tts_request env (JStr apology_reply)]))
  /\ (forall sttJson userText said,
        network (Part000.stt_request env (file_bytes f)) w = (Some stt, w1) ->
        ok stt = true ->
        JSON_parse (text stt) = Some sttJson ->
        get_field sttJson (lit "text") = Val userText ->
        ToString userText = Val said ->
        network (Part000.gemini_request env said) w1 = (Some gemini, w2) ->
        answers (Part000.fetch req env) w
          (Response_of (error_body (lit "Gemini API Failed: " ++ text gemini)) 500
             Part000.corsHeaders)
        /\ calls (Part000.fetch req env) w
           = [Part000.stt_request env (file_bytes f); Part000.gemini_request env said]).
Proof.
  split.
  - intros t u entries w3 tts Ht Hspoken Hheader Htts Hsynth. split.
    + intros Hsize Hstt Hgem.
      pose proof (Part001B_degrades Hspoken Hheader Htts Hsynth Hsize Hstt Ht Hgem) as Hrun.
      destruct (apology_answer_ok tts u Part001B.getCorsHeaders) as [Hs [Hb [Hr Hu]]].
      exists (apology_answer Part001B.getCorsHeaders u tts).
      unfold answers, result, calls. rewrite Hrun.
      split; [reflexivity|]. split; [exact Hs|]. split; [exact Hb|].
      split; [exact Hr|]. split; [exact Hu | reflexivity].
    + intros Hstt Hctx Hgem.
      pose proof (Part002_degrades Hspoken Hheader Htts Hsynth Hstt Ht Hctx Hgem) as Hrun.
      destruct (apology_answer_ok tts u Part002.getCorsHeaders) as [Hs [Hb [Hr Hu]]].
      exists (apology_answer Part002.getCorsHeaders u tts).
      unfold answers, result, calls. rewrite Hrun.
      split; [reflexivity|]. split; [exact Hs|]. split; [exact Hb|].
      split; [exact Hr|]. split; [exact Hu | reflexivity].
  - intros sttJson userText said Hstt Hok Hparse Hget Hsaid Hgem.
    pose proof (Part000_aborts Hstt Hok Hparse Hget Hsaid Hgem) as Hrun.
    unfold answers, result, calls. rewrite Hrun. split; reflexivity.
Qed.

End Degrade.

(** With the generation service down, part_002 answers the apology. *)
Lemma generation_failure_degrades_witness :
  let P := Mock.platform Outage.script in
  transcribed (Mock.stt_ok Outage.heard) Outage.heard
  /\ ~ silent Outage.heard
  /\ header_value Outage.heard = Val Outage.heard
  /\ exists r,
       answers (Part002.fetch (Mock.post Scenario.form) Mock.env) 0%nat r
       /\ successful r /\ body r = StreamBody Scenario.voice
       /\ reply_text r = Some apology_reply
       /\ recognized_text r = Some Outage.heard
       /\ calls (Part002.fetch (Mock.post Scenario.form) Mock.env) 0%nat
          = [Part002.stt_request Mock.env Scenario.audio;
             Part002.gemini_request Mock.env [] (JStr Outage.heard);
             tts_request Mock.env (JStr apology_reply)].
Proof.
  intros P.
  assert (Ht : transcribed (Mock.stt_ok Outage.heard) Outage.heard).
  { apply transcribed_mock. vm_compute. reflexivity. }
  assert (Hs : ~ silent Outage.heard) by (vm_compute; intros H; apply H; reflexivity).
  assert (Hh : header_value Outage.heard = Val Outage.heard) by (vm_compute; reflexivity).
  split; [exact Ht|]. split; [exact Hs|]. split; [exact Hh|].
  apply (proj2 (proj1 (@generation_failure_degrades P Mock.env (Mock.post Scenario.form)
                  Scenario.form Scenario.audio 0%nat 1%nat 2%nat
                  (Mock.stt_ok Outage.heard)
                  (Mock.failed (lit "Service Unavailable") (lit "quota exceeded"))
                  eq_refl eq_refl eq_refl eq_refl)
                  Outage.heard Outage.heard [] 3%nat (Mock.tts_ok Scenario.voice)
                  Ht Hs Hh eq_refl eq_refl));
    reflexivity.
Defined.

(** C2 as stated fails on part_000: there a generation failure aborts the
    turn with a 500 that quotes the upstream body, and nothing is
    synthesized. *)
Lemma generation_failure_aborts_in_part_000 :
  let P := Mock.platform Outage.script in
  let m := Part000.fetch (Mock.post Scenario.form) Mock.env in
  ~ silent Outage.heard
  /\ answers m 0%nat
       (Response_of (error_body (lit "Gemini API Failed: quota exceeded")) 500
          Part000.corsHeaders)
  /\ existsb is_generation (calls m 0%nat) = true
  /\ existsb is_synthesis (calls m 0%nat) = false.
Proof.
  intros P m. split; [vm_compute; intros H; apply H; reflexivity|].
  repeat split; vm_compute; reflexivity.
Qed.

(** ** The conversation history in the generation request *)

Lemma map_all_turns (turns : list (jsstring * jsstring)) :
  Index.map_all (map prior_turn turns) = Val (map model_turn turns).
Proof.
  induction turns as [|[r c] turns IH]; [reflexivity|].
  cbn [map Index.map_all]. rewrite IH. reflexivity.
Qed.

Section History.
Context {P : Platform}.
Variables (env : Env) (req : Request) (fd : FormData) (f : File).
Variables (w w1 : World) (stt : HttpResponse).
Variables (h : jsstring) (turns : list (jsstring * jsstring)).
Hypothesis Hmethod : method req = lit "POST".
Hypothesis Hform : formData req = Some fd.
Hypothesis Haudio : FormData_get fd (lit "audio") = Some (EFile f).
Hypothesis Hhistory : FormData_get fd (lit "history") = Some (EString h).
Hypothesis Hturns : JSON_parse h = Some (JArr (map prior_turn turns)).

Lemma Index_history (sttJson userText : jsval) (said : jsstring) :
  h <> [] ->
  network (Index.stt_request env f) w = (Some stt, w1) ->
  ok stt = true ->
  JSON_parse (text stt) = Some sttJson ->
  get_field sttJson (lit "text") = Val userText ->
  ToString userText = Val said ->
  filter is_generation (calls (Index.fetch req env) w)
  = [Index.gemini_request env (map model_turn turns) userText].
Proof.
  intros Hne Hstt Hok Hparse Hget Hsaid.
  unfold Index.fetch. post_method Hmethod. unfold_monad.
  step Hform. step Haudio. step Hstt. step Hok. unfold parse. step Hparse. step Hget.
  step Hsaid. rewrite Hhistory. unfold Index.history.
  destruct h as [|c s] eqn:Eh; [congruence|].
  unfold parse. rewrite Hturns. cbv beta iota delta [Index.history_map].
  rewrite map_all_turns. unfold_monad.
  all_paths; reflexivity.
Qed.

Lemma Part002_history (t : jsstring) :
  ~ silent t ->
  network (Part002.stt_request env f) w = (Some stt, w1) ->
  transcribed stt t ->
  filter is_generation (calls (Part002.fetch req env) w)
  = [Part002.gemini_request env (map prior_turn turns) (JStr t)].
Proof.
  intros Hspoken Hstt Ht.
  unfold Part002.fetch. post_method Hmethod. unfold_monad.
  step Hform. step Haudio. step Hstt. use_transcript Ht.
  step (spoken Hspoken). rewrite Hhistory.
  unfold Part002.previousContext, parse. rewrite Hturns.
  cbv beta iota delta [spread]. unfold_monad.
  all_paths; reflexivity.
Qed.

(** C3, amended. With a history field holding N [{ role, content }]
    entries, index.ts sends the generation service the persona turn, then
    exactly those N entries in their order, "assistant" become "model" and
    every other role "user", then the current transcript as the newest user
    turn. part_002 sends the N parsed entries as they are, without any role
    mapping, in their order and before the current transcript. *)
Theorem history_in_generation_request :
  (forall sttJson userText said,
     h <> [] ->
     network (Index.stt_request env f) w = (Some stt, w1) ->
     ok stt = true ->
     JSON_parse (text stt) = Some sttJson ->
     get_field sttJson (lit "text") = Val userText ->
     ToString userText = Val said ->
     exists g,
       filter is_generation (calls (Index.fetch req env) w) = [g]
       /\ contents_of g
          = Some (persona_turn :: map model_turn turns ++ [user_turn userText]))
  /\ (forall t,
        ~ silent t ->
        network (Part002.stt_request env f) w = (Some stt, w1) ->
        transcribed stt t ->
        exists g,
          filter is_generation (calls (Part002.fetch req env) w) = [g]
          /\ contents_of g = Some (map prior_turn turns ++ [user_turn (JStr t)])).
Proof.
  split.
  - intros sttJson userText said Hne Hstt Hok Hparse Hget Hsaid.
    eexists. split.
    + exact (Index_history Hne Hstt Hok Hparse Hget Hsaid).
    + reflexivity.
  - intros t Hspoken Hstt Ht. eexists. split.
    + exact (Part002_history Hspoken Hstt Ht).
    + reflexivity.
Qed.

End History.

(** Two prior turns reach the generation service of index.ts role-mapped
    and in order. *)
Lemma history_in_generation_request_witness :
  let P := Mock.platform Dialogue.script in
  JSON_parse Dialogue.history_json = Some (JArr (map prior_turn Dialogue.turns))
  /\ exists g,
       filter is_generation (calls (Index.fetch (Mock.post Dialogue.form) Mock.env) 0%nat)
       = [g]
       /\ contents_of g
          = Some (persona_turn :: map model_turn Dialogue.turns
                  ++ [user_turn (JStr Outage.heard)]).
Proof.
  intros P.
  assert (Hh : JSON_parse Dialogue.history_json = Some (JArr (map prior_turn Dialogue.turns)))
    by (vm_compute; reflexivity).
  split; [exact Hh|].
  apply (proj1 (@history_in_generation_request P Mock.env (Mock.post Dialogue.form)
                  Dialogue.form Scenario.audio 0%nat 1%nat (Mock.stt_ok Outage.heard)
                  Dialogue.history_json Dialogue.turns eq_refl eq_refl eq_refl eq_refl Hh)
               (JObj [(lit "text", JStr Outage.heard)]) (JStr Outage.heard) Outage.heard);
    first [reflexivity | discriminate].
Defined.

(** C3 as stated fails on part_002: the assistant's turn reaches the
    generation service with its role unmapped. *)
Lemma history_unmapped_in_part_002 :
  let P := Mock.platform Dialogue.script in
  exists g rest,
    filter is_generation (calls (Part002.fetch (Mock.post Dialogue.form) Mock.env) 0%nat)
    = [g]
    /\ contents_of g
       = Some (JObj [(lit "role", JStr (lit "assistant"));
                     (lit "content", JStr (lit "Nah man, still locked."))] :: rest)
    /\ lit "assistant" <> lit "model".
Proof.
  intros P. eexists. eexists. split; [vm_compute; reflexivity|].
  split; [vm_compute; reflexivity|]. vm_compute. discriminate.
Qed.

(** ** The structured generation output of index.ts *)

Section Structured.
Context {P : Platform}.
Variables (env : Env) (req : Request) (fd : FormData) (f : File).
Variables (w w1 w2 : World) (stt gemini : HttpResponse).
Variables (sttJson userText geminiData rawJSON : jsval) (said : jsstring).
Variable mapped : list jsval.
Hypothesis Hmethod : method req = lit "POST".
Hypothesis Hform : formData req = Some fd.
Hypothesis Haudio : FormData_get fd (lit "audio") = Some (EFile f).
Hypothesis Hstt : network (Index.stt_request env f) w = (Some stt, w1).
Hypothesis Hok : ok stt = true.
Hypothesis Hparse : JSON_parse (text stt) = Some sttJson.
Hypothesis Hget : get_field sttJson (lit "text") = Val userText.
Hypothesis Hsaid : ToString userText = Val said.
Hypothesis Hmap : Index.history_map (Index.history (FormData_get fd (lit "history"))) = Val mapped.
Hypothesis Hgem : network (Index.gemini_request env mapped userText) w1 = (Some gemini, w2).
Hypothesis Hdata : JSON_parse (text gemini) = Some geminiData.
Hypothesis Hraw : first_candidate_text geminiData = Val rawJSON.

Ltac up_to_raw :=
  unfold Index.fetch; post_method Hmethod; unfold_monad;
  step Hform; step Haudio; step Hstt; step Hok; unfold parse; step Hparse; step Hget;
  step Hsaid; step Hmap; step Hgem; step Hdata; step Hraw.

Lemma Index_empty_output :
  truthy rawJSON = false ->
  run (Index.fetch req env) w
  = (Val (Index_failure (lit "Gemini returned empty response")), (w2, asked env f userText mapped)).
Proof. intros Hempty. up_to_raw. step Hempty. on_strings. reflexivity. Qed.

Lemma Index_unparsable_output (raw : jsstring) :
  truthy rawJSON = true ->
  ToString rawJSON = Val raw ->
  JSON_parse raw = None ->
  run (Index.fetch req env) w
  = (Val (Index_failure (message_of (SyntaxError raw))), (w2, asked env f userText mapped)).
Proof.
  intros Hfull Htext Hbad. up_to_raw. step Hfull. step Htext. step Hbad. on_strings.
  reflexivity.
Qed.

Lemma Index_output_without_text (raw : jsstring) (brainData : jsval) :
  truthy rawJSON = true ->
  ToString rawJSON = Val raw ->
  JSON_parse raw = Some brainData ->
  get_field brainData (lit "text") = Val JUndefined ->
  calls (Index.fetch req env) w = asked env f userText mapped ++ [tts_request env JUndefined]
  /\ forall w3 tts compliance score u s,
       network (tts_request env JUndefined) w2 = (Some tts, w3) ->
       ok tts = true ->
       header_value said = Val u ->
       get_field brainData (lit "compliance") = Val compliance ->
       call_toString compliance = Val score ->
       header_value score = Val s ->
       exists r,
         answers (Index.fetch req env) w r /\ successful r
         /\ reply_text r = Some (lit "undefined")
         /\ recognized_text r = Some u
         /\ compliance_score r = Some s.
Proof.
  intros Hfull Htext Hgood Hnotext. split.
  - up_to_raw. step Hfull. step Htext. step Hgood. step Hnotext.
    all_paths; reflexivity.
  - intros w3 tts compliance score u s Htts Hsynth Hu Hc Hscore Hs.
    unfold answers. up_to_raw. step Hfull. step Htext. step Hgood. step Hnotext.
    step Htts. step Hsynth. on_strings.
    change (ToString JUndefined) with (Val (lit "undefined")). unfold_monad. on_strings.
    step Hu. step Hc. step Hscore. step Hs.
    eexists. split; [reflexivity|].
    split; [split; [reflexivity | eexists; reflexivity]|].
    repeat split; reflexivity.
Qed.

(** C5, amended. In index.ts the raw model output is parsed as JSON, and a
    parse failure fails the turn: the answer is the 500 carrying the
    parser's message, and no synthesis is requested. The [text] entry is
    not checked: when the parsed value has none, synthesis is requested with
    an undefined text and, if it succeeds, the score converts to a string
    and the runtime takes the transcript and the score as header values, the
    turn succeeds with the reply header "undefined". *)
Theorem structured_output_parsing (raw : jsstring) :
  truthy rawJSON = true ->
  ToString rawJSON = Val raw ->
  (JSON_parse raw = None ->
   answers (Index.fetch req env) w (Index_failure (message_of (SyntaxError raw)))
   /\ calls (Index.fetch req env) w = asked env f userText mapped)
  /\ (forall brainData,
        JSON_parse raw = Some brainData ->
        get_field brainData (lit "text") = Val JUndefined ->
        calls (Index.fetch req env) w = asked env f userText mapped ++ [tts_request env JUndefined]
        /\ forall w3 tts compliance score u s,
             network (tts_request env JUndefined) w2 = (Some tts, w3) ->
             ok tts = true ->
             header_value said = Val u ->
             get_field brainData (lit "compliance") = Val compliance ->
             call_toString compliance = Val score ->
             header_value score = Val s ->
             exists r,
               answers (Index.fetch req env) w r /\ successful r
               /\ reply_text r = Some (lit "undefined")
               /\ recognized_text r = Some u
               /\ compliance_score r = Some s).
Proof.
  intros Hfull Htext. split.
  - intros Hbad. pose proof (Index_unparsable_output Hfull Htext Hbad) as Hrun.
    unfold answers, result, calls. rewrite Hrun. split; reflexivity.
  - intros brainData Hgood Hnotext.
    exact (Index_output_without_text Hfull Htext Hgood Hnotext).
Qed.

End Structured.

(** Plain words from the generation service fail the turn of index.ts. *)
Lemma structured_output_parsing_witness :
  let P := Mock.platform Chat.plain in
  let m := Index.fetch (Mock.post Scenario.form) Mock.env in
  JSON_parse (lit "Nah man, still locked.") = None
  /\ answers m 0%nat (Index_failure (lit "Unexpected token"))
  /\ calls m 0%nat = asked Mock.env Scenario.audio (JStr Outage.heard) [].
Proof.
  intros P m.
  assert (Hbad : JSON_parse (lit "Nah man, still locked.") = None)
    by (vm_compute; reflexivity).
  split; [exact Hbad|].
  refine (proj1 (@structured_output_parsing P Mock.env (Mock.post Scenario.form)
                   Scenario.form Scenario.audio 0%nat 1%nat 2%nat
                   (Mock.stt_ok Outage.heard)
                   (Mock.gemini_ok (Mock.quote (lit "Nah man, still locked.")))
                   (JObj [(lit "text", JStr Outage.heard)]) (JStr Outage.heard)
                   (Chat.parsed (lit "Nah man, still locked."))
                   (JStr (lit "Nah man, still locked.")) Outage.heard []
                   eq_refl eq_refl eq_refl eq_refl eq_refl _ eq_refl eq_refl eq_refl
                   eq_refl _ eq_refl (lit "Nah man, still locked.") eq_refl eq_refl) Hbad);
    vm_compute; reflexivity.
Defined.

(** C5 as stated fails on the second clause: a JSON output without [text]
    does not fail the turn. *)
Lemma output_without_text_succeeds :
  let P := Mock.platform Chat.textless in
  JSON_parse Chat.score_only = Some (JObj [(lit "compliance", JNum 50%Q)])
  /\ lookup (lit "text") [(lit "compliance", JNum 50%Q)] = JUndefined
  /\ exists r,
       answers (Index.fetch (Mock.post Scenario.form) Mock.env) 0%nat r
       /\ successful r
       /\ body r = StreamBody Scenario.voice
       /\ reply_text r = Some (lit "undefined")
       /\ compliance_score r = Some (lit "50").
Proof.
  intros P. split; [vm_compute; reflexivity|]. split; [reflexivity|].
  eexists. split; [vm_compute; reflexivity|].
  split; [split; [reflexivity | eexists; reflexivity]|].
  repeat split; vm_compute; reflexivity.
Qed.

(** ** A history field that is not JSON *)

Lemma get_without_history (fd : FormData) :
  FormData_get (without_history fd) (lit "history") = None.
Proof.
  induction fd as [|[k v] fd IH]; [reflexivity|].
  cbn [without_history filter fst]. fold (without_history fd).
  destruct (str_eqb (lit "history") k) eqn:E; cbn [negb]; [exact IH|].
  cbn [FormData_get]. rewrite E. exact IH.
Qed.

Lemma get_other_without_history (fd : FormData) (name : jsstring) :
  str_eqb name (lit "history") = false ->
  FormData_get (without_history fd) name = FormData_get fd name.
Proof.
  intros Hname. induction fd as [|[k v] fd IH]; [reflexivity|].
  cbn [without_history filter fst]. fold (without_history fd).
  destruct (str_eqb (lit "history") k) eqn:E; cbn [negb FormData_get].
  - apply str_eqb_eq in E. subst k. rewrite Hname. exact IH.
  - rewrite IH. reflexivity.
Qed.

Section MalformedHistory.
Context {P : Platform}.
Variables (env : Env) (req : Request) (fd : FormData) (h : jsstring).
Hypothesis Hform : formData req = Some fd.
Hypothesis Hhistory : FormData_get fd (lit "history") = Some (EString h).
Hypothesis Hbad : JSON_parse h = None.

Lemma Part002_context_discarded :
  Part002.previousContext (Some (EString h)) = Part002.previousContext None.
Proof. unfold Part002.previousContext, parse. now rewrite Hbad. Qed.

Lemma Index_history_discarded :
  Index.history (Some (EString h)) = Index.history None.
Proof.
  unfold Index.history, parse. destruct h as [|c s]; [reflexivity|].
  now rewrite Hbad.
Qed.

(** C10. A history field that does not parse as JSON is dropped without a
    failure: part_002 and index.ts run, answer and call their collaborators
    exactly as on the same request without the history field. *)
Theorem malformed_history_is_discarded (w : World) :
  run (Part002.fetch req env) w = run (Part002.fetch (drop_history req) env) w
  /\ run (Index.fetch req env) w = run (Index.fetch (drop_history req) env) w.
Proof.
  split.
  - unfold Part002.fetch, drop_history, request_formData. cbn [method formData].
    rewrite Hform. cbn [option_map]. unfold_monad.
    rewrite get_without_history, (get_other_without_history fd) by reflexivity.
    rewrite Hhistory, Part002_context_discarded. reflexivity.
  - unfold Index.fetch, drop_history, request_formData. cbn [method formData].
    rewrite Hform. cbn [option_map]. unfold_monad.
    rewrite get_without_history, (get_other_without_history fd) by reflexivity.
    rewrite Hhistory, Index_history_discarded. reflexivity.
Qed.

End MalformedHistory.

(** A history of plain words: the turn of part_002 succeeds all the same. *)
Lemma malformed_history_is_discarded_witness :
  let P := Mock.platform Garbled.script in
  JSON_parse (lit "not json") = None
  /\ run (Part002.fetch (Mock.post Garbled.form) Mock.env) 0%nat
     = run (Part002.fetch (Mock.post Scenario.form) Mock.env) 0%nat
  /\ exists r, answers (Part002.fetch (Mock.post Garbled.form) Mock.env) 0%nat r
               /\ successful r.
Proof.
  intros P.
  assert (Hbad : JSON_parse (lit "not json") = None) by (vm_compute; reflexivity).
  split; [exact Hbad|]. split.
  - exact (proj1 (@malformed_history_is_discarded P Mock.env (Mock.post Garbled.form)
                    Garbled.form (lit "not json") eq_refl eq_refl Hbad 0%nat)).
  - eexists. split; [vm_compute; reflexivity|].
    split; [reflexivity | eexists; reflexivity].
Defined.

(** ** Determinism *)

Section Determinism.
Context {P : Platform}.

Hypothesis Hnet : stateless.

Lemma blind_ret {A} (a : A) : world_blind (ret a).
Proof. intros w1 w2 cs. split; reflexivity. Qed.

Lemma blind_throw {A} (e : exn) : world_blind (@throw P A e).
Proof. intros w1 w2 cs. split; reflexivity. Qed.

Lemma blind_lift {A} (o : outcome A) : world_blind (lift o).
Proof. intros w1 w2 cs. split; reflexivity. Qed.

Lemma blind_fetch (r : OutRequest) : world_blind (fetch_ r).
Proof.
  intros w1 w2 cs. unfold fetch_. cbn [fst snd].
  pose proof (Hnet r w1 w2) as H.
  destruct (network r w1) as [o1 w1'], (network r w2) as [o2 w2'].
  cbn [fst] in H. subst o2. destruct o1; split; reflexivity.
Qed.

Lemma blind_bind {A B} (m : M A) (k : A -> M B) :
  world_blind m -> (forall a, world_blind (k a)) -> world_blind (bind m k).
Proof.
  intros Hm Hk w1 w2 cs. unfold bind.
  destruct (Hm w1 w2 cs) as [Ho Hc].
  destruct (m (w1, cs)) as [o1 [w1' cs1]], (m (w2, cs)) as [o2 [w2' cs2]].
  cbn [fst snd] in Ho, Hc. subst o2 cs2.
  destruct o1 as [a|e]; [apply Hk | split; reflexivity].
Qed.

Lemma blind_try {A} (body : M A) (handler : exn -> M A) :
  world_blind body -> (forall e, world_blind (handler e)) ->
  world_blind (try_catch body handler).
Proof.
  intros Hb Hh w1 w2 cs. unfold try_catch.
  destruct (Hb w1 w2 cs) as [Ho Hc].
  destruct (body (w1, cs)) as [o1 [w1' cs1]], (body (w2, cs)) as [o2 [w2' cs2]].
  cbn [fst snd] in Ho, Hc. subst o2 cs2.
  destruct o1 as [a|e]; [split; reflexivity | apply Hh].
Qed.

(** Follows the shape of a handler down to its leaves. *)
Ltac blind :=
  cbv zeta;
  repeat first
    [ apply blind_ret
    | apply blind_throw
    | apply blind_lift
    | apply blind_fetch
    | apply blind_bind; [| intros ?]
    | apply blind_try; [| intros ?]
    | match goal with
      | |- world_blind (match ?x with _ => _ end) => destruct x
      end ].

Lemma Part000_blind req env : world_blind (Part000.fetch req env).
Proof. unfold Part000.fetch, json, request_formData. blind. Qed.

Lemma Part001A_blind req env : world_blind (Part001A.fetch req env).
Proof. unfold Part001A.fetch, json, request_formData. blind. Qed.

Lemma Part001B_blind req env : world_blind (Part001B.fetch req env).
Proof. unfold Part001B.fetch, json, request_formData. blind. Qed.

Lemma Part002_blind req env : world_blind (Part002.fetch req env).
Proof. unfold Part002.fetch, json, request_formData. blind. Qed.

Lemma Index_blind req env : world_blind (Index.fetch req env).
Proof. unfold Index.fetch, json, request_formData. blind. Qed.

Lemma blind_result {A} (m : M A) (w1 w2 : World) :
  world_blind m -> result m w1 = result m w2 /\ calls m w1 = calls m w2.
Proof.
  intros Hm. destruct (Hm w1 w2 []) as [Ho Hc]. unfold result, calls, run.
  destruct (m (w1, [])) as [o1 [w1' cs1]], (m (w2, [])) as [o2 [w2' cs2]].
  cbn [fst snd] in *. subst. split; reflexivity.
Qed.

End Determinism.

(** ** Every request is answered *)

Section Totality.
Context {P : Platform}.
Variables (req : Request) (env : Env) (w : World).

Ltac answered :=
  unfold answers; unfold_monad; all_paths; eexists; reflexivity.

Lemma Part000_answers : exists r, answers (Part000.fetch req env) w r.
Proof. unfold Part000.fetch. answered. Qed.

Lemma Part001B_answers : exists r, answers (Part001B.fetch req env) w r.
Proof. unfold Part001B.fetch. answered. Qed.

Lemma Part002_answers : exists r, answers (Part002.fetch req env) w r.
Proof. unfold Part002.fetch. answered. Qed.

Lemma Index_answers : exists r, answers (Index.fetch req env) w r.
Proof. unfold Index.fetch. answered. Qed.

(** part_001 (first file) answers when the runtime takes the headers of
    its policy. *)
Lemma Part001A_answers :
  policy_accepted req env -> exists r, answers (Part001A.fetch req env) w r.
Proof.
  intros [h Hh]. cbn [Headers_new] in Hh.
  unfold Part001A.fetch, answers. unfold_monad. rewrite Hh.
  all_paths; eexists; reflexivity.
Qed.

End Totality.

Section TwoRuns.
Context {P : Platform}.

Lemma blind_same_metadata (m : M Response) (w1 w2 : World) :
  world_blind m -> (exists r, answers m w1 r) -> same_metadata m w1 w2.
Proof.
  intros Hm [r Hr]. exists r, r. unfold answers in *.
  destruct (blind_result w1 w2 Hm) as [Ho _]. rewrite <- Ho.
  repeat split; assumption || reflexivity.
Qed.

(** C9. With collaborators that answer by the request alone, two runs of a
    handler on the same request, whatever the state of the world at each,
    answer with identical recognized-text and reply-text headers (and the
    same payload); so for part_002 and for the other revisions. The two
    runs of part_001 (first file) end alike as well, and they end with
    such answers when the runtime takes the headers of its policy. *)
Theorem same_request_same_metadata (req : Request) (env : Env) (w1 w2 : World) :
  stateless ->
  same_metadata (Part002.fetch req env) w1 w2
  /\ same_metadata (Part000.fetch req env) w1 w2
  /\ (result (Part001A.fetch req env) w1 = result (Part001A.fetch req env) w2
      /\ (policy_accepted req env -> same_metadata (Part001A.fetch req env) w1 w2))
  /\ same_metadata (Part001B.fetch req env) w1 w2
  /\ same_metadata (Index.fetch req env) w1 w2.
Proof.
  intros Hnet.
  split; [apply blind_same_metadata; [apply Part002_blind, Hnet | apply Part002_answers]|].
  split; [apply blind_same_metadata; [apply Part000_blind, Hnet | apply Part000_answers]|].
  split; [split; [exact (proj1 (blind_result w1 w2 (Part001A_blind Hnet req env)))|];
          intros Hp; apply blind_same_metadata;
          [apply Part001A_blind, Hnet | apply Part001A_answers, Hp]|].
  split; [apply blind_same_metadata; [apply Part001B_blind, Hnet | apply Part001B_answers]|].
  apply blind_same_metadata; [apply Index_blind, Hnet | apply Index_answers].
Qed.

End TwoRuns.

Lemma mock_stateless (sc : Mock.Script) : @stateless (Mock.platform sc).
Proof. intros r w w'. reflexivity. Qed.

(** The second run starts where the first one left the world. *)
Lemma same_request_same_metadata_witness :
  let P := Mock.platform Garbled.script in
  let m := Part002.fetch (Mock.post Scenario.form) Mock.env in
  stateless
  /\ fst (snd (run m 0%nat)) = 3%nat
  /\ same_metadata m 0%nat 3%nat.
Proof.
  intros P m. split; [apply mock_stateless|]. split; [vm_compute; reflexivity|].
  exact (proj1 (@same_request_same_metadata P (Mock.post Scenario.form) Mock.env
                  0%nat 3%nat (@mock_stateless Garbled.script))).
Defined.

(** ** What a successful answer carries *)

Ltac in_list := first [left; reflexivity | right; in_list].

Ltac ok_from_negb :=
  match goal with
  | H : negb (ok ?h) = false |- ok ?h = true =>
      destruct (ok h); [reflexivity | discriminate H]
  end.

Ltac truthy_from_negb :=
  match goal with
  | H : negb (truthy ?v) = false |- truthy ?v = true =>
      destruct (truthy v); [reflexivity | discriminate H]
  end.

(** The header of a value whose conversions are among the hypotheses. *)
Ltac its_header :=
  repeat match goal with
         | H : truthy ?v = _ |- context [truthy ?v] => rewrite H
         end;
  eexists; split; [first [eassumption | reflexivity] | first [eassumption | reflexivity]].

(** The exchange with the transcription service is the first of a trace. *)
Ltac heard_first :=
  do 3 eexists; split; [left; reflexivity|]; split; [reflexivity|];
  split; [ok_from_negb|]; split; eassumption.

(** The exchange with the generation service is the second. *)
Ltac generated_second :=
  do 3 eexists; split; [right; left; reflexivity|]; split; [reflexivity|];
  split; [ok_from_negb|]; split; eassumption.

(** No exchange of the trace is one with a generation service that gave a
    truthy text. *)
Ltac nothing_generated :=
  let found := fresh "found" in
  let c := fresh "c" in
  let a := fresh "a" in
  let j := fresh "j" in
  let Hin := fresh "Hin" in
  let Hg := fresh "Hg" in
  let Hok := fresh "Hok" in
  let Hp := fresh "Hp" in
  let Hf := fresh "Hf" in
  intros found [c [a [j [Hin [Hg [Hok [Hp Hf]]]]]]];
  repeat (destruct Hin as [Hin | Hin]; [inversion Hin; subst; clear Hin|]);
  try contradiction;
  try (vm_compute in Hg; discriminate Hg);
  try match goal with
      | H : negb (ok ?h) = true, H' : ok ?h = true |- _ =>
          rewrite H' in H; discriminate H
      end;
  congruence.

(** ** The headers of the policy of part_001 (first file) *)

Lemma Headers_fill_names {P : Platform} (r : list (jsstring * jsstring)) :
  forall h0 h, Headers_fill h0 r = Val h -> map fst h = map fst h0 ++ map fst r.
Proof.
  induction r as [|[k v] r IH]; intros h0 h; cbn [Headers_fill map fst].
  - intros H. inversion H. now rewrite app_nil_r.
  - destruct (header_value v) as [stripped|e]; [|discriminate].
    intros H. rewrite (IH _ _ H), map_app, <- app_assoc. reflexivity.
Qed.

Lemma Headers_get_absent (h : Headers) (k : jsstring) :
  existsb (name_eqb k) (map fst h) = false -> Headers_get h k = None.
Proof.
  intros Hno. unfold Headers_get.
  replace (filter (fun kv => name_eqb k (fst kv)) h) with (@nil (jsstring * jsstring));
    [reflexivity|].
  induction h as [|[k0 v0] h IH]; [reflexivity|].
  cbn [map fst existsb] in Hno. apply orb_false_iff in Hno. destruct Hno as [H0 Hh].
  cbn [filter fst]. rewrite H0. exact (IH Hh).
Qed.

Lemma Part001A_policy_names {P : Platform} (req : Request) (env : Env) (h : Headers) :
  Headers_fill [] (Part001A.getCorsHeaders req env) = Val h ->
  map fst h = [lit "Access-Control-Allow-Origin"; lit "Access-Control-Allow-Methods";
               lit "Access-Control-Allow-Headers"; lit "Access-Control-Max-Age"].
Proof.
  intros Hh. rewrite (Headers_fill_names _ _ Hh).
  unfold Part001A.getCorsHeaders. cbv zeta.
  destruct (origin req) as [[|c o]|]; try reflexivity.
  destruct (includes _ (c :: o)); reflexivity.
Qed.

(** A header of another name is not among those of the policy. *)
Lemma Part001A_policy_absent {P : Platform} (req : Request) (env : Env) (h : Headers)
    (k : jsstring) :
  Headers_fill [] (Part001A.getCorsHeaders req env) = Val h ->
  existsb (name_eqb k)
    [lit "Access-Control-Allow-Origin"; lit "Access-Control-Allow-Methods";
     lit "Access-Control-Allow-Headers"; lit "Access-Control-Max-Age"] = false ->
  Headers_get h k = None.
Proof.
  intros Hh Hk. apply Headers_get_absent. now rewrite (Part001A_policy_names _ _ Hh).
Qed.

(** Reads a header off an answer. *)
Ltac header_lookup :=
  first
    [ reflexivity
    | unfold recognized_text, reply_text, compliance_score, content_type, exposed_headers,
        allow_origin;
      rewrite ?Response_of_get by reflexivity;
      unfold Response_of; cbn [headers body_type];
      rewrite ?Headers_get_put_other by reflexivity;
      first [ apply Headers_get_put_same
            | eapply Part001A_policy_absent; [eassumption | reflexivity] ] ].

Ltac reply_leaf :=
  eexists; split; [header_lookup|];
  first
    [ left; eexists; split; [generated_second|]; split; [assumption | its_header]
    | right; split; [in_list | nothing_generated] ].

Ltac output_leaf :=
  leaf;
  (split; [do 2 eexists; split; [heard_first|]; split; [its_header | header_lookup]|]);
  (split; [reply_leaf | header_lookup]).

Ltac structured_leaf :=
  leaf;
  (split; [do 2 eexists; split; [heard_first|]; split; [its_header | header_lookup]|]);
  do 6 eexists;
  (split;
   [ do 5 eexists; split; [right; left; reflexivity|]; split; [reflexivity|];
     split; [eassumption|]; split; [eassumption|]; split; [truthy_from_negb|];
     split; eassumption |]);
  (split; [eassumption|]); (split; [its_header|]); (split; [header_lookup|]);
  (split; [eassumption|]); (split; [eassumption|]); (split; [eassumption | header_lookup]).

Section Outputs.
Context {P : Platform}.
Variables (req : Request) (env : Env) (w : World) (r : Response).

Lemma Part000_output :
  answers (Part000.fetch req env) w r -> successful r ->
  recognized_from false (Part000.fetch req env) w r
  /\ reply_from [lit "..."] (Part000.fetch req env) w r
  /\ compliance_score r = None.
Proof.
  unfold recognized_from, reply_from, generated, transcript, header_of.
  unfold Part000.fetch, or_else. unfold_monad. unfold parse. all_paths; output_leaf.
Qed.

Lemma Part001A_output :
  answers (Part001A.fetch req env) w r -> successful r ->
  recognized_from false (Part001A.fetch req env) w r
  /\ reply_from [lit "..."] (Part001A.fetch req env) w r
  /\ compliance_score r = None.
Proof.
  unfold recognized_from, reply_from, generated, transcript, header_of.
  unfold Part001A.fetch, or_else. unfold_monad. unfold parse. all_paths; output_leaf.
Qed.

Lemma Part001B_output :
  answers (Part001B.fetch req env) w r -> successful r ->
  recognized_from true (Part001B.fetch req env) w r
  /\ reply_from [silence_reply; apology_reply] (Part001B.fetch req env) w r
  /\ compliance_score r = None.
Proof.
  unfold recognized_from, reply_from, generated, transcript, header_of.
  unfold Part001B.fetch, or_else. unfold_monad. unfold parse. all_paths; output_leaf.
Qed.

Lemma Part002_output :
  answers (Part002.fetch req env) w r -> successful r ->
  recognized_from true (Part002.fetch req env) w r
  /\ reply_from [silence_reply; apology_reply] (Part002.fetch req env) w r
  /\ compliance_score r = None.
Proof.
  unfold recognized_from, reply_from, generated, transcript, header_of.
  unfold Part002.fetch, or_else. unfold_monad. unfold parse. all_paths; output_leaf.
Qed.

Lemma Index_output :
  answers (Index.fetch req env) w r -> successful r ->
  recognized_from false (Index.fetch req env) w r
  /\ structured_reply (Index.fetch req env) w r.
Proof.
  unfold recognized_from, structured_reply, structured, transcript, header_of.
  unfold Index.fetch. unfold_monad. unfold parse. all_paths; structured_leaf.
Qed.

(** C8, amended. A successful answer of any revision carries the recognized
    text, the header of what the transcription service heard, and the reply
    text; the compliance score is carried by the answers of index.ts and by
    no answer of the four raw-text revisions. In the raw-text revisions the
    reply is the text that the generation service produced when that text is
    truthy, and a fixed fallback sentence otherwise. index.ts has no
    fallback: its reply header is the header of whatever [text] the parsed
    output holds, and its score header that of the string of its
    [compliance]. *)
Theorem successful_output_metadata :
  successful r ->
  (answers (Part002.fetch req env) w r ->
   recognized_from true (Part002.fetch req env) w r
   /\ reply_from [silence_reply; apology_reply] (Part002.fetch req env) w r
   /\ compliance_score r = None)
  /\ (answers (Part001B.fetch req env) w r ->
      recognized_from true (Part001B.fetch req env) w r
      /\ reply_from [silence_reply; apology_reply] (Part001B.fetch req env) w r
      /\ compliance_score r = None)
  /\ (answers (Part000.fetch req env) w r ->
      recognized_from false (Part000.fetch req env) w r
      /\ reply_from [lit "..."] (Part000.fetch req env) w r
      /\ compliance_score r = None)
  /\ (answers (Part001A.fetch req env) w r ->
      recognized_from false (Part001A.fetch req env) w r
      /\ reply_from [lit "..."] (Part001A.fetch req env) w r
      /\ compliance_score r = None)
  /\ (answers (Index.fetch req env) w r ->
      recognized_from false (Index.fetch req env) w r
      /\ structured_reply (Index.fetch req env) w r).
Proof.
  intros Hs.
  split; [intros Ha; exact (Part002_output Ha Hs)|].
  split; [intros Ha; exact (Part001B_output Ha Hs)|].
  split; [intros Ha; exact (Part000_output Ha Hs)|].
  split; [intros Ha; exact (Part001A_output Ha Hs)|].
  intros Ha; exact (Index_output Ha Hs).
Qed.

End Outputs.

(** A full turn of index.ts: the three headers are there. *)
Lemma successful_output_metadata_witness :
  let P := Mock.platform (Talk.structured Talk.scored) in
  let m := Index.fetch (Mock.post Scenario.form) Mock.env in
  exists r,
    answers m 0%nat r
    /\ successful r
    /\ recognized_text r = Some Outage.heard
    /\ reply_text r = Some (lit "Nah man, still locked.")
    /\ compliance_score r = Some (lit "40")
    /\ recognized_from false m 0%nat r
    /\ structured_reply m 0%nat r.
Proof.
  intros P m. eexists.
  match goal with
  | |- ?A /\ ?S /\ _ =>
      assert (Ha : A) by (vm_compute; reflexivity);
      assert (Hs : S) by (split; [reflexivity | eexists; reflexivity])
  end.
  split; [exact Ha|]. split; [exact Hs|].
  split; [vm_compute; reflexivity|]. split; [vm_compute; reflexivity|].
  split; [vm_compute; reflexivity|].
  exact (proj2 (proj2 (proj2 (proj2
           (@successful_output_metadata P (Mock.post Scenario.form) Mock.env 0%nat _ Hs))))
           Ha).
Defined.

(** C8 as stated fails on the parenthesis: index.ts has no fallback, and an
    output whose text is empty succeeds with an empty reply text. *)
Lemma structured_reply_has_no_fallback :
  let P := Mock.platform (Talk.structured Talk.wordless) in
  exists r,
    answers (Index.fetch (Mock.post Scenario.form) Mock.env) 0%nat r
    /\ successful r
    /\ reply_text r = Some (lit "")
    /\ existsb is_synthesis (calls (Index.fetch (Mock.post Scenario.form) Mock.env) 0%nat)
       = true.
Proof.
  intros P. eexists. split; [vm_compute; reflexivity|].
  split; [split; [reflexivity | eexists; reflexivity]|].
  split; vm_compute; reflexivity.
Qed.

(** ** Failure answers *)

(** The pure steps of the handlers throw runtime errors only. *)
Lemma get_field_throws v name e : get_field v name = Exn e -> e = Runtime TypeError.
Proof. destruct v; simpl; congruence. Qed.

Lemma call_trim_throws v e : call_trim v = Exn e -> e = Runtime TypeError.
Proof. destruct v; simpl; congruence. Qed.

Lemma spread_throws v e : spread v = Exn e -> e = Runtime TypeError.
Proof. destruct v; simpl; congruence. Qed.

Lemma first_candidate_text_throws v e :
  first_candidate_text v = Exn e -> e = Runtime TypeError.
Proof.
  unfold first_candidate_text.
  destruct (get_field v (lit "candidates")) eqn:E; [discriminate|].
  intros H. inversion H. subst. exact (get_field_throws _ _ E).
Qed.

Lemma join_strings_throws (l : list (outcome jsstring)) (first : bool) (e : exn) :
  join_strings l first = Exn e -> In (Exn e) l.
Proof.
  revert first. induction l as [|o l IH]; intros first; simpl; [discriminate|].
  destruct o as [sx|e0].
  - destruct (join_strings l false) eqn:E; [discriminate|].
    intros H. inversion H. subst. right. exact (IH false E).
  - intros H. inversion H. subst. left. reflexivity.
Qed.

Lemma ToString_throws : forall v e, ToString v = Exn e -> e = Runtime TypeError.
Proof.
  intros v. induction v as [| |b|n|s|items IH|fs] using jsval_elements_ind;
    intros e; simpl; try discriminate.
  - destruct b; discriminate.
  - intros H. apply join_strings_throws in H. apply in_map_iff in H.
    destruct H as [x [Hx Hin]]. rewrite Forall_forall in IH.
    destruct x; try discriminate; exact (IH _ Hin e Hx).
  - destruct (has_own (lit "toString") fs); congruence.
Qed.

Lemma call_toString_throws v e : call_toString v = Exn e -> e = Runtime TypeError.
Proof. destruct v; try (simpl; congruence); apply ToString_throws. Qed.

Lemma header_value_throws {P : Platform} v e :
  header_value v = Exn e -> e = Runtime TypeError.
Proof.
  unfold header_value.
  destruct (existsb forbidden_in_value (header_normalize v)
            || existsb beyond_latin1 v && latin1_headers); congruence.
Qed.

(** Names the runtime error behind every failed pure step in sight. *)
Ltac runtime_errors :=
  repeat match goal with
         | H : get_field _ _ = Exn ?e |- _ => apply get_field_throws in H; subst e
         | H : call_trim _ = Exn ?e |- _ => apply call_trim_throws in H; subst e
         | H : spread _ = Exn ?e |- _ => apply spread_throws in H; subst e
         | H : first_candidate_text _ = Exn ?e |- _ =>
             apply first_candidate_text_throws in H; subst e
         | H : ToString _ = Exn ?e |- _ => apply ToString_throws in H; subst e
         | H : call_toString _ = Exn ?e |- _ => apply call_toString_throws in H; subst e
         | H : header_value _ = Exn ?e |- _ => apply header_value_throws in H; subst e
         end.

Lemma str_eqb_neq (a b : jsstring) : str_eqb a b = false <-> a <> b.
Proof.
  split.
  - intros H E. apply str_eqb_eq in E. congruence.
  - intros H. destruct (str_eqb a b) eqn:E; [|reflexivity].
    apply str_eqb_eq in E. contradiction.
Qed.

(** Turns the tests on the method into equations on it. *)
Ltac method_facts :=
  repeat match goal with
         | H : negb _ = true |- _ => apply negb_true_iff in H
         | H : negb _ = false |- _ => apply negb_false_iff in H
         | H : str_eqb (method _) _ = true |- _ => apply str_eqb_eq in H
         | H : str_eqb (method _) _ = false |- _ => apply str_eqb_neq in H
         end.

(** The audio of an answer is that of the last exchange of the trace. *)
Ltac synthesized :=
  split; [reflexivity|];
  first
    [ do 2 eexists; split; [right; right; left; reflexivity|]; split; [reflexivity|];
      split; [ok_from_negb | reflexivity]
    | do 2 eexists; split; [right; left; reflexivity|]; split; [reflexivity|];
      split; [ok_from_negb | reflexivity] ].

Ltac failed_upstream :=
  eexists; split;
  [ do 2 eexists; split;
    [ eassumption
    | match goal with
      | H : negb (ok ?h) = true |- ok ?h = false =>
          destruct (ok h); [discriminate H | reflexivity]
      end ]
  | reflexivity ].

(** At a leaf of a handler: which of the four kinds the answer is of. *)
Ltac kind_of_answer :=
  let H := fresh "H" in
  intros H; inversion H; subst; clear H;
  first
    [ left; split; [method_facts; assumption | split; reflexivity]
    | right; left; method_facts;
      split; [assumption|]; split; [assumption | split; reflexivity]
    | right; right; left; split; [method_facts; assumption | synthesized]
    | right; right; right; split; [method_facts; assumption|];
      runtime_errors; cbv beta iota delta [message];
      eexists; split; [split; reflexivity|];
      first [ left; in_list
            | right; left; failed_upstream
            | right; eexists; reflexivity
            | right; right; eexists; reflexivity ] ].

Section Failures.
Context {P : Platform}.
Variables (req : Request) (env : Env) (w : World) (r : Response).

Lemma Part002_kinds :
  answers (Part002.fetch req env) w r ->
  answer_kinds req (Part002.fetch req env) w r
    (fun msg =>
       In msg [lit "No audio file provided"; lit "ElevenLabs STT Failed";
               lit "ElevenLabs TTS Failed"]
       \/ exists e, msg = message_of e).
Proof.
  unfold answer_kinds, preflight_answer, method_not_allowed, audio_answer, fails_with.
  unfold Part002.fetch. unfold_monad. unfold parse.
  all_paths; kind_of_answer.
Qed.

Lemma Part001B_kinds :
  answers (Part001B.fetch req env) w r ->
  answer_kinds req (Part001B.fetch req env) w r
    (fun msg =>
       In msg [lit "No audio file provided"; lit "Audio file too short.";
               lit "ElevenLabs TTS Failed"]
       \/ (exists upstream, transcription_failed env w upstream
             /\ msg = lit "ElevenLabs STT Failed: " ++ text upstream)
       \/ exists e, msg = message_of e).
Proof.
  unfold answer_kinds, preflight_answer, method_not_allowed, audio_answer, fails_with.
  unfold transcription_failed, Part001B.fetch. unfold_monad. unfold parse.
  all_paths; kind_of_answer.
Qed.

(** C7, amended. Every answer is of one of four kinds: the answer to the
    preflight (200, no body), the plain-text 405 to a method that is neither
    POST nor OPTIONS, and to a POST either the audio, a 200 whose payload is
    the stream of the synthesis service, or a failure: a 500 whose body is
    the JSON object [{ "error": message }], the message being [err.message]
    alone. In part_002 the message is one of three fixed sentences or the
    runtime's own for a runtime error; in part_001 (second file) it can also
    be "ElevenLabs STT Failed: " followed by the body of the transcription
    service's error answer. *)
Theorem failure_answers :
  (answers (Part002.fetch req env) w r ->
   answer_kinds req (Part002.fetch req env) w r
     (fun msg =>
        In msg [lit "No audio file provided"; lit "ElevenLabs STT Failed";
                lit "ElevenLabs TTS Failed"]
        \/ exists e, msg = message_of e))
  /\ (answers (Part001B.fetch req env) w r ->
      answer_kinds req (Part001B.fetch req env) w r
        (fun msg =>
           In msg [lit "No audio file provided"; lit "Audio file too short.";
                   lit "ElevenLabs TTS Failed"]
           \/ (exists upstream, transcription_failed env w upstream
                 /\ msg = lit "ElevenLabs STT Failed: " ++ text upstream)
           \/ exists e, msg = message_of e)).
Proof. split; [exact Part002_kinds | exact Part001B_kinds]. Qed.

End Failures.

(** With the transcription service refusing, part_002 answers its terse 500. *)
Lemma failure_answers_witness :
  let P := Mock.platform Leak.script in
  let m := Part002.fetch (Mock.post Scenario.form) Mock.env in
  let r := Response_of (error_body (lit "ElevenLabs STT Failed")) 500 Part002.getCorsHeaders in
  answers m 0%nat r
  /\ answer_kinds (Mock.post Scenario.form) m 0%nat r
       (fun msg =>
          In msg [lit "No audio file provided"; lit "ElevenLabs STT Failed";
                  lit "ElevenLabs TTS Failed"]
          \/ exists e, msg = message_of e).
Proof.
  intros P m r.
  assert (Ha : answers m 0%nat r) by (vm_compute; reflexivity).
  split; [exact Ha|].
  exact (proj1 (@failure_answers P (Mock.post Scenario.form) Mock.env 0%nat r) Ha).
Defined.

(** C7 as stated fails twice: the failure message of part_001 (second file)
    carries the body of the upstream error, and the 405 is not JSON. *)
Lemma failure_message_quotes_upstream_body :
  let P := Mock.platform Leak.script in
  answers (Part001B.fetch (Mock.post Scenario.form) Mock.env) 0%nat
    (Response_of (error_body (lit "ElevenLabs STT Failed: " ++ Leak.refusal)) 500
       Part001B.getCorsHeaders)
  /\ Mock.answer Leak.script (Part001B.stt_request Mock.env Scenario.audio)
     = Some (Mock.failed (lit "Too Many Requests") Leak.refusal)
  /\ answers (Part001B.fetch (mkRequest (lit "GET") None None) Mock.env) 0%nat
       (Response_of (TextBody (lit "Method not allowed")) 405 Part001B.getCorsHeaders).
Proof.
  intros P. split; [vm_compute; reflexivity|]. split; vm_compute; reflexivity.
Qed.

(** * Further properties of the handlers *)

(** ** Every request is answered *)

Ltac kind_leaf :=
  method_facts; eexists; split; [reflexivity|];
  unfold Response_of; cbn [status];
  split; [in_list|];
  split;
  [ split;
    [ intros H; first [discriminate H | split; [assumption || congruence | assumption || congruence]]
    | intros [H1 H2]; first [reflexivity | congruence] ]
  | intros H; first [split; reflexivity | congruence] ].

Lemma Headers_fill_throws {P : Platform} (r : list (jsstring * jsstring)) :
  forall h e, Headers_fill h r = Exn e -> e = Runtime TypeError.
Proof.
  induction r as [|[k v] r IH]; intros h e; cbn [Headers_fill]; [discriminate|].
  destruct (header_value v) as [stripped|e0] eqn:Hv; [apply IH|].
  intros H. inversion H. subst. exact (header_value_throws _ Hv).
Qed.

Section Kinds.
Context {P : Platform}.
Variables (req : Request) (env : Env) (w : World).

Lemma Part000_kind : answered_in_kind req (Part000.fetch req env) w.
Proof.
  unfold answered_in_kind, Part000.fetch. unfold_monad. all_paths; kind_leaf.
Qed.

Lemma Part001A_kind :
  policy_accepted req env -> answered_in_kind req (Part001A.fetch req env) w.
Proof.
  intros [h Hh]. cbn [Headers_new] in Hh.
  unfold answered_in_kind, Part001A.fetch. unfold_monad. rewrite Hh.
  all_paths; kind_leaf.
Qed.

Lemma Part001B_kind : answered_in_kind req (Part001B.fetch req env) w.
Proof.
  unfold answered_in_kind, Part001B.fetch. unfold_monad. all_paths; kind_leaf.
Qed.

Lemma Part002_kind : answered_in_kind req (Part002.fetch req env) w.
Proof.
  unfold answered_in_kind, Part002.fetch. unfold_monad. all_paths; kind_leaf.
Qed.

Lemma Index_kind : answered_in_kind req (Index.fetch req env) w.
Proof.
  unfold answered_in_kind, Index.fetch. unfold_monad. all_paths; kind_leaf.
Qed.

(** X1. No exception escapes the handlers with a static policy: every
    request, whatever the collaborators do, is answered with a 200, a 405 or
    a 500. The 405 goes to the methods other than OPTIONS and POST, and a
    request that is not a POST makes no outbound request and leaves the
    world as it was. So it is with part_001 (first file) when the runtime
    takes the headers of its policy. *)
Theorem every_request_is_answered :
  answered_in_kind req (Part000.fetch req env) w
  /\ (policy_accepted req env -> answered_in_kind req (Part001A.fetch req env) w)
  /\ answered_in_kind req (Part001B.fetch req env) w
  /\ answered_in_kind req (Part002.fetch req env) w
  /\ answered_in_kind req (Index.fetch req env) w.
Proof.
  split; [apply Part000_kind|]. split; [apply Part001A_kind|].
  split; [apply Part001B_kind|]. split; [apply Part002_kind | apply Index_kind].
Qed.

(** X20. When the runtime refuses the headers of its policy, part_001 (first
    file) answers no request at all: the preflight, the 405 and the failure
    answer are built on those headers as well, the last one in the catch
    block, so the TypeError of the constructor escapes the handler. *)
Theorem refused_policy_is_not_caught :
  ~ policy_accepted req env ->
  result (Part001A.fetch req env) w = Exn (Runtime TypeError).
Proof.
  intros Hno. unfold policy_accepted in Hno. cbn [Headers_new] in Hno.
  destruct (Headers_fill [] (Part001A.getCorsHeaders req env)) as [h|e] eqn:Hh;
    [exfalso; apply Hno; exists h; reflexivity|].
  apply Headers_fill_throws in Hh as He. subst e.
  unfold Part001A.fetch. unfold_monad. rewrite Hh.
  all_paths; reflexivity.
Qed.

End Kinds.

(** ** The outbound requests of a turn *)

Ltac each_call tac :=
  repeat first [apply Forall_nil | apply Forall_cons]; tac.

Ltac keyed_call :=
  split; [reflexivity | vm_compute; first [reflexivity | split; reflexivity]].

Ltac voiced_call :=
  let H := fresh "H" in
  intros H;
  first [ vm_compute in H; discriminate H
        | eexists; split; [reflexivity | first [assumption | reflexivity]] ].

Ltac calls_leaf :=
  split; [unfold pipeline, pipelines; vm_compute; in_list|];
  split; [each_call keyed_call | each_call voiced_call].

Section Calls.
Context {P : Platform}.
Variables (req : Request) (env : Env) (w : World).

Lemma Part000_calls :
  pipeline false (calls (Part000.fetch req env) w)
  /\ Forall (keyed env) (calls (Part000.fetch req env) w)
  /\ Forall (voices_text env) (calls (Part000.fetch req env) w).
Proof.
  unfold Part000.fetch, or_else. unfold_monad. all_paths; calls_leaf.
Qed.

Lemma Part001A_calls :
  pipeline false (calls (Part001A.fetch req env) w)
  /\ Forall (keyed env) (calls (Part001A.fetch req env) w)
  /\ Forall (voices_text env) (calls (Part001A.fetch req env) w).
Proof.
  unfold Part001A.fetch, or_else. unfold_monad. all_paths; calls_leaf.
Qed.

Lemma Part001B_calls :
  pipeline true (calls (Part001B.fetch req env) w)
  /\ Forall (keyed env) (calls (Part001B.fetch req env) w)
  /\ Forall (voices_text env) (calls (Part001B.fetch req env) w).
Proof.
  unfold Part001B.fetch, or_else. unfold_monad. all_paths; calls_leaf.
Qed.

Lemma Part002_calls :
  pipeline true (calls (Part002.fetch req env) w)
  /\ Forall (keyed env) (calls (Part002.fetch req env) w)
  /\ Forall (voices_text env) (calls (Part002.fetch req env) w).
Proof.
  unfold Part002.fetch, or_else. unfold_monad. all_paths; calls_leaf.
Qed.

Lemma Index_calls :
  pipeline false (calls (Index.fetch req env) w)
  /\ Forall (keyed env) (calls (Index.fetch req env) w).
Proof.
  unfold Index.fetch. unfold_monad. all_paths;
    (split; [unfold pipeline, pipelines; vm_compute; in_list | each_call keyed_call]).
Qed.

(** X2. The outbound requests of a turn follow the pipeline: transcription
    first, then generation, then synthesis, each at most once and none
    without the one before; only the two short-circuit revisions can go from
    transcription straight to synthesis. *)
Theorem calls_follow_the_pipeline :
  pipeline false (calls (Part000.fetch req env) w)
  /\ pipeline false (calls (Part001A.fetch req env) w)
  /\ pipeline true (calls (Part001B.fetch req env) w)
  /\ pipeline true (calls (Part002.fetch req env) w)
  /\ pipeline false (calls (Index.fetch req env) w).
Proof.
  split; [apply Part000_calls|]. split; [apply Part001A_calls|].
  split; [apply Part001B_calls|]. split; [apply Part002_calls | apply Index_calls].
Qed.

(** X3. Every outbound request is a POST. The ElevenLabs key travels to the
    ElevenLabs API only: a request to the generation service never carries
    it, and every other request goes to [https://api.elevenlabs.io/v1/]
    with the key of the environment. *)
Theorem keys_go_to_their_service :
  Forall (keyed env) (calls (Part000.fetch req env) w)
  /\ Forall (keyed env) (calls (Part001A.fetch req env) w)
  /\ Forall (keyed env) (calls (Part001B.fetch req env) w)
  /\ Forall (keyed env) (calls (Part002.fetch req env) w)
  /\ Forall (keyed env) (calls (Index.fetch req env) w).
Proof.
  split; [apply Part000_calls|]. split; [apply Part001A_calls|].
  split; [apply Part001B_calls|]. split; [apply Part002_calls | apply Index_calls].
Qed.

(** X4. The four raw-text revisions never ask for the synthesis of an empty
    or missing text: the text of every synthesis request is truthy, a
    fallback sentence standing in when the generation service gave none. *)
Theorem raw_text_synthesis_is_never_empty :
  Forall (voices_text env) (calls (Part000.fetch req env) w)
  /\ Forall (voices_text env) (calls (Part001A.fetch req env) w)
  /\ Forall (voices_text env) (calls (Part001B.fetch req env) w)
  /\ Forall (voices_text env) (calls (Part002.fetch req env) w).
Proof.
  split; [apply Part000_calls|]. split; [apply Part001A_calls|].
  split; [apply Part001B_calls | apply Part002_calls].
Qed.

End Calls.

(** ** What a successful answer is made of *)

Ltac voiced_leaf :=
  match goal with
  | |- context [[?c1; ?c2; (tts_request _ ?t, _)] = _] => exists [c1; c2], t
  | |- context [[?c1; (tts_request _ ?t, _)] = _] => exists [c1], t
  end;
  do 2 eexists; split; [reflexivity|];
  split; [ok_from_negb|]; split; [reflexivity|];
  split; [its_header | header_lookup].

Ltac success_leaf :=
  leaf; (split; [voiced_leaf|]); (split; header_lookup).

Section Success.
Context {P : Platform}.
Variables (req : Request) (env : Env) (w : World) (r : Response).

Lemma Part000_success :
  answers (Part000.fetch req env) w r -> successful r ->
  voiced env (Part000.fetch req env) w r
  /\ content_type r = Some (lit "audio/mpeg")
  /\ exposed_headers r = Some (lit "X-Ai-Text, X-User-Text").
Proof.
  unfold voiced, header_of, Part000.fetch. unfold_monad. all_paths; success_leaf.
Qed.

Lemma Part001A_success :
  answers (Part001A.fetch req env) w r -> successful r ->
  voiced env (Part001A.fetch req env) w r
  /\ content_type r = Some (lit "audio/mpeg")
  /\ exposed_headers r = Some (lit "X-Ai-Text, X-User-Text").
Proof.
  unfold voiced, header_of, Part001A.fetch. unfold_monad. all_paths; success_leaf.
Qed.

Lemma Part001B_success :
  answers (Part001B.fetch req env) w r -> successful r ->
  voiced env (Part001B.fetch req env) w r
  /\ content_type r = Some (lit "audio/mpeg")
  /\ exposed_headers r = Some (lit "X-Ai-Text, X-User-Text").
Proof.
  unfold voiced, header_of, Part001B.fetch. unfold_monad. all_paths; success_leaf.
Qed.

Lemma Part002_success :
  answers (Part002.fetch req env) w r -> successful r ->
  voiced env (Part002.fetch req env) w r
  /\ content_type r = Some (lit "audio/mpeg")
  /\ exposed_headers r = Some (lit "X-Ai-Text, X-User-Text").
Proof.
  unfold voiced, header_of, Part002.fetch. unfold_monad. all_paths; success_leaf.
Qed.

Lemma Index_success :
  answers (Index.fetch req env) w r -> successful r ->
  voiced env (Index.fetch req env) w r
  /\ content_type r = Some (lit "audio/mpeg")
  /\ exposed_headers r = Some (lit "X-Ai-Text, X-User-Text, X-Compliance-Score").
Proof.
  unfold voiced, header_of, Index.fetch. unfold_monad. all_paths; success_leaf.
Qed.

(** X5. A successful answer is the synthesis service's own: its payload is
    the stream that service returned, with success, to the last outbound
    request, its reply header is the header that the runtime makes of the
    text which that request asked to voice (the text without the white space
    around it), it is typed [audio/mpeg], and it exposes the text headers it
    carries (and the score header in index.ts). *)
Theorem successful_answer_is_voiced :
  successful r ->
  (answers (Part000.fetch req env) w r ->
   voiced env (Part000.fetch req env) w r
   /\ content_type r = Some (lit "audio/mpeg")
   /\ exposed_headers r = Some (lit "X-Ai-Text, X-User-Text"))
  /\ (answers (Part001A.fetch req env) w r ->
      voiced env (Part001A.fetch req env) w r
      /\ content_type r = Some (lit "audio/mpeg")
      /\ exposed_headers r = Some (lit "X-Ai-Text, X-User-Text"))
  /\ (answers (Part001B.fetch req env) w r ->
      voiced env (Part001B.fetch req env) w r
      /\ content_type r = Some (lit "audio/mpeg")
      /\ exposed_headers r = Some (lit "X-Ai-Text, X-User-Text"))
  /\ (answers (Part002.fetch req env) w r ->
      voiced env (Part002.fetch req env) w r
      /\ content_type r = Some (lit "audio/mpeg")
      /\ exposed_headers r = Some (lit "X-Ai-Text, X-User-Text"))
  /\ (answers (Index.fetch req env) w r ->
      voiced env (Index.fetch req env) w r
      /\ content_type r = Some (lit "audio/mpeg")
      /\ exposed_headers r = Some (lit "X-Ai-Text, X-User-Text, X-Compliance-Score")).
Proof.
  intros Hs.
  split; [intros Ha; exact (Part000_success Ha Hs)|].
  split; [intros Ha; exact (Part001A_success Ha Hs)|].
  split; [intros Ha; exact (Part001B_success Ha Hs)|].
  split; [intros Ha; exact (Part002_success Ha Hs)|].
  intros Ha; exact (Index_success Ha Hs).
Qed.

Ltac any_leaf :=
  let H := fresh "H" in
  intros H; inversion H; subst; clear H;
  split; [header_lookup|];
  split;
    (let Hf := fresh "Hf" in
     intros Hf; unfold Response_of in Hf; cbn [status] in Hf;
     first [discriminate Hf | header_lookup]).

Lemma Part000_dressing :
  answers (Part000.fetch req env) w r ->
  allow_origin r = Some (lit "*")
  /\ (status r = 500%N -> content_type r = Some (lit "text/plain;charset=UTF-8"))
  /\ (status r = 405%N -> content_type r = Some (lit "text/plain;charset=UTF-8")).
Proof. unfold Part000.fetch. unfold_monad. all_paths; any_leaf. Qed.

Lemma Part001B_dressing :
  answers (Part001B.fetch req env) w r ->
  allow_origin r = Some (lit "*")
  /\ (status r = 500%N -> content_type r = Some (lit "text/plain;charset=UTF-8"))
  /\ (status r = 405%N -> content_type r = Some (lit "text/plain;charset=UTF-8")).
Proof. unfold Part001B.fetch. unfold_monad. all_paths; any_leaf. Qed.

Lemma Part002_dressing :
  answers (Part002.fetch req env) w r ->
  allow_origin r = Some (lit "*")
  /\ (status r = 500%N -> content_type r = Some (lit "text/plain;charset=UTF-8"))
  /\ (status r = 405%N -> content_type r = Some (lit "text/plain;charset=UTF-8")).
Proof. unfold Part002.fetch. unfold_monad. all_paths; any_leaf. Qed.

Lemma Index_dressing :
  answers (Index.fetch req env) w r ->
  allow_origin r = Some (lit "*")
  /\ (status r = 500%N -> content_type r = Some (lit "application/json"))
  /\ (status r = 405%N -> content_type r = Some (lit "text/plain;charset=UTF-8")).
Proof. unfold Index.fetch. unfold_monad. all_paths; any_leaf. Qed.

(** X6. Every answer of the four revisions with the static policy, be it
    the preflight, the 405, a failure or the audio, allows every origin.
    The handlers of part_000, part_001 (second file) and part_002 give
    their failures no content type: the JSON body of their 500 goes out as
    [text/plain;charset=UTF-8], the type that the runtime gives a response
    made of a string, as the text of every 405 does. A failure of index.ts
    is typed [application/json]. *)
Theorem answers_allow_every_origin :
  (answers (Part000.fetch req env) w r ->
   allow_origin r = Some (lit "*")
   /\ (status r = 500%N -> content_type r = Some (lit "text/plain;charset=UTF-8"))
   /\ (status r = 405%N -> content_type r = Some (lit "text/plain;charset=UTF-8")))
  /\ (answers (Part001B.fetch req env) w r ->
      allow_origin r = Some (lit "*")
      /\ (status r = 500%N -> content_type r = Some (lit "text/plain;charset=UTF-8"))
      /\ (status r = 405%N -> content_type r = Some (lit "text/plain;charset=UTF-8")))
  /\ (answers (Part002.fetch req env) w r ->
      allow_origin r = Some (lit "*")
      /\ (status r = 500%N -> content_type r = Some (lit "text/plain;charset=UTF-8"))
      /\ (status r = 405%N -> content_type r = Some (lit "text/plain;charset=UTF-8")))
  /\ (answers (Index.fetch req env) w r ->
      allow_origin r = Some (lit "*")
      /\ (status r = 500%N -> content_type r = Some (lit "application/json"))
      /\ (status r = 405%N -> content_type r = Some (lit "text/plain;charset=UTF-8"))).
Proof.
  split; [apply Part000_dressing|]. split; [apply Part001B_dressing|].
  split; [apply Part002_dressing | apply Index_dressing].
Qed.

End Success.

(** ** A transcription service that is not available *)

Section TranscriptionDown.
Context {P : Platform}.
Variables (env : Env) (req : Request) (fd : FormData) (f : File).
Variables (w w1 : World) (o : option HttpResponse).
Hypothesis Hmethod : method req = lit "POST".
Hypothesis Hform : formData req = Some fd.
Hypothesis Haudio : FormData_get fd (lit "audio") = Some (EFile f).
Hypothesis Hdown : forall stt, o = Some stt -> ok stt = false.

Ltac down Hstt :=
  post_method Hmethod; unfold_monad; step Hform; step Haudio;
  try match goal with
      | H : (size f <? 100)%N = false |- _ => step H
      end;
  step Hstt; unfold unavailable_message;
  destruct o as [stt|]; [rewrite (Hdown eq_refl)|]; on_strings;
  try match goal with
      | |- context [Headers_fill [] ?r] => destruct (Headers_fill [] r)
      end;
  reflexivity.

(** X7. When the transcription service does not answer with success, be it
    that the fetch rejects or that the answer is not ok, the turn stops
    there in every revision: the transcription request is the only one
    made, and the answer is the 500 whose message is the runtime's for a
    rejected fetch, and otherwise "ElevenLabs STT Failed", followed by the
    upstream body in the first three revisions, by nothing in part_002 and
    by the status text in index.ts. In part_001 (first file) the answer is
    what the constructor makes of the headers of the policy. *)
Theorem transcription_failure_is_fatal :
  (network (Part000.stt_request env (file_bytes f)) w = (o, w1) ->
   run (Part000.fetch req env) w
   = (Val (Response_of
             (error_body (unavailable_message o (lit "ElevenLabs STT Failed: ") text)) 500
             Part000.corsHeaders),
      (w1, [Part000.stt_request env (file_bytes f)])))
  /\ (network (Part001A.stt_request env (file_bytes f)) w = (o, w1) ->
      run (Part001A.fetch req env) w
      = (Response_new
           (error_body (unavailable_message o (lit "ElevenLabs STT Failed: ") text)) 500
           (FromRecord (Part001A.getCorsHeaders req env)),
         (w1, [Part001A.stt_request env (file_bytes f)])))
  /\ ((100 <= size f)%N ->
      network (Part001B.stt_request env f) w = (o, w1) ->
      run (Part001B.fetch req env) w
      = (Val (Response_of
                (error_body (unavailable_message o (lit "ElevenLabs STT Failed: ") text)) 500
                Part001B.getCorsHeaders),
         (w1, [Part001B.stt_request env f])))
  /\ (network (Part002.stt_request env f) w = (o, w1) ->
      run (Part002.fetch req env) w
      = (Val (Response_of
                (error_body (unavailable_message o (lit "ElevenLabs STT Failed")
                               (fun _ => []))) 500
                Part002.getCorsHeaders),
         (w1, [Part002.stt_request env f])))
  /\ (network (Index.stt_request env f) w = (o, w1) ->
      run (Index.fetch req env) w
      = (Val (Index_failure
                (unavailable_message o (lit "ElevenLabs STT Failed: ") statusText)),
         (w1, [Index.stt_request env f]))).
Proof.
  split; [intros Hstt; unfold Part000.fetch; down Hstt|].
  split; [intros Hstt; unfold Part001A.fetch; down Hstt|].
  split; [intros Hsize Hstt; apply N.ltb_ge in Hsize; unfold Part001B.fetch; down Hstt|].
  split; [intros Hstt; unfold Part002.fetch; down Hstt|].
  intros Hstt; unfold Index.fetch; down Hstt.
Qed.

End TranscriptionDown.

(** ** A generation service that answers without a text *)

Section NoCandidate.
Context {P : Platform}.
Variables (env : Env) (req : Request) (fd : FormData) (f : File).
Variables (w w1 w2 : World) (stt gemini : HttpResponse) (geminiJson found : jsval).
Hypothesis Hmethod : method req = lit "POST".
Hypothesis Hform : formData req = Some fd.
Hypothesis Haudio : FormData_get fd (lit "audio") = Some (EFile f).
Hypothesis Hup : ok gemini = true.
Hypothesis Hjson : JSON_parse (text gemini) = Some geminiJson.
Hypothesis Hfound : first_candidate_text geminiJson = Val found.
Hypothesis Hnone : truthy found = false.

Ltac falls_back :=
  step Hup; unfold parse; step Hjson; step Hfound; unfold or_else; rewrite Hnone;
  on_strings;
  all_paths; (split; [reflexivity|]);
  intros r; leaf; header_lookup.

Lemma Part001B_no_candidate (t : jsstring) :
  (100 <= size f)%N ->
  network (Part001B.stt_request env f) w = (Some stt, w1) ->
  transcribed stt t -> ~ silent t ->
  network (Part001B.gemini_request env t) w1 = (Some gemini, w2) ->
  calls (Part001B.fetch req env) w
  = [Part001B.stt_request env f; Part001B.gemini_request env t;
     tts_request env (JStr silence_reply)]
  /\ forall r, answers (Part001B.fetch req env) w r -> successful r ->
       reply_text r = Some silence_reply.
Proof.
  intros Hsize Hstt Ht Hspoken Hgem. apply N.ltb_ge in Hsize.
  unfold answers, Part001B.fetch. post_method Hmethod. unfold_monad.
  step Hform. step Haudio. step Hsize. step Hstt. use_transcript Ht.
  step (spoken Hspoken). step Hgem. falls_back.
Qed.

Lemma Part002_no_candidate (t : jsstring) (entries : list jsval) :
  network (Part002.stt_request env f) w = (Some stt, w1) ->
  transcribed stt t -> ~ silent t ->
  spread (Part002.previousContext (FormData_get fd (lit "history"))) = Val entries ->
  network (Part002.gemini_request env entries (JStr t)) w1 = (Some gemini, w2) ->
  calls (Part002.fetch req env) w
  = [Part002.stt_request env f; Part002.gemini_request env entries (JStr t);
     tts_request env (JStr silence_reply)]
  /\ forall r, answers (Part002.fetch req env) w r -> successful r ->
       reply_text r = Some silence_reply.
Proof.
  intros Hstt Ht Hspoken Hctx Hgem.
  unfold answers, Part002.fetch. post_method Hmethod. unfold_monad.
  step Hform. step Haudio. step Hstt. use_transcript Ht.
  step (spoken Hspoken). step Hctx. step Hgem. falls_back.
Qed.

Lemma Part000_no_candidate (sttJson userText : jsval) (said : jsstring) :
  network (Part000.stt_request env (file_bytes f)) w = (Some stt, w1) ->
  ok stt = true ->
  JSON_parse (text stt) = Some sttJson ->
  get_field sttJson (lit "text") = Val userText ->
  ToString userText = Val said ->
  network (Part000.gemini_request env said) w1 = (Some gemini, w2) ->
  calls (Part000.fetch req env) w
  = [Part000.stt_request env (file_bytes f); Part000.gemini_request env said;
     tts_request env (JStr (lit "..."))]
  /\ forall r, answers (Part000.fetch req env) w r -> successful r ->
       reply_text r = Some (lit "...").
Proof.
  intros Hstt Hok Hparse Hget Hsaid Hgem.
  unfold answers, Part000.fetch. post_method Hmethod. unfold_monad.
  step Hform. step Haudio. step Hstt. step Hok. unfold parse. step Hparse. step Hget.
  step Hsaid. step Hgem. falls_back.
Qed.

Lemma Part001A_no_candidate (sttJson userText : jsval) (said : jsstring) :
  network (Part001A.stt_request env (file_bytes f)) w = (Some stt, w1) ->
  ok stt = true ->
  JSON_parse (text stt) = Some sttJson ->
  get_field sttJson (lit "text") = Val userText ->
  ToString userText = Val said ->
  network (Part001A.gemini_request env said) w1 = (Some gemini, w2) ->
  calls (Part001A.fetch req env) w
  = [Part001A.stt_request env (file_bytes f); Part001A.gemini_request env said;
     tts_request env (JStr (lit "..."))]
  /\ forall r, answers (Part001A.fetch req env) w r -> successful r ->
       reply_text r = Some (lit "...").
Proof.
  intros Hstt Hok Hparse Hget Hsaid Hgem.
  unfold answers, Part001A.fetch. post_method Hmethod. unfold_monad.
  step Hform. step Haudio. step Hstt. step Hok. unfold parse. step Hparse. step Hget.
  step Hsaid. step Hgem. falls_back.
Qed.

(** X8. When the generation service answers with success but without a text
    (no candidate, or an empty one), the raw-text revisions voice a fixed
    sentence: "..." in part_000 and part_001 (first file), and in the two
    short-circuit revisions the sentence of the silent case, "I couldn't
    hear you, Officer. Say again?", although the caller was heard. *)
Theorem generation_without_text_falls_back :
  (forall t,
     (100 <= size f)%N ->
     network (Part001B.stt_request env f) w = (Some stt, w1) ->
     transcribed stt t -> ~ silent t ->
     network (Part001B.gemini_request env t) w1 = (Some gemini, w2) ->
     calls (Part001B.fetch req env) w
     = [Part001B.stt_request env f; Part001B.gemini_request env t;
        tts_request env (JStr silence_reply)]
     /\ forall r, answers (Part001B.fetch req env) w r -> successful r ->
          reply_text r = Some silence_reply)
  /\ (forall t entries,
        network (Part002.stt_request env f) w = (Some stt, w1) ->
        transcribed stt t -> ~ silent t ->
        spread (Part002.previousContext (FormData_get fd (lit "history"))) = Val entries ->
        network (Part002.gemini_request env entries (JStr t)) w1 = (Some gemini, w2) ->
        calls (Part002.fetch req env) w
        = [Part002.stt_request env f; Part002.gemini_request env entries (JStr t);
           tts_request env (JStr silence_reply)]
        /\ forall r, answers (Part002.fetch req env) w r -> successful r ->
             reply_text r = Some silence_reply)
  /\ (forall sttJson userText said,
        ok stt = true ->
        JSON_parse (text stt) = Some sttJson ->
        get_field sttJson (lit "text") = Val userText ->
        ToString userText = Val said ->
        (network (Part000.stt_request env (file_bytes f)) w = (Some stt, w1) ->
         network (Part000.gemini_request env said) w1 = (Some gemini, w2) ->
         calls (Part000.fetch req env) w
         = [Part000.stt_request env (file_bytes f); Part000.gemini_request env said;
            tts_request env (JStr (lit "..."))]
         /\ forall r, answers (Part000.fetch req env) w r -> successful r ->
              reply_text r = Some (lit "..."))
        /\ (network (Part001A.stt_request env (file_bytes f)) w = (Some stt, w1) ->
            network (Part001A.gemini_request env said) w1 = (Some gemini, w2) ->
            calls (Part001A.fetch req env) w
            = [Part001A.stt_request env (file_bytes f); Part001A.gemini_request env said;
               tts_request env (JStr (lit "..."))]
            /\ forall r, answers (Part001A.fetch req env) w r -> successful r ->
                 reply_text r = Some (lit "..."))).
Proof.
  split; [intros t; apply Part001B_no_candidate|].
  split; [intros t entries; apply Part002_no_candidate|].
  intros sttJson userText said Hok Hparse Hget Hsaid. split.
  - intros Hstt Hgem. exact (Part000_no_candidate Hstt Hok Hparse Hget Hsaid Hgem).
  - intros Hstt Hgem. exact (Part001A_no_candidate Hstt Hok Hparse Hget Hsaid Hgem).
Qed.

End NoCandidate.

(** ** More on the structured output of index.ts *)

Section Score.
Context {P : Platform}.
Variables (env : Env) (req : Request) (fd : FormData) (f : File).
Variables (w w1 w2 w3 : World) (stt gemini tts : HttpResponse).
Variables (sttJson userText geminiData rawJSON brainData brainText compliance : jsval).
Variables (said raw reply : jsstring) (mapped : list jsval).
Hypothesis Hmethod : method req = lit "POST".
Hypothesis Hform : formData req = Some fd.
Hypothesis Haudio : FormData_get fd (lit "audio") = Some (EFile f).
Hypothesis Hstt : network (Index.stt_request env f) w = (Some stt, w1).
Hypothesis Hok : ok stt = true.
Hypothesis Hparse : JSON_parse (text stt) = Some sttJson.
Hypothesis Hget : get_field sttJson (lit "text") = Val userText.
Hypothesis Hsaid : ToString userText = Val said.
Hypothesis Hmap : Index.history_map (Index.history (FormData_get fd (lit "history"))) = Val mapped.
Hypothesis Hgem : network (Index.gemini_request env mapped userText) w1 = (Some gemini, w2).
Hypothesis Hdata : JSON_parse (text gemini) = Some geminiData.
Hypothesis Hraw : first_candidate_text geminiData = Val rawJSON.
Hypothesis Hfull : truthy rawJSON = true.
Hypothesis Htext : ToString rawJSON = Val raw.
Hypothesis Hbrain : JSON_parse raw = Some brainData.
Hypothesis Hreply : get_field brainData (lit "text") = Val brainText.
Hypothesis Htts : network (tts_request env brainText) w2 = (Some tts, w3).
Hypothesis Hsynth : ok tts = true.
Hypothesis Hheader : ToString brainText = Val reply.
Hypothesis Hscore : get_field brainData (lit "compliance") = Val compliance.

Ltac up_to_headers :=
  unfold Index.fetch; post_method Hmethod; unfold_monad;
  step Hform; step Haudio; step Hstt; step Hok; unfold parse; step Hparse; step Hget;
  step Hsaid; step Hmap; step Hgem; step Hdata; step Hraw; step Hfull; step Htext;
  step Hbrain; step Hreply; step Htts; step Hsynth; on_strings; step Hheader.

(** X9. index.ts never looks at the status of the generation answer: an
    answer whose body holds a candidate is used whatever its [ok] flag says.
    With a parsed output that has a text and a score, and the runtime taking
    the text, the transcript and the score as header values, the turn
    answers 200 with the synthesized audio and the three of them, each
    without the white space around it. *)
Theorem generation_status_is_not_tested (score reply' said' score' : jsstring) :
  header_value reply = Val reply' ->
  header_value said = Val said' ->
  call_toString compliance = Val score ->
  header_value score = Val score' ->
  run (Index.fetch req env) w
  = (Val (Index_answer reply' said' score' tts),
     (w3, asked env f userText mapped ++ [tts_request env brainText])).
Proof.
  intros Hr Hu Hs Hs'. up_to_headers. step Hr. step Hu. step Hscore. step Hs. step Hs'.
  reflexivity.
Qed.

(** X10. The score is read after the synthesis: a parsed output without
    [compliance] (absent or [null]) fails the turn with the runtime's
    TypeError message although the audio has been synthesized. *)
Theorem missing_score_fails_after_synthesis :
  compliance = JUndefined \/ compliance = JNull ->
  run (Index.fetch req env) w
  = (Val (Index_failure (message_of TypeError)),
     (w3, asked env f userText mapped ++ [tts_request env brainText])).
Proof.
  intros Hc. up_to_headers.
  destruct (header_value reply) as [reply'|e] eqn:Hr; unfold_monad;
    [|apply header_value_throws in Hr; subst e; on_strings; reflexivity].
  destruct (header_value said) as [said'|e] eqn:Hu; unfold_monad;
    [|apply header_value_throws in Hu; subst e; on_strings; reflexivity].
  step Hscore. destruct Hc as [Hc | Hc]; rewrite Hc; on_strings; reflexivity.
Qed.

(** X21. A text that the runtime refuses as a header value, one with a line
    feed, a carriage return or a NUL left inside, costs the whole turn after
    the audio has been synthesized: be it the reply, the transcript or the
    string of the score, index.ts answers the 500 of the runtime's
    TypeError. *)
Theorem refused_header_fails_after_synthesis (score : jsstring) :
  call_toString compliance = Val score ->
  (exists e, header_value reply = Exn e)
  \/ (exists e, header_value said = Exn e)
  \/ (exists e, header_value score = Exn e) ->
  run (Index.fetch req env) w
  = (Val (Index_failure (message_of TypeError)),
     (w3, asked env f userText mapped ++ [tts_request env brainText])).
Proof.
  intros Hs Hbad. up_to_headers.
  destruct (header_value reply) as [reply'|e] eqn:Hr; unfold_monad;
    [|apply header_value_throws in Hr; subst e; on_strings; reflexivity].
  destruct (header_value said) as [said'|e] eqn:Hu; unfold_monad;
    [|apply header_value_throws in Hu; subst e; on_strings; reflexivity].
  step Hscore. step Hs.
  destruct (header_value score) as [score'|e] eqn:Hs'; unfold_monad;
    [|apply header_value_throws in Hs'; subst e; on_strings; reflexivity].
  destruct Hbad as [[e He] | [[e He] | [e He]]]; discriminate He.
Qed.

End Score.

Section NoCandidates.
Context {P : Platform}.
Variables (env : Env) (req : Request) (fd : FormData) (f : File).
Variables (w w1 w2 : World) (stt gemini : HttpResponse).
Variables (sttJson userText : jsval) (said : jsstring) (mapped : list jsval).
Variable fields : list (jsstring * jsval).
Hypothesis Hmethod : method req = lit "POST".
Hypothesis Hform : formData req = Some fd.
Hypothesis Haudio : FormData_get fd (lit "audio") = Some (EFile f).
Hypothesis Hstt : network (Index.stt_request env f) w = (Some stt, w1).
Hypothesis Hok : ok stt = true.
Hypothesis Hparse : JSON_parse (text stt) = Some sttJson.
Hypothesis Hget : get_field sttJson (lit "text") = Val userText.
Hypothesis Hsaid : ToString userText = Val said.
Hypothesis Hmap : Index.history_map (Index.history (FormData_get fd (lit "history"))) = Val mapped.
Hypothesis Hgem : network (Index.gemini_request env mapped userText) w1 = (Some gemini, w2).
Hypothesis Hdata : JSON_parse (text gemini) = Some (JObj fields).

(** X11. An answer of the generation service that is a JSON object without
    candidates, as its error answers are, fails the turn of index.ts with
    "Gemini returned empty response": there is no fallback reply, and
    nothing is synthesized. *)
Theorem answer_without_candidates_fails :
  lookup (lit "candidates") fields = JUndefined
  \/ lookup (lit "candidates") fields = JArr [] ->
  run (Index.fetch req env) w
  = (Val (Index_failure (lit "Gemini returned empty response")),
     (w2, asked env f userText mapped)).
Proof.
  intros Hnone.
  unfold Index.fetch; post_method Hmethod; unfold_monad.
  step Hform; step Haudio; step Hstt; step Hok; unfold parse; step Hparse; step Hget.
  step Hsaid; step Hmap; step Hgem; step Hdata.
  unfold first_candidate_text, get_field.
  destruct Hnone as [Hnone | Hnone]; rewrite Hnone; on_strings; reflexivity.
Qed.

End NoCandidates.

(** ** The history field beyond its syntax *)

Lemma spread_not_iterable (v : jsval) :
  iterable v = false -> spread v = Exn (Runtime TypeError).
Proof. destruct v; simpl; congruence. Qed.

Lemma history_map_not_array (v : jsval) :
  is_array v = false -> Index.history_map v = Exn (Runtime TypeError).
Proof. destruct v; simpl; congruence. Qed.

Section HistoryShape.
Context {P : Platform}.
Variables (env : Env) (req : Request) (fd : FormData) (f : File).
Variables (w w1 : World) (stt : HttpResponse).
Hypothesis Hmethod : method req = lit "POST".
Hypothesis Hform : formData req = Some fd.
Hypothesis Haudio : FormData_get fd (lit "audio") = Some (EFile f).

(** X12. part_002 looks at the history only when it calls the generation
    service: on a silent transcript the turn runs exactly as without the
    history field, whatever that field holds. *)
Theorem silent_turn_ignores_history (t : jsstring) :
  network (Part002.stt_request env f) w = (Some stt, w1) ->
  transcribed stt t -> silent t ->
  run (Part002.fetch req env) w = run (Part002.fetch (drop_history req) env) w.
Proof.
  intros Hstt Ht Hsilent.
  unfold Part002.fetch, drop_history, request_formData. cbn [method formData].
  post_method Hmethod. rewrite Hform. cbn [option_map]. unfold_monad.
  rewrite (get_other_without_history fd) by reflexivity.
  step Haudio. step Hstt. use_transcript Ht. step (quiet Hsilent).
  reflexivity.
Qed.

(** X13. A history that parses, but not to a list, aborts the turn once the
    caller has been heard: in part_002 (on a spoken transcript) a history
    that is neither an array nor a string, and in index.ts one that is not an
    array, ends the turn after the transcription with the 500 of the
    runtime's TypeError, before any generation request. *)
Theorem history_that_is_no_list_is_fatal (h : jsstring) (v : jsval) :
  FormData_get fd (lit "history") = Some (EString h) ->
  JSON_parse h = Some v ->
  (forall t,
     iterable v = false ->
     network (Part002.stt_request env f) w = (Some stt, w1) ->
     transcribed stt t -> ~ silent t ->
     run (Part002.fetch req env) w
     = (Val (Response_of (error_body (message_of TypeError)) 500 Part002.getCorsHeaders),
        (w1, [Part002.stt_request env f])))
  /\ (forall sttJson userText said,
        is_array v = false -> h <> [] ->
        network (Index.stt_request env f) w = (Some stt, w1) ->
        ok stt = true ->
        JSON_parse (text stt) = Some sttJson ->
        get_field sttJson (lit "text") = Val userText ->
        ToString userText = Val said ->
        run (Index.fetch req env) w
        = (Val (Index_failure (message_of TypeError)), (w1, [Index.stt_request env f]))).
Proof.
  intros Hhistory Hv. split.
  - intros t Hshape Hstt Ht Hspoken.
    unfold Part002.fetch. post_method Hmethod. unfold_monad.
    step Hform. step Haudio. step Hstt. use_transcript Ht. step (spoken Hspoken).
    rewrite Hhistory. unfold Part002.previousContext, parse. rewrite Hv.
    step (spread_not_iterable v Hshape). on_strings. reflexivity.
  - intros sttJson userText said Hshape Hne Hstt Hok Hparse Hget Hsaid.
    unfold Index.fetch. post_method Hmethod. unfold_monad.
    step Hform. step Haudio. step Hstt. step Hok. unfold parse. step Hparse. step Hget.
    step Hsaid. rewrite Hhistory. unfold Index.history, parse.
    destruct h as [|c s]; [congruence|]. rewrite Hv.
    step (history_map_not_array v Hshape). on_strings. reflexivity.
Qed.

End HistoryShape.

(** ** The allowed origin of part_001 (first file) *)

Lemma str_or_nonempty (x : option jsstring) (d : jsstring) : d <> [] -> str_or x d <> [].
Proof. intros Hd. destruct x as [[|c s]|]; simpl; congruence. Qed.

Lemma localhost_nonempty : lit "http://localhost:5173" <> [].
Proof. vm_compute. discriminate. Qed.

Lemma default_origin_cases (env : Env) :
  In (default_origin env) (allow_list env)
  \/ default_origin env = lit "http://localhost:5173".
Proof.
  unfold default_origin.
  destruct (nth_error (allow_list env) 0) as [[|c s]|] eqn:E; simpl; auto.
  left. exact (nth_error_In _ _ E).
Qed.

Section Origin.
Context {P : Platform}.
Variables (req : Request) (env : Env).

(** The policy that [getCorsHeaders] writes: the origin it allows is a
    configured entry or the local one, and never empty. *)
Lemma cors_origin_value :
  exists v methods allowed,
    Part001A.getCorsHeaders req env =
      [(lit "Access-Control-Allow-Origin", v);
       (lit "Access-Control-Allow-Methods", methods);
       (lit "Access-Control-Allow-Headers", allowed);
       (lit "Access-Control-Max-Age", lit "86400")]
    /\ header_value methods = Val methods
    /\ header_value allowed = Val allowed
    /\ v <> []
    /\ (In v (allow_list env) \/ v = lit "http://localhost:5173")
    /\ (str_or (ALLOWED_ORIGINS env) (lit "") = [] -> v = lit "http://localhost:5173").
Proof.
  unfold Part001A.getCorsHeaders. cbv zeta. fold (allow_list env).
  assert (Hdefault :
    default_origin env <> []
    /\ (In (default_origin env) (allow_list env)
        \/ default_origin env = lit "http://localhost:5173")
    /\ (str_or (ALLOWED_ORIGINS env) (lit "") = [] ->
        default_origin env = lit "http://localhost:5173")).
  { split; [apply str_or_nonempty, localhost_nonempty|].
    split; [apply default_origin_cases|].
    intros Hnone. unfold default_origin, allow_list. rewrite Hnone. reflexivity. }
  fold (default_origin env).
  destruct (origin req) as [[|c o]|];
    try (do 3 eexists; split; [reflexivity|]; split; [reflexivity|];
         split; [reflexivity | exact Hdefault]).
  destruct (includes (allow_list env) (c :: o)) eqn:Hin;
    [|do 3 eexists; split; [reflexivity|]; split; [reflexivity|];
      split; [reflexivity | exact Hdefault]].
  do 3 eexists. split; [reflexivity|]. split; [reflexivity|]. split; [reflexivity|].
  split; [discriminate|].
  split; [left; apply includes_In; exact Hin|].
  intros Hnone. exfalso. unfold allow_list in Hin. rewrite Hnone in Hin.
  vm_compute in Hin. discriminate.
Qed.

(** X14. Whatever the request, the origin that an answer of part_001 (first
    file) allows is never made up by the caller: it is what the runtime
    stores of a non-empty entry of the configured list or of
    [http://localhost:5173], that is, the entry without the white space
    around it, and it is the local one for every request when
    ALLOWED_ORIGINS is absent or empty. *)
Theorem allowed_origin_is_configured (w : World) (r : Response) :
  answers (Part001A.fetch req env) w r ->
  exists v,
    allow_origin r = Some (header_normalize v)
    /\ v <> []
    /\ (In v (allow_list env) \/ v = lit "http://localhost:5173")
    /\ (str_or (ALLOWED_ORIGINS env) (lit "") = [] -> v = lit "http://localhost:5173").
Proof.
  intros Ha.
  destruct cors_origin_value as [v [methods [allowed [Hc [Hm [Hh Hv]]]]]].
  exists v. split; [|exact Hv].
  exact (proj1 (proj2 (Part001A_policy _ _ Hc Hm Hh Ha))).
Qed.

End Origin.

(** ** part_001 (first file) against part_000 *)

Section SameTurn.
Context {P : Platform}.
Variables (req : Request) (env : Env) (w : World).

Lemma Part001A_same_calls :
  snd (run (Part001A.fetch req env) w) = snd (run (Part000.fetch req env) w).
Proof.
  unfold Part001A.fetch, Part000.fetch.
  change Part001A.stt_request with Part000.stt_request.
  change Part001A.gemini_request with Part000.gemini_request.
  unfold_monad. all_paths; reflexivity.
Qed.

Lemma Part001A_same_answer :
  policy_accepted req env ->
  exists r0 r1,
    answers (Part000.fetch req env) w r0
    /\ answers (Part001A.fetch req env) w r1
    /\ status r1 = status r0
    /\ body r1 = body r0
    /\ reply_text r1 = reply_text r0
    /\ recognized_text r1 = recognized_text r0.
Proof.
  intros [h Hh]. cbn [Headers_new] in Hh.
  unfold Part001A.fetch, Part000.fetch.
  change Part001A.stt_request with Part000.stt_request.
  change Part001A.gemini_request with Part000.gemini_request.
  unfold_monad. rewrite Hh.
  all_paths;
    do 2 eexists;
    (split; [reflexivity|]); (split; [reflexivity|]);
    (split; [reflexivity|]); (split; [reflexivity|]);
    unfold reply_text, recognized_text;
    rewrite ?Response_of_get by reflexivity;
    unfold Response_of; cbn [headers body_type];
    split;
    (rewrite ?Headers_get_put_other by reflexivity;
     rewrite ?Headers_get_put_same;
     rewrite ?(Part001A_policy_absent _ _ _ Hh) by reflexivity;
     reflexivity).
Qed.

(** X15. The revision that made the CORS policy dynamic changed nothing
    else: on every request and in every world, part_001 (first file) makes
    the outbound requests of part_000 and leaves the same world, and, when
    the runtime takes the headers of its policy, it answers with the same
    status, payload, reply text and recognized text. *)
Theorem dynamic_cors_changes_nothing_else :
  snd (run (Part001A.fetch req env) w) = snd (run (Part000.fetch req env) w)
  /\ (policy_accepted req env ->
      exists r0 r1,
        answers (Part000.fetch req env) w r0
        /\ answers (Part001A.fetch req env) w r1
        /\ status r1 = status r0
        /\ body r1 = body r0
        /\ reply_text r1 = reply_text r0
        /\ recognized_text r1 = recognized_text r0).
Proof. split; [exact Part001A_same_calls | exact Part001A_same_answer]. Qed.

End SameTurn.

(** ** From the upload to the transcription *)

Section Upload.
Context {P : Platform}.
Variables (env : Env) (req : Request) (fd : FormData) (f : File) (w : World).
Hypothesis Hmethod : method req = lit "POST".
Hypothesis Hform : formData req = Some fd.
Hypothesis Haudio : FormData_get fd (lit "audio") = Some (EFile f).

(** X16. A POST with an audio file always reaches the transcription service
    first: part_000 and part_001 (first file) send its bytes wrapped again
    as [audio.webm], the three others the file as uploaded. The size guard
    of part_001 (second file) is exact: it is the recordings under 100
    bytes, and only they, that make no outbound request. *)
Theorem audio_reaches_transcription :
  (calls (Part001B.fetch req env) w = [] <-> (size f < 100)%N)
  /\ ((100 <= size f)%N ->
      exists rest, calls (Part001B.fetch req env) w = Part001B.stt_request env f :: rest)
  /\ (exists rest,
        calls (Part000.fetch req env) w = Part000.stt_request env (file_bytes f) :: rest)
  /\ (exists rest,
        calls (Part001A.fetch req env) w = Part001A.stt_request env (file_bytes f) :: rest)
  /\ (exists rest, calls (Part002.fetch req env) w = Part002.stt_request env f :: rest)
  /\ (exists rest, calls (Index.fetch req env) w = Index.stt_request env f :: rest).
Proof.
  split.
  { split.
    - intros Hnone. destruct (N.lt_ge_cases (size f) 100) as [Hlt | Hge]; [exact Hlt|].
      destruct (Part001B_first_call env req w Hmethod Hform Haudio Hge) as [rest Hc]. congruence.
    - intros Hlt.
      assert (Hshort : audio_below fd 100) by (exists f; split; assumption).
      exact (proj2 (Part001B_too_short env req w Hmethod Hform Hshort)). }
  split; [exact (Part001B_first_call env req w Hmethod Hform Haudio)|].
  split; [exact (Part000_first_call env req w Hmethod Hform Haudio)|].
  split; [exact (Part001A_first_call env req w Hmethod Hform Haudio)|].
  split; [exact (Part002_first_call env req w Hmethod Hform Haudio)
         | exact (Index_first_call env req w Hmethod Hform Haudio)].
Qed.

End Upload.

(** ** A transcript that is not a string *)

Section NotAString.
Context {P : Platform}.
Variables (env : Env) (req : Request) (fd : FormData) (f : File).
Variables (w w1 : World) (stt : HttpResponse) (sttJson heard : jsval).
Hypothesis Hmethod : method req = lit "POST".
Hypothesis Hform : formData req = Some fd.
Hypothesis Haudio : FormData_get fd (lit "audio") = Some (EFile f).
Hypothesis Hok : ok stt = true.
Hypothesis Hparse : JSON_parse (text stt) = Some sttJson.
Hypothesis Hget : get_field sttJson (lit "text") = Val heard.
Hypothesis Htruthy : truthy heard = true.
Hypothesis Hshape : forall s, heard <> JStr s.

Ltac not_a_string :=
  step Hok; unfold parse; step Hparse; step Hget; unfold or_else; rewrite Htruthy;
  destruct (ToString heard) as [said|e] eqn:Hsaid; unfold_monad;
  [ destruct heard; try (on_strings; reflexivity); exfalso; eapply Hshape; reflexivity
  | apply ToString_throws in Hsaid; subst e; on_strings; reflexivity ].

(** X17. The short-circuit revisions take the transcript for a string: a
    transcription answer whose [text] is truthy but not a string (a number,
    [true], an array, an object) ends the turn after the transcription, with
    the 500 of the runtime's TypeError. *)
Theorem transcript_must_be_a_string :
  ((100 <= size f)%N ->
   network (Part001B.stt_request env f) w = (Some stt, w1) ->
   run (Part001B.fetch req env) w
   = (Val (Response_of (error_body (message_of TypeError)) 500 Part001B.getCorsHeaders),
      (w1, [Part001B.stt_request env f])))
  /\ (network (Part002.stt_request env f) w = (Some stt, w1) ->
      run (Part002.fetch req env) w
      = (Val (Response_of (error_body (message_of TypeError)) 500 Part002.getCorsHeaders),
         (w1, [Part002.stt_request env f]))).
Proof.
  split.
  - intros Hsize Hstt. apply N.ltb_ge in Hsize.
    unfold Part001B.fetch. post_method Hmethod. unfold_monad.
    step Hform. step Haudio. step Hsize. step Hstt. not_a_string.
  - intros Hstt.
    unfold Part002.fetch. post_method Hmethod. unfold_monad.
    step Hform. step Haudio. step Hstt. not_a_string.
Qed.

End NotAString.

(** ** Histories of any content *)

Lemma map_msg_readable (msg : jsval) :
  readable msg = true -> exists out, Index.map_msg msg = Val out /\ mapped_entry msg out.
Proof.
  intros Hr. unfold Index.map_msg, mapped_entry.
  destruct msg; try discriminate; simpl; eexists; (split; [reflexivity|]);
    do 2 eexists; repeat split; reflexivity.
Qed.

Lemma map_msg_unreadable (msg : jsval) :
  readable msg = false -> Index.map_msg msg = Exn (Runtime TypeError).
Proof. destruct msg; try discriminate; reflexivity. Qed.

(** X18. The role mapping of index.ts works on any list: when every entry
    is something a property can be read from, the mapped list has the same
    length and order, each entry with the role "model" if its role is the
    string "assistant" and "user" otherwise (a missing role included); a
    [null] entry anywhere makes the mapping throw a TypeError. *)
Theorem role_mapping_on_any_list (items : list jsval) :
  (forallb readable items = true ->
   exists mapped,
     Index.history_map (JArr items) = Val mapped /\ Forall2 mapped_entry items mapped)
  /\ (forallb readable items = false ->
      Index.history_map (JArr items) = Exn (Runtime TypeError)).
Proof.
  cbn [Index.history_map]. induction items as [|msg items [IHok IHbad]].
  - split; [|discriminate]. intros _. exists []. split; [reflexivity | constructor].
  - cbn [forallb Index.map_all]. split.
    + intros H. apply andb_true_iff in H. destruct H as [Hm Hrest].
      destruct (map_msg_readable msg Hm) as [out [Hout Hentry]].
      destruct (IHok Hrest) as [mapped [Hmapped Hall]].
      exists (out :: mapped). rewrite Hout, Hmapped.
      split; [reflexivity | constructor; assumption].
    + intros H. apply andb_false_iff in H. destruct H as [Hm | Hrest].
      * rewrite (map_msg_unreadable msg Hm). reflexivity.
      * rewrite (IHbad Hrest). destruct (Index.map_msg msg) as [out|e] eqn:E; [reflexivity|].
        destruct (readable msg) eqn:Hm.
        -- destruct (map_msg_readable msg Hm) as [out [Hout _]]. congruence.
        -- rewrite (map_msg_unreadable msg Hm) in E. congruence.
Qed.

Section Spelling.
Context {P : Platform}.
Variables (env : Env) (req : Request) (fd : FormData) (f : File).
Variables (w w1 : World) (stt : HttpResponse) (h s t : jsstring).
Hypothesis Hmethod : method req = lit "POST".
Hypothesis Hform : formData req = Some fd.
Hypothesis Haudio : FormData_get fd (lit "audio") = Some (EFile f).
Hypothesis Hhistory : FormData_get fd (lit "history") = Some (EString h).
Hypothesis Hstring : JSON_parse h = Some (JStr s).
Hypothesis Hstt : network (Part002.stt_request env f) w = (Some stt, w1).
Hypothesis Ht : transcribed stt t.
Hypothesis Hspoken : ~ silent t.

(** X19. part_002 spreads whatever the history parses to: a history that is
    a JSON string reaches the generation service as one entry per code
    point of the string, before the current transcript. *)
Theorem string_history_is_spelled_out :
  exists g,
    filter is_generation (calls (Part002.fetch req env) w) = [g]
    /\ contents_of g = Some (map JStr (code_points s) ++ [user_turn (JStr t)]).
Proof.
  exists (Part002.gemini_request env (map JStr (code_points s)) (JStr t)). split.
  - unfold Part002.fetch. post_method Hmethod. unfold_monad.
    step Hform. step Haudio. step Hstt. use_transcript Ht.
    step (spoken Hspoken). rewrite Hhistory.
    unfold Part002.previousContext, parse. rewrite Hstring.
    cbv beta iota delta [spread]. unfold_monad.
    all_paths; reflexivity.
  - reflexivity.
Qed.

End Spelling.

(** ** A reply that is no header value *)

Section RefusedReply.
Context {P : Platform}.
Variables (env : Env) (req : Request) (fd : FormData) (f : File).
Variables (w w1 w2 w3 : World) (stt gemini tts : HttpResponse).
Variables (geminiJson found : jsval) (t reply : jsstring) (entries : list jsval).
Hypothesis Hmethod : method req = lit "POST".
Hypothesis Hform : formData req = Some fd.
Hypothesis Haudio : FormData_get fd (lit "audio") = Some (EFile f).
Hypothesis Ht : transcribed stt t.
Hypothesis Hspoken : ~ silent t.
Hypothesis Hup : ok gemini = true.
Hypothesis Hjson : JSON_parse (text gemini) = Some geminiJson.
Hypothesis Hfound : first_candidate_text geminiJson = Val found.
Hypothesis Htruthy : truthy found = true.
Hypothesis Hreply : ToString found = Val reply.
Hypothesis Htts : network (tts_request env found) w2 = (Some tts, w3).
Hypothesis Hsynth : ok tts = true.
Hypothesis Hrefused : forall stripped, header_value reply <> Val stripped.

Ltac refused :=
  step Hup; unfold parse; step Hjson; step Hfound; unfold or_else; rewrite Htruthy;
  step Hreply; step Htts; step Hsynth; on_strings;
  destruct (header_value reply) as [stripped|e] eqn:Hr;
  [ exfalso; exact (Hrefused eq_refl)
  | apply header_value_throws in Hr; subst e; unfold_monad; on_strings; reflexivity ].

(** X22. In the short-circuit revisions a reply of the generation service
    that the runtime refuses as a header value, one with a line feed left
    inside, is synthesized and then lost: the three services have been
    called when the turn answers the 500 of the runtime's TypeError. *)
Theorem refused_reply_is_synthesized_and_lost :
  ((100 <= size f)%N ->
   network (Part001B.stt_request env f) w = (Some stt, w1) ->
   network (Part001B.gemini_request env t) w1 = (Some gemini, w2) ->
   run (Part001B.fetch req env) w
   = (Val (Response_of (error_body (message_of TypeError)) 500 Part001B.getCorsHeaders),
      (w3, [Part001B.stt_request env f; Part001B.gemini_request env t;
            tts_request env found])))
  /\ (network (Part002.stt_request env f) w = (Some stt, w1) ->
      spread (Part002.previousContext (FormData_get fd (lit "history"))) = Val entries ->
      network (Part002.gemini_request env entries (JStr t)) w1 = (Some gemini, w2) ->
      run (Part002.fetch req env) w
      = (Val (Response_of (error_body (message_of TypeError)) 500 Part002.getCorsHeaders),
         (w3, [Part002.stt_request env f; Part002.gemini_request env entries (JStr t);
               tts_request env found]))).
Proof.
  split.
  - intros Hsize Hstt Hgem. apply N.ltb_ge in Hsize.
    unfold Part001B.fetch. post_method Hmethod. unfold_monad.
    step Hform. step Haudio. step Hsize. step Hstt. use_transcript Ht.
    step (spoken Hspoken). step Hgem. refused.
  - intros Hstt Hctx Hgem.
    unfold Part002.fetch. post_method Hmethod. unfold_monad.
    step Hform. step Haudio. step Hstt. use_transcript Ht.
    step (spoken Hspoken). step Hctx. step Hgem. refused.
Qed.

End RefusedReply.

(** ** The further properties on concrete turns *)

(** A listed origin: the preflight of part_001 (first file) is answered. *)
Lemma every_request_is_answered_witness :
  let P := Mock.platform Garbled.script in
  let req := mkRequest (lit "OPTIONS") (Some (lit "https://app.example.com")) None in
  policy_accepted req Mock.env
  /\ answered_in_kind req (Part001A.fetch req Mock.env) 0%nat.
Proof.
  intros P req.
  assert (Hp : policy_accepted req Mock.env) by (eexists; vm_compute; reflexivity).
  split; [exact Hp|].
  exact (proj1 (proj2 (@every_request_is_answered P req Mock.env 0%nat)) Hp).
Defined.

(** An allow-list written one origin a line: the preflight throws. *)
Lemma refused_policy_is_not_caught_witness :
  let P := Mock.platform Garbled.script in
  let req := mkRequest (lit "OPTIONS") (Some (lit "https://app.example.com")) None in
  ~ policy_accepted req Lines.env
  /\ result (Part001A.fetch req Lines.env) 0%nat = Exn (Runtime TypeError).
Proof.
  intros P req.
  assert (Hp : ~ policy_accepted req Lines.env).
  { intros [h Hh]. vm_compute in Hh. discriminate Hh. }
  split; [exact Hp|].
  exact (@refused_policy_is_not_caught P req Lines.env 0%nat Hp).
Defined.

(** The reply ends with a line feed: part_002 has it voiced as it is, and
    the header carries it without the line feed. *)
Lemma successful_answer_is_voiced_witness :
  let P := Mock.platform Trailing.script in
  let m := Part002.fetch (Mock.post Scenario.form) Mock.env in
  exists r,
    answers m 0%nat r /\ successful r
    /\ reply_text r = Some (lit "Nah man, still locked.")
    /\ In (tts_request Mock.env (JStr Trailing.reply)) (calls m 0%nat)
    /\ voiced Mock.env m 0%nat r
    /\ content_type r = Some (lit "audio/mpeg")
    /\ exposed_headers r = Some (lit "X-Ai-Text, X-User-Text").
Proof.
  intros P m. eexists.
  match goal with
  | |- ?A /\ ?S /\ _ =>
      assert (Ha : A) by (vm_compute; reflexivity);
      assert (Hs : S) by (split; [reflexivity | eexists; reflexivity])
  end.
  split; [exact Ha|]. split; [exact Hs|].
  split; [vm_compute; reflexivity|].
  split; [vm_compute; right; right; left; reflexivity|].
  exact (proj1 (proj2 (proj2 (proj2
           (@successful_answer_is_voiced P (Mock.post Scenario.form) Mock.env 0%nat _ Hs))))
           Ha).
Defined.

(** The failure of part_002 allows every origin and goes out as plain text. *)
Lemma answers_allow_every_origin_witness :
  let P := Mock.platform Leak.script in
  let r := Response_of (error_body (lit "ElevenLabs STT Failed")) 500 Part002.getCorsHeaders in
  answers (Part002.fetch (Mock.post Scenario.form) Mock.env) 0%nat r
  /\ allow_origin r = Some (lit "*")
  /\ (status r = 500%N -> content_type r = Some (lit "text/plain;charset=UTF-8"))
  /\ (status r = 405%N -> content_type r = Some (lit "text/plain;charset=UTF-8")).
Proof.
  intros P r.
  assert (Ha : answers (Part002.fetch (Mock.post Scenario.form) Mock.env) 0%nat r)
    by (vm_compute; reflexivity).
  split; [exact Ha|].
  exact (proj1 (proj2 (proj2
           (@answers_allow_every_origin P (Mock.post Scenario.form) Mock.env 0%nat r))) Ha).
Defined.

(** The transcription service refuses: part_002 stops there. *)
Lemma transcription_failure_is_fatal_witness :
  let P := Mock.platform Leak.script in
  let o := Some (Mock.failed (lit "Too Many Requests") Leak.refusal) in
  (forall stt, o = Some stt -> ok stt = false)
  /\ run (Part002.fetch (Mock.post Scenario.form) Mock.env) 0%nat
     = (Val (Response_of (error_body (lit "ElevenLabs STT Failed")) 500
               Part002.getCorsHeaders),
        (1%nat, [Part002.stt_request Mock.env Scenario.audio])).
Proof.
  intros P o.
  assert (Hdown : forall stt, o = Some stt -> ok stt = false).
  { intros stt H. inversion H. reflexivity. }
  split; [exact Hdown|].
  exact (proj1 (proj2 (proj2 (proj2
           (@transcription_failure_is_fatal P Mock.env (Mock.post Scenario.form)
              Scenario.form Scenario.audio 0%nat 1%nat o eq_refl eq_refl eq_refl Hdown))))
           eq_refl).
Defined.

(** No candidate: part_002 voices the sentence of the silent case. *)
Lemma generation_without_text_falls_back_witness :
  let P := Mock.platform Blocked.script in
  let m := Part002.fetch (Mock.post Scenario.form) Mock.env in
  ~ silent Outage.heard
  /\ calls m 0%nat
     = [Part002.stt_request Mock.env Scenario.audio;
        Part002.gemini_request Mock.env [] (JStr Outage.heard);
        tts_request Mock.env (JStr silence_reply)].
Proof.
  intros P m.
  assert (Hs : ~ silent Outage.heard) by (vm_compute; intros H; apply H; reflexivity).
  assert (Ht : transcribed (Mock.stt_ok Outage.heard) Outage.heard).
  { apply transcribed_mock. vm_compute. reflexivity. }
  split; [exact Hs|].
  assert (Hj : JSON_parse (lit "{" ++ Mock.quote (lit "candidates") ++ lit ":[]}")
               = Some (JObj [(lit "candidates", JArr [])])) by (vm_compute; reflexivity).
  exact (proj1 (proj1 (proj2
           (@generation_without_text_falls_back P Mock.env (Mock.post Scenario.form)
              Scenario.form Scenario.audio 0%nat 1%nat 2%nat
              (Mock.stt_ok Outage.heard)
              (mkHttp true (lit "OK")
                 (lit "{" ++ Mock.quote (lit "candidates") ++ lit ":[]}") [])
              (JObj [(lit "candidates", JArr [])]) JUndefined
              eq_refl eq_refl eq_refl eq_refl Hj eq_refl eq_refl))
           Outage.heard [] eq_refl Ht Hs eq_refl eq_refl)).
Defined.

(** A 429 whose body holds a candidate: index.ts answers 200. *)
Lemma generation_status_is_not_tested_witness :
  let P := Mock.platform Rude.script in
  ok Rude.gemini = false
  /\ call_toString (JNum 40%Q) = Val (lit "40")
  /\ run (Index.fetch (Mock.post Scenario.form) Mock.env) 0%nat
     = (Val (Index_answer (lit "Nah man, still locked.") Outage.heard (lit "40")
               (Mock.tts_ok Scenario.voice)),
        (3%nat,
         asked Mock.env Scenario.audio (JStr Outage.heard) []
         ++ [tts_request Mock.env (JStr (lit "Nah man, still locked."))])).
Proof.
  intros P. split; [reflexivity|]. split; [vm_compute; reflexivity|].
  apply (@generation_status_is_not_tested P Mock.env (Mock.post Scenario.form)
           Scenario.form Scenario.audio 0%nat 1%nat 2%nat 3%nat
           (Mock.stt_ok Outage.heard) Rude.gemini (Mock.tts_ok Scenario.voice)
           (JObj [(lit "text", JStr Outage.heard)]) (JStr Outage.heard)
           (Chat.parsed Talk.scored) (JStr Talk.scored)
           (JObj [(lit "text", JStr (lit "Nah man, still locked."));
                  (lit "compliance", JNum 40%Q)])
           (JStr (lit "Nah man, still locked.")) (JNum 40%Q)
           Outage.heard Talk.scored (lit "Nah man, still locked.") [])
    with (score := lit "40");
    vm_compute; reflexivity.
Defined.

(** An output without a score: the 500 comes after the synthesis. *)
Lemma missing_score_fails_after_synthesis_witness :
  let P := Mock.platform Unscored.script in
  JSON_parse Unscored.output = Some (JObj [(lit "text", JStr (lit "Nah man, still locked."))])
  /\ run (Index.fetch (Mock.post Scenario.form) Mock.env) 0%nat
     = (Val (Index_failure (lit "TypeError")),
        (3%nat,
         asked Mock.env Scenario.audio (JStr Outage.heard) []
         ++ [tts_request Mock.env (JStr (lit "Nah man, still locked."))])).
Proof.
  intros P. split; [vm_compute; reflexivity|].
  apply (@missing_score_fails_after_synthesis P Mock.env (Mock.post Scenario.form)
           Scenario.form Scenario.audio 0%nat 1%nat 2%nat 3%nat
           (Mock.stt_ok Outage.heard)
           (Mock.gemini_ok (Mock.quote (Mock.escaped Unscored.output)))
           (Mock.tts_ok Scenario.voice)
           (JObj [(lit "text", JStr Outage.heard)]) (JStr Outage.heard)
           (Chat.parsed Unscored.output) (JStr Unscored.output)
           (JObj [(lit "text", JStr (lit "Nah man, still locked."))])
           (JStr (lit "Nah man, still locked.")) JUndefined
           Outage.heard Unscored.output (lit "Nah man, still locked.") []);
    first [left; reflexivity | vm_compute; reflexivity].
Defined.

(** A reply with a line feed inside: index.ts has it synthesized, then
    answers 500. *)
Lemma refused_header_fails_after_synthesis_witness :
  let P := Mock.platform Broken.script in
  JSON_parse Broken.output
  = Some (JObj [(lit "text", JStr Broken.reply); (lit "compliance", JNum 40%Q)])
  /\ (exists e, header_value Broken.reply = Exn e)
  /\ run (Index.fetch (Mock.post Scenario.form) Mock.env) 0%nat
     = (Val (Index_failure (lit "TypeError")),
        (3%nat,
         asked Mock.env Scenario.audio (JStr Outage.heard) []
         ++ [tts_request Mock.env (JStr Broken.reply)])).
Proof.
  intros P.
  assert (Hbad : exists e, header_value Broken.reply = Exn e)
    by (eexists; vm_compute; reflexivity).
  split; [vm_compute; reflexivity|]. split; [exact Hbad|].
  apply (@refused_header_fails_after_synthesis P Mock.env (Mock.post Scenario.form)
           Scenario.form Scenario.audio 0%nat 1%nat 2%nat 3%nat
           (Mock.stt_ok Outage.heard)
           (Mock.gemini_ok (Mock.quote (Mock.escaped Broken.output)))
           (Mock.tts_ok Scenario.voice)
           (JObj [(lit "text", JStr Outage.heard)]) (JStr Outage.heard)
           (Chat.parsed Broken.output) (JStr Broken.output)
           (JObj [(lit "text", JStr Broken.reply); (lit "compliance", JNum 40%Q)])
           (JStr Broken.reply) (JNum 40%Q)
           Outage.heard Broken.output Broken.reply [])
    with (score := lit "40");
    first [left; exact Hbad | vm_compute; reflexivity].
Defined.

(** The refusal of the generation service fails the turn of index.ts. *)
Lemma answer_without_candidates_fails_witness :
  let P := Mock.platform Quota.script in
  JSON_parse (text Quota.gemini) = Some (JObj [(lit "error", JStr (lit "quota exceeded"))])
  /\ run (Index.fetch (Mock.post Scenario.form) Mock.env) 0%nat
     = (Val (Index_failure (lit "Gemini returned empty response")),
        (2%nat, asked Mock.env Scenario.audio (JStr Outage.heard) [])).
Proof.
  intros P. split; [vm_compute; reflexivity|].
  apply (@answer_without_candidates_fails P Mock.env (Mock.post Scenario.form)
           Scenario.form Scenario.audio 0%nat 1%nat 2%nat
           (Mock.stt_ok Outage.heard) Quota.gemini
           (JObj [(lit "text", JStr Outage.heard)]) (JStr Outage.heard)
           Outage.heard [] [(lit "error", JStr (lit "quota exceeded"))]);
    first [left; reflexivity | vm_compute; reflexivity].
Defined.

(** Silence: a history that is no list does no harm to part_002. *)
Lemma silent_turn_ignores_history_witness :
  let P := Mock.platform Scenario.hush in
  silent (lit "  ")
  /\ run (Part002.fetch (Mock.post Shapeless.form) Mock.env) 0%nat
     = run (Part002.fetch (Mock.post Scenario.form) Mock.env) 0%nat.
Proof.
  intros P.
  assert (Hs : silent (lit "  ")) by (vm_compute; discriminate).
  assert (Ht : transcribed (Mock.stt_ok (lit "  ")) (lit "  ")).
  { apply transcribed_mock. vm_compute. reflexivity. }
  split; [exact Hs|].
  exact (@silent_turn_ignores_history P Mock.env (Mock.post Shapeless.form)
           Shapeless.form Scenario.audio 0%nat 1%nat (Mock.stt_ok (lit "  "))
           eq_refl eq_refl eq_refl (lit "  ") eq_refl Ht Hs).
Defined.

(** The caller was heard: the same history aborts the turn of part_002. *)
Lemma history_that_is_no_list_is_fatal_witness :
  let P := Mock.platform Garbled.script in
  JSON_parse (lit "{}") = Some (JObj [])
  /\ ~ silent Outage.heard
  /\ run (Part002.fetch (Mock.post Shapeless.form) Mock.env) 0%nat
     = (Val (Response_of (error_body (lit "TypeError")) 500 Part002.getCorsHeaders),
        (1%nat, [Part002.stt_request Mock.env Scenario.audio])).
Proof.
  intros P.
  assert (Hv : JSON_parse (lit "{}") = Some (JObj [])) by (vm_compute; reflexivity).
  assert (Hs : ~ silent Outage.heard) by (vm_compute; intros H; apply H; reflexivity).
  assert (Ht : transcribed (Mock.stt_ok Outage.heard) Outage.heard).
  { apply transcribed_mock. vm_compute. reflexivity. }
  split; [exact Hv|]. split; [exact Hs|].
  exact (proj1 (@history_that_is_no_list_is_fatal P Mock.env (Mock.post Shapeless.form)
                  Shapeless.form Scenario.audio 0%nat 1%nat (Mock.stt_ok Outage.heard)
                  eq_refl eq_refl eq_refl (lit "{}") (JObj []) eq_refl Hv)
               Outage.heard eq_refl eq_refl Ht Hs).
Defined.

(** Without ALLOWED_ORIGINS every origin is answered with localhost. *)
Lemma allowed_origin_is_configured_witness :
  let P := Mock.platform (Mock.mkScript None None None) in
  let env := mkEnv (lit "xi-key") (lit "g-key") (lit "voice-1") None in
  let req := mkRequest (lit "OPTIONS") (Some (lit "https://app.example.com")) None in
  exists r,
    answers (Part001A.fetch req env) 0%nat r
    /\ allow_origin r = Some (lit "http://localhost:5173")
    /\ exists v,
         allow_origin r = Some (header_normalize v)
         /\ v <> []
         /\ (In v (allow_list env) \/ v = lit "http://localhost:5173")
         /\ (str_or (ALLOWED_ORIGINS env) (lit "") = [] -> v = lit "http://localhost:5173").
Proof.
  intros P env req. eexists.
  match goal with
  | |- ?A /\ _ => assert (Ha : A) by (vm_compute; reflexivity)
  end.
  split; [exact Ha|]. split; [vm_compute; reflexivity|].
  exact (@allowed_origin_is_configured P req env 0%nat _ Ha).
Defined.

(** A listed origin: the turn of part_001 (first file) is the turn of
    part_000. *)
Lemma dynamic_cors_changes_nothing_else_witness :
  let P := Mock.platform Garbled.script in
  let req := Mock.post Scenario.form in
  policy_accepted req Mock.env
  /\ exists r0 r1,
       answers (Part000.fetch req Mock.env) 0%nat r0
       /\ answers (Part001A.fetch req Mock.env) 0%nat r1
       /\ status r1 = status r0
       /\ body r1 = body r0
       /\ reply_text r1 = reply_text r0
       /\ recognized_text r1 = recognized_text r0.
Proof.
  intros P req.
  assert (Hp : policy_accepted req Mock.env) by (eexists; vm_compute; reflexivity).
  split; [exact Hp|].
  exact (proj2 (@dynamic_cors_changes_nothing_else P req Mock.env 0%nat) Hp).
Defined.

(** A recording of exactly 100 bytes passes the guard. *)
Lemma audio_reaches_transcription_witness :
  let P := Mock.platform (Mock.mkScript None None None) in
  let fd := [(lit "audio", EFile (Mock.recording 100))] in
  (100 <= size (Mock.recording 100))%N
  /\ exists rest,
       calls (Part001B.fetch (Mock.post fd) Mock.env) 0%nat
       = Part001B.stt_request Mock.env (Mock.recording 100) :: rest.
Proof.
  intros P fd.
  assert (Hsize : (100 <= size (Mock.recording 100))%N) by (vm_compute; discriminate).
  split; [exact Hsize|].
  exact (proj1 (proj2 (@audio_reaches_transcription P Mock.env (Mock.post fd) fd
                         (Mock.recording 100) 0%nat eq_refl eq_refl eq_refl)) Hsize).
Defined.

(** A transcript that is the number 5 ends the turn of part_002. *)
Lemma transcript_must_be_a_string_witness :
  let P := Mock.platform Counted.script in
  JSON_parse (text Counted.stt) = Some (JObj [(lit "text", JNum 5%Q)])
  /\ run (Part002.fetch (Mock.post Scenario.form) Mock.env) 0%nat
     = (Val (Response_of (error_body (lit "TypeError")) 500 Part002.getCorsHeaders),
        (1%nat, [Part002.stt_request Mock.env Scenario.audio])).
Proof.
  intros P.
  assert (Hp : JSON_parse (text Counted.stt) = Some (JObj [(lit "text", JNum 5%Q)]))
    by (vm_compute; reflexivity).
  split; [exact Hp|].
  refine (proj2 (@transcript_must_be_a_string P Mock.env (Mock.post Scenario.form)
                   Scenario.form Scenario.audio 0%nat 1%nat Counted.stt
                   (JObj [(lit "text", JNum 5%Q)]) (JNum 5%Q)
                   eq_refl eq_refl eq_refl eq_refl Hp eq_refl eq_refl _) eq_refl).
  intros s. discriminate.
Defined.

(** A list whose entries are all objects is mapped entry by entry. *)
Lemma role_mapping_on_any_list_witness :
  forallb readable (map prior_turn Dialogue.turns) = true
  /\ exists mapped,
       Index.history_map (JArr (map prior_turn Dialogue.turns)) = Val mapped
       /\ Forall2 mapped_entry (map prior_turn Dialogue.turns) mapped.
Proof.
  assert (Hr : forallb readable (map prior_turn Dialogue.turns) = true) by reflexivity.
  split; [exact Hr|].
  exact (proj1 (role_mapping_on_any_list (map prior_turn Dialogue.turns)) Hr).
Defined.

(** The history ["hi"] reaches the generation service letter by letter. *)
Lemma string_history_is_spelled_out_witness :
  let P := Mock.platform Dialogue.script in
  JSON_parse (Mock.quote (lit "hi")) = Some (JStr (lit "hi"))
  /\ exists g,
       filter is_generation (calls (Part002.fetch (Mock.post Spelled.form) Mock.env) 0%nat)
       = [g]
       /\ contents_of g
          = Some ([JStr (lit "h"); JStr (lit "i")] ++ [user_turn (JStr Outage.heard)]).
Proof.
  intros P.
  assert (Hp : JSON_parse (Mock.quote (lit "hi")) = Some (JStr (lit "hi")))
    by (vm_compute; reflexivity).
  assert (Hs : ~ silent Outage.heard) by (vm_compute; intros H; apply H; reflexivity).
  assert (Ht : transcribed (Mock.stt_ok Outage.heard) Outage.heard).
  { apply transcribed_mock. vm_compute. reflexivity. }
  split; [exact Hp|].
  exact (@string_history_is_spelled_out P Mock.env (Mock.post Spelled.form) Spelled.form
           Scenario.audio 0%nat 1%nat (Mock.stt_ok Outage.heard)
           (Mock.quote (lit "hi")) (lit "hi") Outage.heard
           eq_refl eq_refl eq_refl eq_refl Hp eq_refl Ht Hs).
Defined.

(** A reply with a line feed inside: part_002 has it synthesized, then
    answers 500. *)
Lemma refused_reply_is_synthesized_and_lost_witness :
  let P := Mock.platform Broken.raw_script in
  ~ silent Outage.heard
  /\ (forall stripped, header_value Broken.reply <> Val stripped)
  /\ run (Part002.fetch (Mock.post Scenario.form) Mock.env) 0%nat
     = (Val (Response_of (error_body (lit "TypeError")) 500 Part002.getCorsHeaders),
        (3%nat,
         [Part002.stt_request Mock.env Scenario.audio;
          Part002.gemini_request Mock.env [] (JStr Outage.heard);
          tts_request Mock.env (JStr Broken.reply)])).
Proof.
  intros P.
  assert (Hs : ~ silent Outage.heard) by (vm_compute; intros H; apply H; reflexivity).
  assert (Ht : transcribed (Mock.stt_ok Outage.heard) Outage.heard).
  { apply transcribed_mock. vm_compute. reflexivity. }
  assert (Hbad : forall stripped, header_value Broken.reply <> Val stripped).
  { intros stripped H. vm_compute in H. discriminate H. }
  split; [exact Hs|]. split; [exact Hbad|].
  refine (proj2 (@refused_reply_is_synthesized_and_lost P Mock.env (Mock.post Scenario.form)
                   Scenario.form Scenario.audio 0%nat 1%nat 2%nat 3%nat
                   (Mock.stt_ok Outage.heard)
                   (Mock.gemini_ok
                      (Mock.quote (lit "Nah man," ++ [92; 110]%N ++ lit "still locked.")))
                   (Mock.tts_ok Scenario.voice)
                   (Chat.parsed Broken.reply) (JStr Broken.reply) Outage.heard Broken.reply []
                   eq_refl eq_refl eq_refl Ht Hs eq_refl _ eq_refl eq_refl eq_refl
                   eq_refl eq_refl Hbad) eq_refl eq_refl eq_refl).
  vm_compute. reflexivity.
Defined.
